(** * myWatchTracker: the TimingRun data model and its operations

    A shallow embedding of [myWatchTracker.py].  Numbers are IEEE-754
    binary64 values (NumPy [float64] and Python [float]) and 64-bit
    integers (NumPy [int64]); NumPy arrays live in a store and are
    reached through references, because the program shares them between
    an object and its [_original_data] dictionary and mutates them in
    place. *)

From Stdlib Require Import ZArith Bool List Ascii String Lia.
From Stdlib Require Import Floats.SpecFloat.
From stdpp Require Import base option list.
Import ListNotations.
Local Open Scope Z_scope.

(** ** Binary64 arithmetic *)

Module Float64.

Definition prec : Z := 53.
Definition emax : Z := 1024.

Definition float64 : Type := spec_float.

Definition add : float64 -> float64 -> float64 := SFadd prec emax.
Definition sub : float64 -> float64 -> float64 := SFsub prec emax.
Definition mul : float64 -> float64 -> float64 := SFmul prec emax.
Definition div : float64 -> float64 -> float64 := SFdiv prec emax.
Definition abs : float64 -> float64 := SFabs.

Definition zero : float64 := S754_zero false.
Definition nan : float64 := S754_nan.

(** Conversion of an integer, rounding to nearest even. *)
Definition of_int (z : Z) : float64 := binary_normalize prec emax z 0 false.

Definition is_nan (x : float64) : bool :=
  match x with S754_nan => true | _ => false end.

Definition is_inf (x : float64) : bool :=
  match x with S754_infinity _ => true | _ => false end.

(** [x >= y], false as soon as one side is NaN. *)
Definition geb (x y : float64) : bool :=
  match SFcompare x y with
  | Some Eq | Some Gt => true
  | _ => false
  end.

Definition gtb (x y : float64) : bool := SFltb y x.
Definition eqb (x y : float64) : bool := SFeqb x y.

(** Truncation toward zero of a finite value. *)
Definition trunc (x : float64) : option Z :=
  match x with
  | S754_zero _ => Some 0
  | S754_finite s m e =>
      let a := match e with
               | Zneg p => Z.shiftr (Zpos m) (Zpos p)
               | _ => Z.shiftl (Zpos m) e
               end in
      Some (if s then - a else a)
  | _ => None
  end.

End Float64.

Export Float64.

(** ** 64-bit integers *)

Definition int64_min : Z := - 2 ^ 63.
Definition int64_max : Z := 2 ^ 63 - 1.

Definition in_int64 (z : Z) : bool := (int64_min <=? z) && (z <=? int64_max).

(** Two's complement wrap-around of [int64] arithmetic. *)
Definition wrap64 (z : Z) : Z := (z + 2 ^ 63) mod 2 ^ 64 - 2 ^ 63.

(** The C cast NumPy applies when a [float64] is stored into an [int64]
    array: truncation toward zero; NaN, the infinities and values out of
    range give the "integer indefinite" value of x86-64. *)
Definition float64_to_int64 (x : float64) : Z :=
  match trunc x with
  | Some z => if in_int64 z then z else int64_min
  | None => int64_min
  end.

(** ** Python values, exceptions and the built-in conversions *)

Inductive pyval : Type :=
  | PyNone
  | PyInt (z : Z)
  | PyFloat (x : float64)
  | PyStr (s : string).

Inductive exn : Type :=
  | TypeError
  | ValueError
  | IndexError
  | KeyError
  | OverflowError
  | OSError
  | Stuck.  (* not a Python exception: a dangling or ill-typed reference *)

Inductive Res (A : Type) : Type :=
  | Ok (a : A)
  | Raise (e : exn).

Arguments Ok {A} a.
Arguments Raise {A} e.

Definition is_ok {A} (r : Res A) : bool :=
  match r with Ok _ => true | Raise _ => false end.

(** What the interpreter and the libraries decide and the program does
    not: how [float] and [int] read a string; how
    [datetime.fromtimestamp(t).isoformat()] renders an instant, or which
    exception it raises ([ValueError], [OverflowError] or [OSError], by
    value and platform); and what [round(x, ndigits)] makes of a NumPy
    float. *)
Class PyBuiltins : Type := {
  float_of_str : string -> option float64;
  int_of_str : string -> option Z;
  fromtimestamp_isoformat : Z -> Res string;
  round_ndigits : float64 -> Z -> float64
}.

Section Conversions.

Context {py : PyBuiltins}.

(** [float(v)] *)
Definition py_float (v : pyval) : Res float64 :=
  match v with
  | PyNone => Raise TypeError
  | PyInt z => if is_inf (of_int z) then Raise OverflowError else Ok (of_int z)
  | PyFloat x => Ok x
  | PyStr s => match float_of_str s with
               | Some x => Ok x
               | None => Raise ValueError
               end
  end.

(** [int(v)] *)
Definition py_int (v : pyval) : Res Z :=
  match v with
  | PyNone => Raise TypeError
  | PyInt z => Ok z
  | PyFloat x =>
      match trunc x with
      | Some z => Ok z
      | None => if is_nan x then Raise ValueError else Raise OverflowError
      end
  | PyStr s => match int_of_str s with
               | Some z => Ok z
               | None => Raise ValueError
               end
  end.

End Conversions.

(** [a + b] and [a * k] on Python numbers; on strings, concatenation and
    repetition. *)
Definition py_add (a b : pyval) : Res pyval :=
  match a, b with
  | PyInt x, PyInt y => Ok (PyInt (x + y))
  | PyInt x, PyFloat y =>
      if is_inf (of_int x) then Raise OverflowError else Ok (PyFloat (add (of_int x) y))
  | PyFloat x, PyInt y =>
      if is_inf (of_int y) then Raise OverflowError else Ok (PyFloat (add x (of_int y)))
  | PyFloat x, PyFloat y => Ok (PyFloat (add x y))
  | PyStr x, PyStr y => Ok (PyStr (x ++ y)%string)
  | _, _ => Raise TypeError
  end.

Fixpoint str_repeat (s : string) (n : nat) : string :=
  match n with
  | O => EmptyString
  | S n' => (s ++ str_repeat s n')%string
  end.

Definition py_mul_int (a : pyval) (k : Z) : Res pyval :=
  match a with
  | PyNone => Raise TypeError
  | PyInt x => Ok (PyInt (x * k))
  | PyFloat x => Ok (PyFloat (mul x (of_int k)))
  | PyStr s => Ok (PyStr (str_repeat s (Z.to_nat k)))
  end.

(** ** NumPy primitives on one-dimensional arrays *)

Module Np.

(** A Python index: negative values count from the end. *)
Definition norm_index (len : nat) (i : Z) : option nat :=
  if (0 <=? i) && (i <? Z.of_nat len) then Some (Z.to_nat i)
  else if (- Z.of_nat len <=? i) && (i <? 0) then Some (Z.to_nat (i + Z.of_nat len))
  else None.

(** [a[i]] *)
Definition getitem {A} (xs : list A) (i : Z) : Res A :=
  match norm_index (length xs) i with
  | Some n => match xs !! n with
              | Some x => Ok x
              | None => Raise IndexError
              end
  | None => Raise IndexError
  end.

(** [a[i] = v] *)
Definition setitem {A} (xs : list A) (i : Z) (v : A) : Res (list A) :=
  match norm_index (length xs) i with
  | Some n => Ok (<[n := v]> xs)
  | None => Raise IndexError
  end.

(** [np.delete(a, i)] *)
Definition delete {A} (xs : list A) (i : Z) : Res (list A) :=
  match norm_index (length xs) i with
  | Some n => Ok (base.delete n xs)
  | None => Raise IndexError
  end.

(** [np.insert(a, i, v)]: [v] is placed before position [i]; [i] may equal
    the length. *)
Definition insert {A} (xs : list A) (i : Z) (v : A) : Res (list A) :=
  let len := Z.of_nat (length xs) in
  if (i <? - len) || (len <? i) then Raise IndexError
  else
    let n := Z.to_nat (if i <? 0 then i + len else i) in
    Ok (take n xs ++ v :: drop n xs).

(** [a[n1:]] for a non-negative [n1] *)
Definition slice_from {A} (xs : list A) (n1 : nat) : list A := drop n1 xs.

(** [np.hstack((a, b))] *)
Definition hstack {A} (xs ys : list A) : list A := xs ++ ys.

(** The scan of [np.argmin] over [float64]: a later element replaces the
    minimum when it is not [>=] it, and the scan stops at a NaN. *)
Fixpoint argmin_scan (mp : float64) (best i : nat) (xs : list float64) : nat :=
  match xs with
  | [] => best
  | x :: xs' =>
      if geb x mp then argmin_scan mp best (S i) xs'
      else if is_nan x then i
      else argmin_scan x i (S i) xs'
  end.

Definition argmin (xs : list float64) : Res Z :=
  match xs with
  | [] => Raise ValueError
  | x :: xs' =>
      if is_nan x then Ok 0 else Ok (Z.of_nat (argmin_scan x 0 1 xs'))
  end.

(** [np.arange(0, num)] as [float64] *)
Definition arange (num : nat) : list float64 :=
  map (fun i => of_int (Z.of_nat i)) (seq 0 num).

(** [np.linspace(start, stop, num)] with [endpoint=True] *)
Definition linspace (start stop : float64) (num : nat) : list float64 :=
  let dv := Z.of_nat num - 1 in
  let delta := sub stop start in
  let y := arange num in
  let y :=
    if 0 <? dv then
      let step := div delta (of_int dv) in
      if eqb step zero
      then map (fun v => mul (div v (of_int dv)) delta) y
      else map (fun v => mul v step) y
    else map (fun v => mul v delta) y in
  let y := map (fun v => add v start) y in
  if 1 <? Z.of_nat num then <[(num - 1)%nat := stop]> y else y.

(** A Python scalar as operand of a [float64] array: integers outside
    the 64-bit range become [object] and the operation is refused. *)
Definition float64_operand (v : pyval) : Res float64 :=
  match v with
  | PyInt z => if (int64_min <=? z) && (z <? 2 ^ 64) then Ok (of_int z) else Raise TypeError
  | PyFloat x => Ok x
  | _ => Raise TypeError
  end.

(** A Python scalar as operand of an in-place operation on an [int64]
    array: only an integer that fits keeps the result [int64]; a float
    result cannot be cast back ([same_kind] casting). *)
Definition int64_operand (v : pyval) : Res Z :=
  match v with
  | PyInt z => if in_int64 z then Ok z else Raise TypeError
  | _ => Raise TypeError
  end.

(** [a += v] and [a -= v] *)
Definition iadd_float64 (xs : list float64) (v : pyval) : Res (list float64) :=
  match float64_operand v with
  | Ok d => Ok (map (fun x => add x d) xs)
  | Raise e => Raise e
  end.

Definition isub_float64 (xs : list float64) (v : pyval) : Res (list float64) :=
  match float64_operand v with
  | Ok d => Ok (map (fun x => sub x d) xs)
  | Raise e => Raise e
  end.

Definition iadd_int64 (xs : list Z) (v : pyval) : Res (list Z) :=
  match int64_operand v with
  | Ok d => Ok (map (fun x => wrap64 (x + d)) xs)
  | Raise e => Raise e
  end.

Definition isub_int64 (xs : list Z) (v : pyval) : Res (list Z) :=
  match int64_operand v with
  | Ok d => Ok (map (fun x => wrap64 (x - d)) xs)
  | Raise e => Raise e
  end.

(** A string stored into an array of dtype [<U w] keeps its first [w]
    characters. *)
Definition fit (w : nat) (s : string) : string := String.substring 0 w s.

(** The width [np.array] gives a list of strings. *)
Definition str_width (xs : list string) : nat :=
  foldr (fun s w => Nat.max (String.length s) w) 1%nat xs.

End Np.

(** ** The store of arrays *)

Inductive ndarray : Type :=
  | Float64Arr (xs : list float64)
  | Int64Arr (xs : list Z)
  | StrArr (w : nat) (xs : list string)
  | OtherArr (n : nat).  (* [n] entries of a dtype that is not modelled *)

(** A reference is a position in the store. *)
Abbreviation loc := nat (only parsing).
Abbreviation heap := (list ndarray) (only parsing).

Definition alloc (h : heap) (a : ndarray) : loc * heap := (length h, h ++ [a]).

Definition len_array (a : ndarray) : nat :=
  match a with
  | Float64Arr xs => length xs
  | Int64Arr xs => length xs
  | StrArr _ xs => length xs
  | OtherArr n => n
  end.

(** ** The TimingRun object *)

(** The dictionary [_original_data].  Its array entries are references:
    the constructor stores the arrays themselves, not copies. *)
Record OriginalData : Type := {
  od_watch : string;
  od_watch_index : Z;
  od_file : string;
  od_path : string;
  od_header : list string;
  od_time : loc;
  od_offset : loc;
  od_comment : loc;
  od_unix_time : loc;
  od_atomic_clock_error : loc;
  od_ios_clock_offset : loc
}.

Record TimingRun : Type := {
  _class_type : string;
  _ok : bool;
  _path : string;
  _file : string;
  _watch : string;
  _watch_index : Z;
  _time : loc;
  _offset : loc;
  _comment : loc;
  _unix_time : loc;
  _atomic_clock_error : loc;
  _ios_clock_offset : loc;
  _header : list string;
  _other_files : list string;
  _point_index : Z;
  _offset_shifted : pyval;
  _time_shifted : pyval;
  _original_data : option OriginalData;   (* [None] is the empty dictionary *)
  _comments : option (list string)        (* the attribute [linspaceTime] creates *)
}.

Definition set_watch (v : string) (r : TimingRun) : TimingRun :=
  {| _class_type := _class_type r; _ok := _ok r; _path := _path r; _file := _file r;
     _watch := v; _watch_index := _watch_index r;
     _time := _time r; _offset := _offset r; _comment := _comment r;
     _unix_time := _unix_time r; _atomic_clock_error := _atomic_clock_error r;
     _ios_clock_offset := _ios_clock_offset r; _header := _header r;
     _other_files := _other_files r; _point_index := _point_index r;
     _offset_shifted := _offset_shifted r; _time_shifted := _time_shifted r;
     _original_data := _original_data r; _comments := _comments r |}.

Definition set_watch_index (v : Z) (r : TimingRun) : TimingRun :=
  {| _class_type := _class_type r; _ok := _ok r; _path := _path r; _file := _file r;
     _watch := _watch r; _watch_index := v;
     _time := _time r; _offset := _offset r; _comment := _comment r;
     _unix_time := _unix_time r; _atomic_clock_error := _atomic_clock_error r;
     _ios_clock_offset := _ios_clock_offset r; _header := _header r;
     _other_files := _other_files r; _point_index := _point_index r;
     _offset_shifted := _offset_shifted r; _time_shifted := _time_shifted r;
     _original_data := _original_data r; _comments := _comments r |}.

Definition set_file (v : string) (r : TimingRun) : TimingRun :=
  {| _class_type := _class_type r; _ok := _ok r; _path := _path r; _file := v;
     _watch := _watch r; _watch_index := _watch_index r;
     _time := _time r; _offset := _offset r; _comment := _comment r;
     _unix_time := _unix_time r; _atomic_clock_error := _atomic_clock_error r;
     _ios_clock_offset := _ios_clock_offset r; _header := _header r;
     _other_files := _other_files r; _point_index := _point_index r;
     _offset_shifted := _offset_shifted r; _time_shifted := _time_shifted r;
     _original_data := _original_data r; _comments := _comments r |}.

Definition set_path (v : string) (r : TimingRun) : TimingRun :=
  {| _class_type := _class_type r; _ok := _ok r; _path := v; _file := _file r;
     _watch := _watch r; _watch_index := _watch_index r;
     _time := _time r; _offset := _offset r; _comment := _comment r;
     _unix_time := _unix_time r; _atomic_clock_error := _atomic_clock_error r;
     _ios_clock_offset := _ios_clock_offset r; _header := _header r;
     _other_files := _other_files r; _point_index := _point_index r;
     _offset_shifted := _offset_shifted r; _time_shifted := _time_shifted r;
     _original_data := _original_data r; _comments := _comments r |}.

Definition set_header (v : list string) (r : TimingRun) : TimingRun :=
  {| _class_type := _class_type r; _ok := _ok r; _path := _path r; _file := _file r;
     _watch := _watch r; _watch_index := _watch_index r;
     _time := _time r; _offset := _offset r; _comment := _comment r;
     _unix_time := _unix_time r; _atomic_clock_error := _atomic_clock_error r;
     _ios_clock_offset := _ios_clock_offset r; _header := v;
     _other_files := _other_files r; _point_index := _point_index r;
     _offset_shifted := _offset_shifted r; _time_shifted := _time_shifted r;
     _original_data := _original_data r; _comments := _comments r |}.

Definition set_time (v : loc) (r : TimingRun) : TimingRun :=
  {| _class_type := _class_type r; _ok := _ok r; _path := _path r; _file := _file r;
     _watch := _watch r; _watch_index := _watch_index r;
     _time := v; _offset := _offset r; _comment := _comment r;
     _unix_time := _unix_time r; _atomic_clock_error := _atomic_clock_error r;
     _ios_clock_offset := _ios_clock_offset r; _header := _header r;
     _other_files := _other_files r; _point_index := _point_index r;
     _offset_shifted := _offset_shifted r; _time_shifted := _time_shifted r;
     _original_data := _original_data r; _comments := _comments r |}.

Definition set_offset (v : loc) (r : TimingRun) : TimingRun :=
  {| _class_type := _class_type r; _ok := _ok r; _path := _path r; _file := _file r;
     _watch := _watch r; _watch_index := _watch_index r;
     _time := _time r; _offset := v; _comment := _comment r;
     _unix_time := _unix_time r; _atomic_clock_error := _atomic_clock_error r;
     _ios_clock_offset := _ios_clock_offset r; _header := _header r;
     _other_files := _other_files r; _point_index := _point_index r;
     _offset_shifted := _offset_shifted r; _time_shifted := _time_shifted r;
     _original_data := _original_data r; _comments := _comments r |}.

Definition set_comment (v : loc) (r : TimingRun) : TimingRun :=
  {| _class_type := _class_type r; _ok := _ok r; _path := _path r; _file := _file r;
     _watch := _watch r; _watch_index := _watch_index r;
     _time := _time r; _offset := _offset r; _comment := v;
     _unix_time := _unix_time r; _atomic_clock_error := _atomic_clock_error r;
     _ios_clock_offset := _ios_clock_offset r; _header := _header r;
     _other_files := _other_files r; _point_index := _point_index r;
     _offset_shifted := _offset_shifted r; _time_shifted := _time_shifted r;
     _original_data := _original_data r; _comments := _comments r |}.

Definition set_unix_time (v : loc) (r : TimingRun) : TimingRun :=
  {| _class_type := _class_type r; _ok := _ok r; _path := _path r; _file := _file r;
     _watch := _watch r; _watch_index := _watch_index r;
     _time := _time r; _offset := _offset r; _comment := _comment r;
     _unix_time := v; _atomic_clock_error := _atomic_clock_error r;
     _ios_clock_offset := _ios_clock_offset r; _header := _header r;
     _other_files := _other_files r; _point_index := _point_index r;
     _offset_shifted := _offset_shifted r; _time_shifted := _time_shifted r;
     _original_data := _original_data r; _comments := _comments r |}.

Definition set_atomic_clock_error (v : loc) (r : TimingRun) : TimingRun :=
  {| _class_type := _class_type r; _ok := _ok r; _path := _path r; _file := _file r;
     _watch := _watch r; _watch_index := _watch_index r;
     _time := _time r; _offset := _offset r; _comment := _comment r;
     _unix_time := _unix_time r; _atomic_clock_error := v;
     _ios_clock_offset := _ios_clock_offset r; _header := _header r;
     _other_files := _other_files r; _point_index := _point_index r;
     _offset_shifted := _offset_shifted r; _time_shifted := _time_shifted r;
     _original_data := _original_data r; _comments := _comments r |}.

Definition set_ios_clock_offset (v : loc) (r : TimingRun) : TimingRun :=
  {| _class_type := _class_type r; _ok := _ok r; _path := _path r; _file := _file r;
     _watch := _watch r; _watch_index := _watch_index r;
     _time := _time r; _offset := _offset r; _comment := _comment r;
     _unix_time := _unix_time r; _atomic_clock_error := _atomic_clock_error r;
     _ios_clock_offset := v; _header := _header r;
     _other_files := _other_files r; _point_index := _point_index r;
     _offset_shifted := _offset_shifted r; _time_shifted := _time_shifted r;
     _original_data := _original_data r; _comments := _comments r |}.

Definition set_other_files (v : list string) (r : TimingRun) : TimingRun :=
  {| _class_type := _class_type r; _ok := _ok r; _path := _path r; _file := _file r;
     _watch := _watch r; _watch_index := _watch_index r;
     _time := _time r; _offset := _offset r; _comment := _comment r;
     _unix_time := _unix_time r; _atomic_clock_error := _atomic_clock_error r;
     _ios_clock_offset := _ios_clock_offset r; _header := _header r;
     _other_files := v; _point_index := _point_index r;
     _offset_shifted := _offset_shifted r; _time_shifted := _time_shifted r;
     _original_data := _original_data r; _comments := _comments r |}.

Definition set_point_index (v : Z) (r : TimingRun) : TimingRun :=
  {| _class_type := _class_type r; _ok := _ok r; _path := _path r; _file := _file r;
     _watch := _watch r; _watch_index := _watch_index r;
     _time := _time r; _offset := _offset r; _comment := _comment r;
     _unix_time := _unix_time r; _atomic_clock_error := _atomic_clock_error r;
     _ios_clock_offset := _ios_clock_offset r; _header := _header r;
     _other_files := _other_files r; _point_index := v;
     _offset_shifted := _offset_shifted r; _time_shifted := _time_shifted r;
     _original_data := _original_data r; _comments := _comments r |}.

Definition set_offset_shifted (v : pyval) (r : TimingRun) : TimingRun :=
  {| _class_type := _class_type r; _ok := _ok r; _path := _path r; _file := _file r;
     _watch := _watch r; _watch_index := _watch_index r;
     _time := _time r; _offset := _offset r; _comment := _comment r;
     _unix_time := _unix_time r; _atomic_clock_error := _atomic_clock_error r;
     _ios_clock_offset := _ios_clock_offset r; _header := _header r;
     _other_files := _other_files r; _point_index := _point_index r;
     _offset_shifted := v; _time_shifted := _time_shifted r;
     _original_data := _original_data r; _comments := _comments r |}.

Definition set_time_shifted (v : pyval) (r : TimingRun) : TimingRun :=
  {| _class_type := _class_type r; _ok := _ok r; _path := _path r; _file := _file r;
     _watch := _watch r; _watch_index := _watch_index r;
     _time := _time r; _offset := _offset r; _comment := _comment r;
     _unix_time := _unix_time r; _atomic_clock_error := _atomic_clock_error r;
     _ios_clock_offset := _ios_clock_offset r; _header := _header r;
     _other_files := _other_files r; _point_index := _point_index r;
     _offset_shifted := _offset_shifted r; _time_shifted := v;
     _original_data := _original_data r; _comments := _comments r |}.

Definition set_original_data (v : option OriginalData) (r : TimingRun) : TimingRun :=
  {| _class_type := _class_type r; _ok := _ok r; _path := _path r; _file := _file r;
     _watch := _watch r; _watch_index := _watch_index r;
     _time := _time r; _offset := _offset r; _comment := _comment r;
     _unix_time := _unix_time r; _atomic_clock_error := _atomic_clock_error r;
     _ios_clock_offset := _ios_clock_offset r; _header := _header r;
     _other_files := _other_files r; _point_index := _point_index r;
     _offset_shifted := _offset_shifted r; _time_shifted := _time_shifted r;
     _original_data := v; _comments := _comments r |}.

Definition set_comments (v : option (list string)) (r : TimingRun) : TimingRun :=
  {| _class_type := _class_type r; _ok := _ok r; _path := _path r; _file := _file r;
     _watch := _watch r; _watch_index := _watch_index r;
     _time := _time r; _offset := _offset r; _comment := _comment r;
     _unix_time := _unix_time r; _atomic_clock_error := _atomic_clock_error r;
     _ios_clock_offset := _ios_clock_offset r; _header := _header r;
     _other_files := _other_files r; _point_index := _point_index r;
     _offset_shifted := _offset_shifted r; _time_shifted := _time_shifted r;
     _original_data := _original_data r; _comments := v |}.

(** ** Printed output and the monad of methods *)

(** A line written by [print]: a literal, or an f-string with the values
    of its replacement fields. *)
Inductive msg : Type :=
  | Text (s : string)
  | Fmt (template : string) (args : list pyval).

(** A method runs on the object's attributes, the store of arrays and the
    output written so far; it returns a value or raises, and in both cases
    leaves a state behind. *)
Record state : Type := {
  self : TimingRun;
  mem : heap;
  out : list msg
}.

Definition M (A : Type) : Type := state -> Res A * state.

Definition ret {A} (a : A) : M A := fun s => (Ok a, s).

Definition bind {A B} (c : M A) (k : A -> M B) : M B :=
  fun s => match c s with
           | (Ok a, s') => k a s'
           | (Raise e, s') => (Raise e, s')
           end.

Definition raise {A} (e : exn) : M A := fun s => (Raise e, s).

Definition lift {A} (r : Res A) : M A := fun s => (r, s).

Declare Scope py_scope.
Delimit Scope py_scope with py.
Notation "x <- c ;; k" := (bind c (fun x => k))
  (at level 20, c at level 99, k at level 200, only parsing) : py_scope.
Notation "' p <- c ;; k" := (bind c (fun x => match x with p => k end))
  (at level 20, p pattern, c at level 99, k at level 200, only parsing) : py_scope.
Notation "c ;; k" := (bind c (fun _ => k))
  (at level 100, k at level 200, right associativity, only parsing) : py_scope.
Local Open Scope py_scope.

Definition print (m : msg) : M unit :=
  fun s => (Ok tt, {| self := self s; mem := mem s; out := out s ++ [m] |}).

(** Reading and rebinding an attribute of [self]. *)
Definition attr {A} (f : TimingRun -> A) : M A := fun s => (Ok (f (self s)), s).

Definition set_attr (f : TimingRun -> TimingRun) : M unit :=
  fun s => (Ok tt, {| self := f (self s); mem := mem s; out := out s |}).

(** Dereferencing an array, by element type. *)
Definition heap_float64 (h : heap) (l : loc) : option (list float64) :=
  match h !! l with Some (Float64Arr xs) => Some xs | _ => None end.

Definition heap_int64 (h : heap) (l : loc) : option (list Z) :=
  match h !! l with Some (Int64Arr xs) => Some xs | _ => None end.

Definition heap_str (h : heap) (l : loc) : option (nat * list string) :=
  match h !! l with Some (StrArr w xs) => Some (w, xs) | _ => None end.

Definition of_option {A} (o : option A) : M A :=
  match o with Some a => ret a | None => raise Stuck end.

Definition load_float64 (l : loc) : M (list float64) :=
  fun s => of_option (heap_float64 (mem s) l) s.

Definition load_int64 (l : loc) : M (list Z) :=
  fun s => of_option (heap_int64 (mem s) l) s.

Definition load_str (l : loc) : M (nat * list string) :=
  fun s => of_option (heap_str (mem s) l) s.

(** Writing through a reference: every holder of the reference sees it. *)
Definition store (l : loc) (a : ndarray) : M unit :=
  fun s => (Ok tt, {| self := self s; mem := <[l := a]> (mem s); out := out s |}).

(** A new array object. *)
Definition new_array (a : ndarray) : M loc :=
  fun s => let (l, h) := alloc (mem s) a in
           (Ok l, {| self := self s; mem := h; out := out s |}).

Definition newline : string := String (ascii_of_nat 10) EmptyString.

(** ** Properties of TimingRun *)

Section Methods.

Context {py : PyBuiltins}.

Definition time : M (list float64) := l <- attr _time ;; load_float64 l.
Definition offset : M (list float64) := l <- attr _offset ;; load_float64 l.
Definition unix_time : M (list Z) := l <- attr _unix_time ;; load_int64 l.
Definition atomic_clock_error : M (list float64) :=
  l <- attr _atomic_clock_error ;; load_float64 l.
Definition ios_clock_offset : M (list float64) :=
  l <- attr _ios_clock_offset ;; load_float64 l.
Definition timing_comments : M (nat * list string) :=
  l <- attr _comment ;; load_str l.

(** [self._header[0]] *)
Definition watch : M string := h <- attr _header ;; lift (Np.getitem h 0).

Fixpoint str_replace_char (a b : Ascii.ascii) (s : string) : string :=
  match s with
  | EmptyString => EmptyString
  | String c s' => String (if Ascii.eqb c a then b else c) (str_replace_char a b s')
  end.

(** [datetime.fromtimestamp(self._unix_time[0]).isoformat().replace("T", ",")] *)
Definition start : M string :=
  u <- unix_time ;;
  u0 <- lift (Np.getitem u 0) ;;
  s <- lift (fromtimestamp_isoformat u0) ;;
  ret (str_replace_char "T"%char ","%char s).

(** The property [end] *)
Definition end_ : M string :=
  u <- unix_time ;;
  ul <- lift (Np.getitem u (-1)) ;;
  s <- lift (fromtimestamp_isoformat ul) ;;
  ret (str_replace_char "T"%char ","%char s).

(** [round((self._unix_time[-1] - self._unix_time[0])/(60*60*24), 2)]: the
    difference is taken in [int64] and divided in [float64]. *)
Definition duration : M float64 :=
  u <- unix_time ;; ul <- lift (Np.getitem u (-1)) ;;
  u <- unix_time ;; u0 <- lift (Np.getitem u 0) ;;
  ret (round_ndigits (div (of_int (wrap64 (ul - u0))) (of_int (60 * 60 * 24))) 2).

(** The dictionary of the property [info], in the order of its keys. *)
Definition info : M (list (string * pyval)) :=
  w <- watch ;; f <- attr _file ;; p <- attr _path ;;
  s <- start ;; e <- end_ ;; d <- duration ;; t <- time ;;
  ret [("watch"%string, PyStr w); ("file"%string, PyStr f); ("path"%string, PyStr p);
       ("start"%string, PyStr s); ("end"%string, PyStr e);
       ("duration"%string, PyFloat d);
       ("data points"%string, PyInt (Z.of_nat (length t)))].

(** [d[key]] *)
Fixpoint dict_getitem (d : list (string * pyval)) (key : string) : Res pyval :=
  match d with
  | [] => Raise KeyError
  | (k, v) :: d' => if String.eqb k key then Ok v else dict_getitem d' key
  end.

(** The loop of [Info()]: [self.info] is built anew for every line. *)
Fixpoint Info_loop (keys : list string) : M unit :=
  match keys with
  | [] => ret tt
  | key :: keys' =>
      d <- info ;;
      v <- lift (dict_getitem d key) ;;
      print (Fmt "{key:<11}: {self.info[key]}" [PyStr key; v]) ;;
      Info_loop keys'
  end.

(** [Info()] *)
Definition Info : M unit := d <- info ;; Info_loop (map fst d).

Definition point_index : M Z := attr _point_index.

Definition point_time : M float64 :=
  a <- time ;; i <- attr _point_index ;; lift (Np.getitem a i).
Definition point_unix_time : M Z :=
  a <- unix_time ;; i <- attr _point_index ;; lift (Np.getitem a i).
Definition point_offset : M float64 :=
  a <- offset ;; i <- attr _point_index ;; lift (Np.getitem a i).
Definition point_timing_comment : M string :=
  a <- timing_comments ;; i <- attr _point_index ;; lift (Np.getitem (snd a) i).
Definition point_atomic_clock_error : M float64 :=
  a <- atomic_clock_error ;; i <- attr _point_index ;; lift (Np.getitem a i).
Definition point_ios_clock_offset : M float64 :=
  a <- ios_clock_offset ;; i <- attr _point_index ;; lift (Np.getitem a i).

(** The dictionary returned by [.point]. *)
Record Point : Type := {
  p_point_index : Z;
  p_time : float64;
  p_unix_time : Z;
  p_offset : float64;
  p_timing_comment : string;
  p_atomic_clock_error : float64;
  p_ios_clock_offset : float64
}.

Definition point : M Point :=
  i <- point_index ;;
  t <- point_time ;;
  u <- point_unix_time ;;
  o <- point_offset ;;
  c <- point_timing_comment ;;
  a <- point_atomic_clock_error ;;
  b <- point_ios_clock_offset ;;
  ret {| p_point_index := i; p_time := t; p_unix_time := u; p_offset := o;
         p_timing_comment := c; p_atomic_clock_error := a;
         p_ios_clock_offset := b |}.

Definition num_points : M Z := a <- time ;; ret (Z.of_nat (length a)).

End Methods.

(** ** Construction *)

(** The content of a WatchTracker csv file once [csv.reader] and the
    conversions of [_loadFile] have gone through: the five header cells and
    the six columns, one entry per data row.  Reading the file is the
    loader's business; only a successful load is modelled. *)
Record CsvData : Type := {
  csv_header : list string;
  csv_time : list float64;
  csv_offset : list float64;
  csv_comment : list string;
  csv_unix_time : list Z;
  csv_atomic_clock_error : list float64;
  csv_ios_clock_offset : list float64
}.

Fixpoint str_endswith_slash (s : string) : bool :=
  match s with
  | EmptyString => false
  | String c EmptyString => Ascii.eqb c "/"%char
  | String _ s' => str_endswith_slash s'
  end.

(** [s[:-1]] *)
Fixpoint str_drop_last (s : string) : string :=
  match s with
  | EmptyString => EmptyString
  | String _ EmptyString => EmptyString
  | String c s' => String c (str_drop_last s')
  end.

Section Construction.

Context {py : PyBuiltins}.

(** [np.array] of a list of strings: an empty list gives an empty
    [float64] array. *)
Definition array_of_strs (xs : list string) : ndarray :=
  match xs with
  | [] => Float64Arr []
  | _ => StrArr (Np.str_width xs) xs
  end.

(** [np.array] of a list of Python integers: [float64] for an empty list,
    [int64] when every entry fits, else a dtype the store does not model
    ([uint64], [float64] or [object], as the values decide). *)
Definition array_of_ints (xs : list Z) : ndarray :=
  match xs with
  | [] => Float64Arr []
  | _ => if forallb in_int64 xs then Int64Arr xs else OtherArr (length xs)
  end.

(** [_loadFile], the branch where the file is read without error. *)
Definition _loadFile (csv : CsvData) : M bool :=
  set_attr (set_header (csv_header csv)) ;;
  t <- new_array (Float64Arr (csv_time csv)) ;;
  o <- new_array (Float64Arr (csv_offset csv)) ;;
  c <- new_array (array_of_strs (csv_comment csv)) ;;
  set_attr (set_time t) ;; set_attr (set_offset o) ;; set_attr (set_comment c) ;;
  u <- new_array (array_of_ints (csv_unix_time csv)) ;;
  a <- new_array (Float64Arr (csv_atomic_clock_error csv)) ;;
  set_attr (set_unix_time u) ;; set_attr (set_atomic_clock_error a) ;;
  i <- new_array (Float64Arr (csv_ios_clock_offset csv)) ;;
  set_attr (set_ios_clock_offset i) ;;
  set_attr (fun r =>
    {| _class_type := _class_type r; _ok := true; _path := _path r; _file := _file r;
       _watch := _watch r; _watch_index := _watch_index r;
       _time := _time r; _offset := _offset r; _comment := _comment r;
       _unix_time := _unix_time r; _atomic_clock_error := _atomic_clock_error r;
       _ios_clock_offset := _ios_clock_offset r; _header := _header r;
       _other_files := _other_files r; _point_index := _point_index r;
       _offset_shifted := _offset_shifted r; _time_shifted := _time_shifted r;
       _original_data := _original_data r; _comments := _comments r |}) ;;
  ret true.

(** The dictionary literal of [__init__] and [concatTimingRuns]: the
    current attribute values, arrays by reference. *)
Definition snapshot : M OriginalData :=
  w <- watch ;;
  r <- attr (fun r => r) ;;
  ret {| od_watch := w; od_watch_index := _watch_index r; od_file := _file r;
         od_path := _path r; od_header := _header r; od_time := _time r;
         od_offset := _offset r; od_comment := _comment r;
         od_unix_time := _unix_time r;
         od_atomic_clock_error := _atomic_clock_error r;
         od_ios_clock_offset := _ios_clock_offset r |}.

(** [TimingRun(file_name, path, shup = shup)] with a file name given: the
    search for a file that the constructor makes without one is not part of
    the model. *)
Definition __init__ (file_name path : string) (shup : bool) (csv : CsvData) : M unit :=
  t <- new_array (Float64Arr []) ;;
  o <- new_array (Float64Arr []) ;;
  c <- new_array (Float64Arr []) ;;
  u <- new_array (Float64Arr []) ;;
  a <- new_array (Float64Arr []) ;;
  i <- new_array (Float64Arr []) ;;
  set_attr (fun _ =>
    {| _class_type := "TimingRun"; _ok := false; _path := EmptyString; _file := EmptyString;
       _watch := EmptyString; _watch_index := -1;
       _time := t; _offset := o; _comment := c; _unix_time := u;
       _atomic_clock_error := a; _ios_clock_offset := i;
       _header := []; _other_files := []; _point_index := 0;
       _offset_shifted := PyInt 0; _time_shifted := PyInt 0;
       _original_data := None; _comments := None |}) ;;
  set_attr (set_file file_name) ;;
  set_attr (set_path (if String.eqb path "_no_path_" then EmptyString else path)) ;;
  p <- attr _path ;;
  (if str_endswith_slash p then set_attr (set_path (str_drop_last p)) else ret tt) ;;
  _loadFile csv ;;
  d <- snapshot ;;
  set_attr (set_original_data (Some d)) ;;
  ok <- attr _ok ;;
  if ok && negb shup then
    print (Text ("myWatchTracker TimingRun" ++ newline ++ "------------------------")) ;;
    Info ;;
    print (Text ("(use .Help() to... well, get help.)" ++ newline))
  else ret tt.

(** The attributes before [__init__] has run; every one is overwritten. *)
Definition unset : TimingRun :=
  {| _class_type := EmptyString; _ok := false; _path := EmptyString; _file := EmptyString;
     _watch := EmptyString; _watch_index := 0;
     _time := O; _offset := O; _comment := O; _unix_time := O;
     _atomic_clock_error := O; _ios_clock_offset := O;
     _header := []; _other_files := []; _point_index := 0;
     _offset_shifted := PyNone; _time_shifted := PyNone;
     _original_data := None; _comments := None |}.

End Construction.

(** ** Methods of TimingRun *)

(** The dictionary [_calcRate] returns. *)
Record Rate : Type := {
  rate_time : list float64;
  rate_rate : list float64;
  rate_units : list string;
  rate_start : string
}.

Section Operations.

Context {py : PyBuiltins}.

(** [_deletePoint(index)] *)
Definition _deletePoint (index : pyval) : M bool :=
  cur <- attr _point_index ;;
  let index := match index with PyNone => PyInt cur | _ => index end in
  t <- time ;;
  if Z.of_nat (length t) <=? 1 then
    print (Text "There's ony one data point so we are keeping it!") ;; ret false
  else
    match py_int index with
    | Raise _ =>
        print (Fmt "The argument index must be an integer (range 0 to {len(self._time)-1})."
                   [PyInt (Z.of_nat (length t) - 1)]) ;;
        ret false
    | Ok index =>
        if (index <? 0) || (Z.of_nat (length t) <=? index) then
          print (Fmt "The argument index must be an integer (range 0 to {len(self._time)-1})."
                     [PyInt (Z.of_nat (length t) - 1)]) ;;
          ret false
        else
          t' <- lift (Np.delete t index) ;;
          l <- new_array (Float64Arr t') ;; set_attr (set_time l) ;;
          o <- offset ;; o' <- lift (Np.delete o index) ;;
          l <- new_array (Float64Arr o') ;; set_attr (set_offset l) ;;
          c <- timing_comments ;; c' <- lift (Np.delete (snd c) index) ;;
          l <- new_array (StrArr (fst c) c') ;; set_attr (set_comment l) ;;
          u <- unix_time ;; u' <- lift (Np.delete u index) ;;
          l <- new_array (Int64Arr u') ;; set_attr (set_unix_time l) ;;
          a <- atomic_clock_error ;; a' <- lift (Np.delete a index) ;;
          l <- new_array (Float64Arr a') ;; set_attr (set_atomic_clock_error l) ;;
          b <- ios_clock_offset ;; b' <- lift (Np.delete b index) ;;
          l <- new_array (Float64Arr b') ;; set_attr (set_ios_clock_offset l) ;;
          t <- time ;;
          (if Z.of_nat (length t) <=? index
           then set_attr (set_point_index (Z.of_nat (length t) - 1))
           else ret tt) ;;
          ret true
    end.

(** The setter of [point_index]. *)
Definition set_point_index_prop (index : pyval) : M unit :=
  t <- time ;;
  match py_int index with
  | Raise _ =>
      print (Fmt "Property point_index must be an integer between 0 and {len(self._time)-1}."
                 [PyInt (Z.of_nat (length t) - 1)])
  | Ok index =>
      if (index <? 0) || (Z.of_nat (length t) <=? index) then
        print (Fmt "Property point_index must be an integer between 0 and {len(self._time)-1}."
                   [PyInt (Z.of_nat (length t) - 1)])
      else set_attr (set_point_index index)
  end.

(** The setter of [point_offset]. *)
Definition set_point_offset (value : pyval) : M unit :=
  match py_float value with
  | Raise _ => print (Text "The point_offset property must be set with a float.")
  | Ok value =>
      l <- attr _offset ;; o <- load_float64 l ;;
      i <- attr _point_index ;;
      o' <- lift (Np.setitem o i value) ;;
      store l (Float64Arr o')
  end.

(** Item assignment on a NumPy scalar: [numpy.float64] does not support
    it. *)
Definition float64_scalar_setitem (x : float64) (i : Z) (v : float64) : Res unit :=
  Raise TypeError.

(** The setter of [point_atomic_clock_error]; its last line subscripts the
    property [self.point_atomic_clock_error], a scalar. *)
Definition set_point_atomic_clock_error (value : pyval) : M unit :=
  match py_float value with
  | Raise _ => print (Text "The point_atomic_clock_error property must be set with a float.")
  | Ok value =>
      x <- point_atomic_clock_error ;;
      i <- attr _point_index ;;
      lift (float64_scalar_setitem x i value)
  end.

(** The setter of [point_ios_clock_offset], written the same way. *)
Definition set_point_ios_clock_offset (value : pyval) : M unit :=
  match py_float value with
  | Raise _ => print (Text "The point_ios_clock_offset property must be set with a float.")
  | Ok value =>
      x <- point_ios_clock_offset ;;
      i <- attr _point_index ;;
      lift (float64_scalar_setitem x i value)
  end.

(** [Reset()] *)
Definition Reset : M unit :=
  d <- attr _original_data ;;
  match d with
  | None => raise KeyError
  | Some d =>
      set_attr (set_watch (od_watch d)) ;;
      set_attr (set_watch_index (od_watch_index d)) ;;
      set_attr (set_file (od_file d)) ;;
      set_attr (set_path (od_path d)) ;;
      set_attr (set_header (od_header d)) ;;
      set_attr (set_time (od_time d)) ;;
      set_attr (set_offset (od_offset d)) ;;
      set_attr (set_comment (od_comment d)) ;;
      set_attr (set_unix_time (od_unix_time d)) ;;
      set_attr (set_atomic_clock_error (od_atomic_clock_error d)) ;;
      set_attr (set_ios_clock_offset (od_ios_clock_offset d)) ;;
      set_attr (set_offset_shifted (PyInt 0)) ;;
      print (Text "All data reset to as loaded.")
  end.

(** The loop of [_calcRate]; [self.time] and [self.offset] are read in
    every round. *)
Fixpoint _calcRate_loop (range : list nat) (xaxis yaxis : list float64)
  : M (list float64 * list float64) :=
  match range with
  | [] => ret (xaxis, yaxis)
  | i :: range' =>
      t <- time ;; t1 <- lift (Np.getitem t (Z.of_nat i + 1)) ;;
      t <- time ;; t0 <- lift (Np.getitem t (Z.of_nat i)) ;;
      let x := div (add t1 t0) (of_int 2) in
      o <- offset ;; o1 <- lift (Np.getitem o (Z.of_nat i + 1)) ;;
      o <- offset ;; o0 <- lift (Np.getitem o (Z.of_nat i)) ;;
      t <- time ;; t1 <- lift (Np.getitem t (Z.of_nat i + 1)) ;;
      t <- time ;; t0 <- lift (Np.getitem t (Z.of_nat i)) ;;
      let y := div (sub o1 o0) (sub t1 t0) in
      _calcRate_loop range' (xaxis ++ [x]) (yaxis ++ [y])
  end.

(** [_calcRate()], the getter of [rate]. *)
Definition _calcRate : M Rate :=
  o <- offset ;;
  xy <- _calcRate_loop (seq 0 (length o - 1)) [] [] ;;
  s <- start ;;
  ret {| rate_time := fst xy; rate_rate := snd xy;
         rate_units := ["days"%string; "s/day"%string]; rate_start := s |}.

(** [ShiftOffset(value)]: nothing follows the [print] of the [except]
    branch but the rest of the method. *)
Definition ShiftOffset (value : pyval) : M unit :=
  match py_float value with
  | Raise _ => print (Text "The argument must be a float.")
  | Ok _ => ret tt
  end ;;
  l <- attr _offset ;; o <- load_float64 l ;;
  o' <- lift (Np.iadd_float64 o value) ;;
  store l (Float64Arr o') ;;
  acc <- attr _offset_shifted ;;
  acc' <- lift (py_add acc value) ;;
  set_attr (set_offset_shifted acc').

(** [value*60*60*24] *)
Definition times_86400 (value : pyval) : Res pyval :=
  match py_mul_int value 60 with
  | Raise e => Raise e
  | Ok v => match py_mul_int v 60 with
            | Raise e => Raise e
            | Ok v => py_mul_int v 24
            end
  end.

(** [ShiftTime(value)] *)
Definition ShiftTime (value : pyval) : M unit :=
  match py_float value with
  | Raise _ => print (Text "The argument must be a float (days).")
  | Ok _ => ret tt
  end ;;
  l <- attr _time ;; t <- load_float64 l ;;
  t' <- lift (Np.iadd_float64 t value) ;;
  store l (Float64Arr t') ;;
  l <- attr _unix_time ;; u <- load_int64 l ;;
  d <- lift (times_86400 value) ;;
  u' <- lift (Np.iadd_int64 u d) ;;
  store l (Int64Arr u') ;;
  acc <- attr _time_shifted ;;
  acc' <- lift (py_add acc value) ;;
  set_attr (set_time_shifted acc').

(** [ShiftOffsetReset()] *)
Definition ShiftOffsetReset : M unit :=
  l <- attr _offset ;; o <- load_float64 l ;;
  acc <- attr _offset_shifted ;;
  o' <- lift (Np.isub_float64 o acc) ;;
  store l (Float64Arr o') ;;
  set_attr (set_offset_shifted (PyInt 0)).

(** [ShiftTimeReset()] *)
Definition ShiftTimeReset : M unit :=
  l <- attr _time ;; t <- load_float64 l ;;
  acc <- attr _time_shifted ;;
  t' <- lift (Np.isub_float64 t acc) ;;
  store l (Float64Arr t') ;;
  l <- attr _unix_time ;; u <- load_int64 l ;;
  acc <- attr _time_shifted ;;
  d <- lift (times_86400 acc) ;;
  u' <- lift (Np.isub_int64 u d) ;;
  store l (Int64Arr u') ;;
  set_attr (set_time_shifted (PyInt 0)).

(** The getter of [point_insert]: the current point is duplicated. *)
Definition point_insert : M Point :=
  index <- point_index ;;
  tm <- point_time ;;
  off <- point_offset ;;
  cm <- point_timing_comment ;;
  ux <- point_unix_time ;;
  ace <- point_atomic_clock_error ;;
  ico <- point_ios_clock_offset ;;
  t <- time ;; t' <- lift (Np.insert t index tm) ;;
  l <- new_array (Float64Arr t') ;; set_attr (set_time l) ;;
  o <- offset ;; o' <- lift (Np.insert o index off) ;;
  l <- new_array (Float64Arr o') ;; set_attr (set_offset l) ;;
  c <- timing_comments ;; c' <- lift (Np.insert (snd c) index (Np.fit (fst c) cm)) ;;
  l <- new_array (StrArr (fst c) c') ;; set_attr (set_comment l) ;;
  u <- unix_time ;; u' <- lift (Np.insert u index ux) ;;
  l <- new_array (Int64Arr u') ;; set_attr (set_unix_time l) ;;
  a <- atomic_clock_error ;; a' <- lift (Np.insert a index ace) ;;
  l <- new_array (Float64Arr a') ;; set_attr (set_atomic_clock_error l) ;;
  b <- ios_clock_offset ;; b' <- lift (Np.insert b index ico) ;;
  l <- new_array (Float64Arr b') ;; set_attr (set_ios_clock_offset l) ;;
  i <- point_index ;;
  set_point_index_prop (PyInt (i + 1)) ;;
  point.

(** [InsertPoint(time, offset, comment, shup)].  The timestamp of the new
    point is computed on line 714, after line 711 has rebound
    [self._time] to the array that already holds the new time. *)
Definition InsertPoint (time_arg offset_arg comment : pyval) (shup : bool)
  : M (option Point) :=
  match py_float time_arg with
  | Raise _ =>
      print (Text "Arguments time and offset must be floats (time as days, offset as seconds.") ;;
      ret None
  | Ok tm =>
      match py_float offset_arg with
      | Raise _ =>
          print (Text "Arguments time and offset must be floats (time as days, offset as seconds.") ;;
          ret None
      | Ok off =>
          cm <- match comment with
                | PyStr s => ret s
                | _ => print (Text "Argument comment must be a string. Setting if to default.") ;;
                       ret "(inserted)"%string
                end ;;
          let cm := if String.eqb cm EmptyString then "(inserted)"%string else cm in
          t <- time ;;
          index <- lift (Np.argmin (map (fun x => abs (sub tm x)) t)) ;;
          t <- time ;; t' <- lift (Np.insert t index tm) ;;
          l <- new_array (Float64Arr t') ;; set_attr (set_time l) ;;
          o <- offset ;; o' <- lift (Np.insert o index off) ;;
          l <- new_array (Float64Arr o') ;; set_attr (set_offset l) ;;
          c <- timing_comments ;; c' <- lift (Np.insert (snd c) index (Np.fit (fst c) cm)) ;;
          l <- new_array (StrArr (fst c) c') ;; set_attr (set_comment l) ;;
          u <- unix_time ;; u0 <- lift (Np.getitem u 0) ;;
          t <- time ;; t0 <- lift (Np.getitem t 0) ;;
          let ux := add (of_int u0) (mul (sub tm t0) (of_int (24 * 60 * 60))) in
          u <- unix_time ;; u' <- lift (Np.insert u index (float64_to_int64 ux)) ;;
          l <- new_array (Int64Arr u') ;; set_attr (set_unix_time l) ;;
          a <- atomic_clock_error ;; a' <- lift (Np.insert a index (of_int 0)) ;;
          l <- new_array (Float64Arr a') ;; set_attr (set_atomic_clock_error l) ;;
          b <- ios_clock_offset ;; b' <- lift (Np.insert b index (of_int 0)) ;;
          l <- new_array (Float64Arr b') ;; set_attr (set_ios_clock_offset l) ;;
          (if shup then ret tt
           else
             print (Fmt "Inserted a data point at index = {index} with time = {time}, offset = {offset}"
                        [PyInt index; PyFloat tm; PyFloat off]) ;;
             (if String.eqb cm EmptyString then ret tt
              else print (Fmt "and comment = {comment}." [PyStr cm]))) ;;
          p <- point ;;
          ret (Some p)
      end
  end.

(** The getter of [point_delete]: the current point is returned and
    deleted; [None] stands for the empty dictionary. *)
Definition point_delete : M (option Point) :=
  p <- point ;;
  ok <- _deletePoint PyNone ;;
  if ok then ret (Some p) else ret None.

(** The setter of [point_delete]: the index is brought into range, made
    the cursor, and the point there is deleted.  What the getter returns is
    dropped by the assignment. *)
Definition set_point_delete (index : pyval) : M unit :=
  match py_int index with
  | Raise _ => print (Text "The attribute point_delete must be set with an integer.")
  | Ok index =>
      let index := if index <? 0 then 0 else index in
      t <- time ;;
      let index := if Z.of_nat (length t) <=? index
                   then Z.of_nat (length t) - 1 else index in
      set_point_index_prop (PyInt index) ;;
      _ <- point_delete ;;
      ret tt
  end.

End Operations.

(** ** Module functions *)

(** An argument that may or may not be a TimingRun. *)
Inductive pyobj : Type :=
  | ObjTimingRun (r : TimingRun)
  | ObjOther (v : pyval).

(** [copy.deepcopy]: every array reached is copied once; the memo keeps
    two references to one array pointing to one copy. *)
Definition memo : Type := list (loc * loc).

Fixpoint memo_find (m : memo) (l : loc) : option loc :=
  match m with
  | [] => None
  | (k, v) :: m' => if Nat.eqb k l then Some v else memo_find m' l
  end.

Definition copy_array (m : memo) (l : loc) : M (loc * memo) :=
  match memo_find m l with
  | Some l' => ret (l', m)
  | None =>
      fun s => match mem s !! l with
               | Some a => (l' <- new_array a ;; ret (l', (l, l') :: m)) s
               | None => (Raise Stuck, s)
               end
  end.

Definition deepcopy_original_data (m : memo) (d : option OriginalData)
  : M (option OriginalData) :=
  match d with
  | None => ret None
  | Some d =>
      '(t, m) <- copy_array m (od_time d) ;;
      '(o, m) <- copy_array m (od_offset d) ;;
      '(c, m) <- copy_array m (od_comment d) ;;
      '(u, m) <- copy_array m (od_unix_time d) ;;
      '(a, m) <- copy_array m (od_atomic_clock_error d) ;;
      '(b, m) <- copy_array m (od_ios_clock_offset d) ;;
      ret (Some {| od_watch := od_watch d; od_watch_index := od_watch_index d;
                   od_file := od_file d; od_path := od_path d;
                   od_header := od_header d; od_time := t; od_offset := o;
                   od_comment := c; od_unix_time := u;
                   od_atomic_clock_error := a; od_ios_clock_offset := b |})
  end.

Definition deepcopy (r : TimingRun) : M TimingRun :=
  '(t, m) <- copy_array [] (_time r) ;;
  '(o, m) <- copy_array m (_offset r) ;;
  '(c, m) <- copy_array m (_comment r) ;;
  '(u, m) <- copy_array m (_unix_time r) ;;
  '(a, m) <- copy_array m (_atomic_clock_error r) ;;
  '(b, m) <- copy_array m (_ios_clock_offset r) ;;
  d <- deepcopy_original_data m (_original_data r) ;;
  ret {| _class_type := _class_type r; _ok := _ok r; _path := _path r; _file := _file r;
         _watch := _watch r; _watch_index := _watch_index r;
         _time := t; _offset := o; _comment := c; _unix_time := u;
         _atomic_clock_error := a; _ios_clock_offset := b;
         _header := _header r; _other_files := _other_files r;
         _point_index := _point_index r;
         _offset_shifted := _offset_shifted r; _time_shifted := _time_shifted r;
         _original_data := d; _comments := _comments r |}.

Definition deepcopy_obj (x : pyobj) : M pyobj :=
  match x with
  | ObjTimingRun r => r' <- deepcopy r ;; ret (ObjTimingRun r')
  | ObjOther v => ret (ObjOther v)
  end.

(** [obj._class_type] *)
Definition class_type_of (x : pyobj) : option string :=
  match x with
  | ObjTimingRun r => Some (_class_type r)
  | ObjOther _ => None
  end.

Section ModuleFunctions.

Context {py : PyBuiltins}.

(** The type check of [concatTimingRuns]; [false] after its [print]. *)
Fixpoint concat_check (timing_runs : list pyobj) : M bool :=
  match timing_runs with
  | [] => ret true
  | obj :: rest =>
      match class_type_of obj with
      | None =>
          print (Text "There is an object is the list which is not a TimingRun object.") ;;
          ret false
      | Some obj_type =>
          if negb (String.eqb obj_type "TimingRun") then
            print (Text "There is an object is the list which is not a TimingRun object.") ;;
            ret false
          else concat_check rest
      end
  end.

(** One round of the loop of [concatTimingRuns]; [self] is [ret_obj]. *)
Definition concat_step (connect_offset : bool) (N1 : nat) (obj : pyobj) : M unit :=
  match obj with
  | ObjOther _ => raise Stuck
  | ObjTimingRun obj =>
      rt <- time ;; ot <- load_float64 (_time obj) ;;
      rt' <- time ;; last <- lift (Np.getitem rt' (-1)) ;;
      l <- new_array
             (Float64Arr (Np.hstack rt (map (fun x => add x last) (Np.slice_from ot N1)))) ;;
      set_attr (set_time l) ;;
      ru <- unix_time ;; ou <- load_int64 (_unix_time obj) ;;
      ru' <- unix_time ;; lastu <- lift (Np.getitem ru' (-1)) ;;
      l <- new_array
             (Int64Arr (Np.hstack ru (map (fun x => wrap64 (x + lastu)) (Np.slice_from ou N1)))) ;;
      set_attr (set_unix_time l) ;;
      delta <- (if negb connect_offset then ret (of_int 0)
                else
                  oo <- load_float64 (_offset obj) ;; o0 <- lift (Np.getitem oo 0) ;;
                  ro <- offset ;; rl <- lift (Np.getitem ro (-1)) ;;
                  ret (sub o0 rl)) ;;
      ro <- offset ;; oo <- load_float64 (_offset obj) ;;
      l <- new_array
             (Float64Arr (Np.hstack ro (map (fun x => sub x delta) (Np.slice_from oo N1)))) ;;
      set_attr (set_offset l) ;;
      ra <- atomic_clock_error ;; oa <- load_float64 (_atomic_clock_error obj) ;;
      l <- new_array (Float64Arr (Np.hstack ra (Np.slice_from oa N1))) ;;
      set_attr (set_atomic_clock_error l) ;;
      rb <- ios_clock_offset ;; ob <- load_float64 (_ios_clock_offset obj) ;;
      l <- new_array (Float64Arr (Np.hstack rb (Np.slice_from ob N1))) ;;
      set_attr (set_ios_clock_offset l) ;;
      rc <- timing_comments ;; oc <- load_str (_comment obj) ;;
      l <- new_array
             (StrArr (Nat.max (fst rc) (fst oc)) (Np.hstack (snd rc) (Np.slice_from (snd oc) N1))) ;;
      set_attr (set_comment l)
  end.

Fixpoint concat_loop (connect_offset : bool) (N1 : nat) (objs : list pyobj) : M unit :=
  match objs with
  | [] => ret tt
  | obj :: rest =>
      concat_step connect_offset N1 obj ;; concat_loop connect_offset N1 rest
  end.

(** [concatTimingRuns(timing_runs, connect_offset, skip_first)] for a list
    argument.  The object slot of the state holds [ret_obj]; the result
    is [None] where the function returns [None]. *)
Definition concatTimingRuns (timing_runs : list pyobj) (connect_offset skip_first : bool)
  : M (option TimingRun) :=
  if negb (1 <? Z.of_nat (length timing_runs)) then
    print (Text "The argument timing_runs must be a list of at least two TimingRun objects.") ;;
    ret None
  else
    ok <- concat_check timing_runs ;;
    if negb ok then ret None
    else
      match timing_runs with
      | ObjTimingRun first :: rest =>
          ret_obj <- deepcopy first ;;
          set_attr (fun _ => ret_obj) ;;
          set_attr (set_other_files []) ;;
          set_attr (set_point_index 0) ;;
          set_attr (set_offset_shifted (PyInt 0)) ;;
          set_attr (set_time_shifted (PyInt 0)) ;;
          set_attr (set_original_data None) ;;
          let N1 := if negb skip_first then O else 1%nat in
          concat_loop connect_offset N1 rest ;;
          set_attr (set_watch "|watch|") ;;
          set_attr (set_watch_index (-1)) ;;
          set_attr (set_file "|file|") ;;
          h <- attr _header ;; h4 <- lift (Np.getitem h 4) ;;
          set_attr (set_header ["|watch|"; "|watch comment|"; "|file comment|"; "|?|"; h4]%string) ;;
          d <- snapshot ;;
          set_attr (set_original_data (Some d)) ;;
          r <- attr (fun r => r) ;;
          ret (Some r)
      | _ => raise Stuck
      end.

(** First loop of [linspaceTime]: every old time marks its nearest new
    point in [tmp_time]; [true] when a point is marked twice. *)
Fixpoint linspace_too_coarse (new_time ts tmp_time : list float64) : M bool :=
  match ts with
  | [] => ret false
  | t :: ts' =>
      index <- lift (Np.argmin (map (fun x => abs (sub x t)) new_time)) ;;
      v <- lift (Np.getitem tmp_time index) ;;
      tmp_time <- lift (Np.setitem tmp_time index (add v (of_int 1))) ;;
      v <- lift (Np.getitem tmp_time index) ;;
      if gtb v (of_int 1) then
        print (Text "The argument n is too small. Too coarse steps leads -> loss of data.") ;;
        ret true
      else linspace_too_coarse new_time ts' tmp_time
  end.

(** Second loop: the old offsets are placed on the new axis. *)
Fixpoint linspace_place (timing_run : TimingRun) (new_time : list float64)
    (i : nat) (ts new_offset : list float64) : M (list float64) :=
  match ts with
  | [] => ret new_offset
  | t :: ts' =>
      index <- lift (Np.argmin (map (fun x => abs (sub x t)) new_time)) ;;
      o <- load_float64 (_offset timing_run) ;;
      oi <- lift (Np.getitem o (Z.of_nat i)) ;;
      new_offset <- lift (Np.setitem new_offset index oi) ;;
      linspace_place timing_run new_time (S i) ts' new_offset
  end.

(** The positions of [new_offset] that are not NaN. *)
Fixpoint linspace_indices (i : nat) (new_offset : list float64) : list Z :=
  match new_offset with
  | [] => []
  | o :: rest =>
      if negb (is_nan o) then Z.of_nat i :: linspace_indices (S i) rest
      else linspace_indices (S i) rest
  end.

(** Third loop: [true] when two consecutive entries of [indices] are
    neighbours. *)
Fixpoint linspace_neighbors (indices : list Z) : bool :=
  match indices with
  | ii :: (next :: _) as rest =>
      if negb (1 <? next - ii) then true else linspace_neighbors rest
  | _ => false
  end.

(** The inner loop of the interpolation, over [ii] in [range(i2 - i1)]. *)
Fixpoint linspace_ramp (i1 : Z) (k dt : float64) (iis : list nat)
    (new_offset : list float64) : M (list float64) :=
  match iis with
  | [] => ret new_offset
  | ii :: iis' =>
      o1 <- lift (Np.getitem new_offset i1) ;;
      new_offset <- lift (Np.setitem new_offset (i1 + Z.of_nat ii)
                            (add o1 (mul k (mul (of_int (Z.of_nat ii)) dt)))) ;;
      linspace_ramp i1 k dt iis' new_offset
  end.

(** The outer loop, over [i] in [range(len(indices)-1)]. *)
Fixpoint linspace_fill (timing_run : TimingRun) (new_time : list float64)
    (indices : list Z) (range : list nat)
    (new_offset : list float64) (new_comment : list string)
  : M (list float64 * list string) :=
  match range with
  | [] => ret (new_offset, new_comment)
  | i :: range' =>
      i1 <- lift (Np.getitem indices (Z.of_nat i)) ;;
      i2 <- lift (Np.getitem indices (Z.of_nat i + 1)) ;;
      print (Fmt "{} {}" [PyInt (Z.of_nat i); PyInt i1]) ;;
      t1 <- lift (Np.getitem new_time 1) ;;
      t0 <- lift (Np.getitem new_time 0) ;;
      let dt := sub t1 t0 in
      o2 <- lift (Np.getitem new_offset i2) ;;
      o1 <- lift (Np.getitem new_offset i1) ;;
      x2 <- lift (Np.getitem new_time i2) ;;
      x1 <- lift (Np.getitem new_time i1) ;;
      let k := div (sub o2 o1) (sub x2 x1) in
      new_offset <- linspace_ramp i1 k dt (seq 0 (Z.to_nat (i2 - i1))) new_offset ;;
      c <- load_str (_comment timing_run) ;;
      ci <- lift (Np.getitem (snd c) (Z.of_nat i)) ;;
      new_comment <- lift (Np.setitem new_comment i1 ci) ;;
      linspace_fill timing_run new_time indices range' new_offset new_comment
  end.

(** [linspaceTime(timing_run, n)].  The object slot of the state holds
    [ret_obj], which every [return] hands back.  The arrays [new_unix],
    [new_ace] and [new_ico] the function builds are never used, and
    [new_comment] is bound to the attribute [_comments]. *)
Definition linspaceTime (timing_run : pyobj) (n : pyval) : M pyobj :=
  print (Text (newline ++ "under construction" ++ newline)) ;;
  ret_obj <- deepcopy_obj timing_run ;;
  match timing_run, ret_obj with
  | ObjTimingRun timing_run, ObjTimingRun ret_obj =>
      set_attr (fun _ => ret_obj) ;;
      if negb (String.eqb (_class_type timing_run) "TimingRun") then
        print (Text "The argument timing_run must be a TimingRun object.") ;;
        ret (ObjTimingRun ret_obj)
      else
        match py_int n with
        | Raise _ =>
            print (Text "The argument n must be a positive integer (>0).") ;;
            ret (ObjTimingRun ret_obj)
        | Ok n =>
            let n := Z.abs n in
            if negb (0 <? n) then
              print (Text "The argument n must be a positive integer (>0).") ;;
              ret (ObjTimingRun ret_obj)
            else
              ts <- load_float64 (_time timing_run) ;;
              let numpnts := Z.to_nat (Z.of_nat (length ts) * n) in
              tstart <- lift (Np.getitem ts 0) ;;
              tstop <- lift (Np.getitem ts (-1)) ;;
              let new_time := Np.linspace tstart tstop numpnts in
              coarse <- linspace_too_coarse new_time ts (repeat zero numpnts) ;;
              if coarse then ret (ObjTimingRun ret_obj)
              else
                new_offset <- linspace_place timing_run new_time 0 ts
                                (repeat (mul zero nan) numpnts) ;;
                let indices := linspace_indices 0 new_offset in
                if linspace_neighbors indices then
                  print (Text "The argument n is too small. There are old points that are neighbors. In principle okay but not allowed here. Sorry.") ;;
                  ret (ObjTimingRun ret_obj)
                else
                  '(new_offset, new_comment) <-
                    linspace_fill timing_run new_time indices
                      (seq 0 (length indices - 1)) new_offset
                      (repeat "inserted"%string (length new_time)) ;;
                  l <- new_array (Float64Arr new_time) ;; set_attr (set_time l) ;;
                  l <- new_array (Float64Arr new_offset) ;; set_attr (set_offset l) ;;
                  set_attr (set_comments (Some new_comment)) ;;
                  r <- attr (fun r => r) ;;
                  ret (ObjTimingRun r)
        end
  | _, _ =>
      print (Text "The argument timing_run must be a TimingRun object.") ;;
      ret ret_obj
  end.

End ModuleFunctions.

(** ** What a caller can observe of a run *)

(** The six per-sample sequences, read through the references. *)
Record Samples : Type := {
  s_time : list float64;
  s_offset : list float64;
  s_comment : list string;
  s_unix_time : list Z;
  s_atomic_clock_error : list float64;
  s_ios_clock_offset : list float64
}.

Definition samples (h : heap) (r : TimingRun) : option Samples :=
  t ← heap_float64 h (_time r);
  o ← heap_float64 h (_offset r);
  c ← heap_str h (_comment r);
  u ← heap_int64 h (_unix_time r);
  a ← heap_float64 h (_atomic_clock_error r);
  b ← heap_float64 h (_ios_clock_offset r);
  Some {| s_time := t; s_offset := o; s_comment := snd c; s_unix_time := u;
          s_atomic_clock_error := a; s_ios_clock_offset := b |}.

(** The width of the comment array, which decides how much of a new
    comment is kept. *)
Definition comment_width (h : heap) (r : TimingRun) : option nat :=
  fst <$> heap_str h (_comment r).

(** All six sequences have [n] entries. *)
Definition aligned (v : Samples) (n : nat) : Prop :=
  length (s_time v) = n /\ length (s_offset v) = n /\ length (s_comment v) = n /\
  length (s_unix_time v) = n /\ length (s_atomic_clock_error v) = n /\
  length (s_ios_clock_offset v) = n.

(** Removing one sample from all six sequences. *)
Definition delete_sample (i : nat) (v : Samples) : Samples :=
  {| s_time := base.delete i (s_time v);
     s_offset := base.delete i (s_offset v);
     s_comment := base.delete i (s_comment v);
     s_unix_time := base.delete i (s_unix_time v);
     s_atomic_clock_error := base.delete i (s_atomic_clock_error v);
     s_ios_clock_offset := base.delete i (s_ios_clock_offset v) |}.

(** ** Sample data *)

(** Stand-ins for the interpreter's conversions where a statement has to be
    evaluated: no string is read as a number, every instant renders as the
    same text, and rounding leaves a number as it is. *)
Definition sample_builtins : PyBuiltins :=
  {| float_of_str := fun _ => None;
     int_of_str := fun _ => None;
     fromtimestamp_isoformat := fun _ => Ok "2024-10-01T12:00:00"%string;
     round_ndigits := fun x _ => x |}.

(** A clock library with a calendar: the instants of the years 1 to 9999
    render, every other one raises.  Which exception a platform raises for
    which value is not modelled; [OSError] stands for it. *)
Definition calendar_builtins : PyBuiltins :=
  {| float_of_str := fun _ => None;
     int_of_str := fun _ => None;
     fromtimestamp_isoformat := fun u =>
       if (-62135596800 <=? u) && (u <? 253402300800)
       then Ok "2024-10-01T12:00:00"%string else Raise OSError;
     round_ndigits := fun x _ => x |}.

(** The state a program is in before any run is loaded. *)
Definition fresh_state : state := {| self := unset; mem := []; out := [] |}.

(** A file of whole-number samples: times and offsets as given, one day
    between timestamps as the times say, no comment, no error. *)
Definition csv_of (times offsets : list Z) : CsvData :=
  {| csv_header := ["watch"; "watch comment"; "run"; "run comment"; "first"]%string;
     csv_time := map of_int times;
     csv_offset := map of_int offsets;
     csv_comment := map (fun _ => "-"%string) times;
     csv_unix_time := map (fun t => 1000 + 86400 * t) times;
     csv_atomic_clock_error := map (fun _ => zero) times;
     csv_ios_clock_offset := map (fun _ => zero) times |}.

(** The state after [TimingRun("run.csv", shup=True)] on that file. *)
Definition loaded (times offsets : list Z) : state :=
  snd (@__init__ sample_builtins "run.csv" "_no_path_" true (csv_of times offsets)
         fresh_state).



(** Running a second computation in the state a first one leaves. *)
Definition after {A} (c : M A) (s : state) : state := snd (c s).

(** ** Notions the properties are stated with *)

(** The pair the loop of [_calcRate] appends in round [i]. *)
Definition rate_at (ts os : list float64) (i : nat) : float64 * float64 :=
  match ts !! i, ts !! S i, os !! i, os !! S i with
  | Some t0, Some t1, Some o0, Some o1 =>
      (div (add t1 t0) (of_int 2), div (sub o1 o0) (sub t1 t0))
  | _, _, _, _ => (nan, nan)
  end.

(** The six sequences a file holds. *)
Definition samples_of_csv (c : CsvData) : Samples :=
  {| s_time := csv_time c; s_offset := csv_offset c; s_comment := csv_comment c;
     s_unix_time := csv_unix_time c;
     s_atomic_clock_error := csv_atomic_clock_error c;
     s_ios_clock_offset := csv_ios_clock_offset c |}.

(** Every entry of the memo pairs an array with a copy of it. *)
Definition memo_ok (h : list ndarray) (m : memo) : Prop :=
  forall k v, memo_find m k = Some v -> exists a, h !! k = Some a /\ h !! v = Some a.

(** The arrays [_original_data] refers to exist. *)
Definition original_data_ok (h : list ndarray) (d : option OriginalData) : Prop :=
  match d with
  | None => True
  | Some d =>
      is_Some (h !! od_time d) /\ is_Some (h !! od_offset d) /\
      is_Some (h !! od_comment d) /\ is_Some (h !! od_unix_time d) /\
      is_Some (h !! od_atomic_clock_error d) /\ is_Some (h !! od_ios_clock_offset d)
  end.

(** Equality of every attribute that is not a reference to an array. *)
Definition same_attrs (r r' : TimingRun) : Prop :=
  _class_type r' = _class_type r /\ _ok r' = _ok r /\ _path r' = _path r /\
  _file r' = _file r /\ _watch r' = _watch r /\ _watch_index r' = _watch_index r /\
  _header r' = _header r /\ _other_files r' = _other_files r /\
  _point_index r' = _point_index r /\ _offset_shifted r' = _offset_shifted r /\
  _time_shifted r' = _time_shifted r /\ _comments r' = _comments r.

(** Appending run [b] to the result [acc], stated on the sequences
    themselves: times moved by the end time reached so far, offsets moved
    by [delta]. *)
Definition seam_join (connect_offset : bool) (N1 : nat) (acc b : Samples) : option Samples :=
  end_time ← last (s_time acc);
  end_unix ← last (s_unix_time acc);
  delta ← (if connect_offset
           then first_offset ← head (s_offset b);
                last_offset ← last (s_offset acc);
                Some (sub first_offset last_offset)
           else Some (of_int 0));
  Some {| s_time := s_time acc ++ map (fun x => add x end_time) (drop N1 (s_time b));
          s_offset := s_offset acc ++ map (fun x => sub x delta) (drop N1 (s_offset b));
          s_comment := s_comment acc ++ drop N1 (s_comment b);
          s_unix_time := s_unix_time acc
                         ++ map (fun x => wrap64 (x + end_unix)) (drop N1 (s_unix_time b));
          s_atomic_clock_error :=
            s_atomic_clock_error acc ++ drop N1 (s_atomic_clock_error b);
          s_ios_clock_offset :=
            s_ios_clock_offset acc ++ drop N1 (s_ios_clock_offset b) |}.

(** Appending the runs [bs] one after the other. *)
Fixpoint join_all (connect_offset : bool) (N1 : nat) (acc : Samples) (bs : list Samples)
  : option Samples :=
  match bs with
  | [] => Some acc
  | b :: bs' =>
      match seam_join connect_offset N1 acc b with
      | Some acc' => join_all connect_offset N1 acc' bs'
      | None => None
      end
  end.

(** A run with at least one sample in each of its aligned sequences. *)
Definition nonempty (v : Samples) : Prop := exists n, aligned v n /\ (1 <= n)%nat.

(** The state after a second file has been loaded as well. *)
Definition loaded_two (ta oa tb ob : list Z) : state :=
  after (@__init__ sample_builtins "b.csv" "_no_path_" true (csv_of tb ob)) (loaded ta oa).

(** The offset of the first sample taken from run [B] in the result of
    [concatTimingRuns([A, B], True, False)], and the last offset of [A]. *)
Definition seam_offset (s : state) (A B : TimingRun) : option float64 :=
  match concatTimingRuns [ObjTimingRun A; ObjTimingRun B] true false s with
  | (Ok (Some r), s') =>
      va ← samples (mem s) A;
      vr ← samples (mem s') r;
      s_offset vr !! length (s_offset va)
  | _ => None
  end.

(** The last offset of run [A]. *)
Definition last_offset (s : state) (A : TimingRun) : option float64 :=
  va ← samples (mem s) A; last (s_offset va).

(** What the claim of a continuous seam says of two runs. *)
Definition seam_is_continuous (s : state) (A B : TimingRun) : Prop :=
  seam_offset s A B = last_offset s A.












Section Statements.

Context {py : PyBuiltins}.

(** What the claim of an exact inverse says of one state and two deltas. *)
Definition restores_offsets_exactly (s : state) (d1 d2 : float64) : Prop :=
  forall o,
    heap_float64 (mem s) (_offset (self s)) = Some o ->
    let s' := after (ShiftOffset (PyFloat d1) ;; ShiftOffset (PyFloat d2) ;;
                     ShiftOffsetReset)%py s in
    heap_float64 (mem s') (_offset (self s')) = Some o.

(** What the claim about [rate] says of one state: with two or more
    samples it returns [n - 1] midpoints and rates and leaves the state as
    it was. *)
Definition rate_as_claimed (s : state) : Prop :=
  forall ts,
    heap_float64 (mem s) (_time (self s)) = Some ts -> (2 <= length ts)%nat ->
    exists r,
      _calcRate s = (Ok r, s) /\
      length (rate_time r) = (length ts - 1)%nat /\
      length (rate_rate r) = (length ts - 1)%nat.



(** The index [_deletePoint] works with: the cursor for [None], else what
    [int] makes of the argument. *)
Definition delete_index (s : state) (index : pyval) : Res Z :=
  py_int (match index with PyNone => PyInt (_point_index (self s)) | _ => index end).

(** What it means for a call to be turned down: [False] comes back and
    neither an array nor an attribute has changed. *)
Definition rejected (index : pyval) (s : state) : Prop :=
  fst (_deletePoint index s) = Ok false /\
  mem (after (_deletePoint index) s) = mem s /\
  self (after (_deletePoint index) s) = self s.

End Statements.

(** ** Notions for edits, the snapshot and argument checks *)

(** The snapshot refers to the very arrays and attributes the run has: the
    state [__init__] leaves. *)
Definition snapshot_is_current (r : TimingRun) : Prop :=
  exists d,
    _original_data r = Some d /\
    od_time d = _time r /\ od_offset d = _offset r /\ od_comment d = _comment r /\
    od_unix_time d = _unix_time r /\
    od_atomic_clock_error d = _atomic_clock_error r /\
    od_ios_clock_offset d = _ios_clock_offset r /\
    od_header d = _header r /\ od_file d = _file r /\ od_path d = _path r /\
    od_watch_index d = _watch_index r.

(** What [Reset] prints. *)
Definition reset_text : msg := Text "All data reset to as loaded.".

(** The comment [InsertPoint] works with: the default for anything but a
    non-empty string. *)
Definition inserted_comment (comment : pyval) : string :=
  match comment with
  | PyStr s => if String.eqb s EmptyString then "(inserted)"%string else s
  | _ => "(inserted)"%string
  end.

(** The position of the time nearest to [tm], the first one among equals. *)
Definition nearest_index (tm : float64) (ts : list float64) : nat :=
  match Np.argmin (map (fun x => abs (sub tm x)) ts) with
  | Ok i => Z.to_nat i
  | Raise _ => O
  end.

Definition insert_at {A} (i : nat) (x : A) (l : list A) : list A :=
  take i l ++ x :: drop i l.

(** One sample put in front of position [k] in all six sequences. *)
Definition insert_sample (k : nat) (tm off : float64) (cm : string) (ux : Z)
    (a b : float64) (v : Samples) : Samples :=
  {| s_time := insert_at k tm (s_time v);
     s_offset := insert_at k off (s_offset v);
     s_comment := insert_at k cm (s_comment v);
     s_unix_time := insert_at k ux (s_unix_time v);
     s_atomic_clock_error := insert_at k a (s_atomic_clock_error v);
     s_ios_clock_offset := insert_at k b (s_ios_clock_offset v) |}.

(** The dictionary [.point] returns when the cursor is [i]. *)
Definition point_at (i : Z) (v : Samples) : option Point :=
  t ← s_time v !! Z.to_nat i;
  u ← s_unix_time v !! Z.to_nat i;
  o ← s_offset v !! Z.to_nat i;
  c ← s_comment v !! Z.to_nat i;
  a ← s_atomic_clock_error v !! Z.to_nat i;
  b ← s_ios_clock_offset v !! Z.to_nat i;
  Some {| p_point_index := i; p_time := t; p_unix_time := u; p_offset := o;
          p_timing_comment := c; p_atomic_clock_error := a;
          p_ios_clock_offset := b |}.

(** What [InsertPoint] prints when a number is missing. *)
Definition insert_refused_text : msg :=
  Text "Arguments time and offset must be floats (time as days, offset as seconds.".

(** The lines [concatTimingRuns] prints when it turns its argument down. *)
Definition too_few_runs_text : msg :=
  Text "The argument timing_runs must be a list of at least two TimingRun objects.".

Definition not_a_run_text : msg :=
  Text "There is an object is the list which is not a TimingRun object.".

(** An object [concatTimingRuns] does not take for a run: it has no
    [_class_type], or one that is not ["TimingRun"]. *)
Definition not_a_run (obj : pyobj) : Prop :=
  class_type_of obj <> Some "TimingRun"%string.


(** What the constructor prints around [Info()] when it is not told to be
    quiet. *)
Definition banner_text : msg :=
  Text ("myWatchTracker TimingRun" ++ newline ++ "------------------------").

Definition help_hint_text : msg :=
  Text ("(use .Help() to... well, get help.)" ++ newline).

(** The dictionary [info] of a run, from the values its entries have. *)
Definition info_of (watch_ file_ path_ start_ end_' : string) (duration_ : float64)
    (n : nat) : list (string * pyval) :=
  [("watch"%string, PyStr watch_); ("file"%string, PyStr file_);
   ("path"%string, PyStr path_); ("start"%string, PyStr start_);
   ("end"%string, PyStr end_'); ("duration"%string, PyFloat duration_);
   ("data points"%string, PyInt (Z.of_nat n))].

(** The line [Info()] prints for one entry. *)
Definition info_line (kv : string * pyval) : msg :=
  Fmt "{key:<11}: {self.info[key]}" [PyStr (fst kv); snd kv].


(** * Properties *)

(** ** Reset and the snapshot *)

(** C1 (the code departs from it).  [Reset()] is documented to reset "to
    data as loaded", but [_original_data] holds the arrays themselves and
    [ShiftOffset] adds in place: on a run loaded with offsets [1, 2],
    [ShiftOffset(1.0)] followed by [Reset()] leaves the offsets at [2, 3];
    and after [ShiftTime(1)] the accumulator [_time_shifted] is still 1,
    since [Reset] only zeroes [_offset_shifted]. *)
Theorem Reset_keeps_in_place_edits : forall py : PyBuiltins,
  let s0 := loaded [0; 1] [1; 2] in
  let c1 := (ShiftOffset (PyFloat (of_int 1)) ;; Reset)%py in
  let c2 := (ShiftTime (PyInt 1) ;; Reset)%py in
  (s_offset <$> samples (mem s0) (self s0)) = Some [of_int 1; of_int 2] /\
  fst (c1 s0) = Ok tt /\
  (s_offset <$> samples (mem (after c1 s0)) (self (after c1 s0)))
    = Some [of_int 2; of_int 3] /\
  _offset_shifted (self (after c1 s0)) = PyInt 0 /\
  fst (c2 s0) = Ok tt /\
  (s_time <$> samples (mem (after c2 s0)) (self (after c2 s0)))
    = Some [of_int 1; of_int 2] /\
  _time_shifted (self (after c2 s0)) = PyInt 1.
Proof.
  intros py. vm_compute. repeat split; reflexivity.
Qed.

(** ** The setters of the two error signals *)

(** C10 (the code departs from it).  With the cursor on a valid point and a
    float as value, both setters raise [TypeError] and write nothing: they
    subscript the scalar the property returns, not the array.  The setter
    of [point_offset], written with [self._offset], does write. *)
Theorem error_setters_raise : forall py : PyBuiltins,
  let s0 := loaded [0; 1] [1; 2] in
  let v := PyFloat (of_int 7) in
  set_point_atomic_clock_error v s0 = (Raise TypeError, s0) /\
  set_point_ios_clock_offset v s0 = (Raise TypeError, s0) /\
  fst (set_point_offset v s0) = Ok tt /\
  (s_offset <$> samples (mem (after (set_point_offset v) s0)) (self s0))
    = Some [of_int 7; of_int 2].
Proof.
  intros py. vm_compute. repeat split; reflexivity.
Qed.

(** ** Malformed arguments of the shifts *)

(** C8 (the code departs from it).  [ShiftOffset] and [ShiftTime] print
    their complaint about a value that is not a number and then go on:
    the in-place addition raises [TypeError].  Arrays and accumulators are
    as before, but the fault reaches the caller.  The same fault is raised
    for every string, whether [float] can read it or not. *)
Theorem shifts_raise_on_non_numeric : forall py : PyBuiltins,
  let s0 := loaded [0; 1] [1; 2] in
  fst (ShiftOffset PyNone s0) = Raise TypeError /\
  out (after (ShiftOffset PyNone) s0) = [Text "The argument must be a float."] /\
  mem (after (ShiftOffset PyNone) s0) = mem s0 /\
  self (after (ShiftOffset PyNone) s0) = self s0 /\
  fst (ShiftTime PyNone s0) = Raise TypeError /\
  out (after (ShiftTime PyNone) s0) = [Text "The argument must be a float (days)."] /\
  mem (after (ShiftTime PyNone) s0) = mem s0 /\
  self (after (ShiftTime PyNone) s0) = self s0 /\
  (forall str : string,
      fst (ShiftOffset (PyStr str) s0) = Raise TypeError /\
      fst (ShiftTime (PyStr str) s0) = Raise TypeError).
Proof.
  intros py. cbv zeta.
  do 8 (split; [vm_compute; reflexivity|]).
  intros str. split.
  - unfold ShiftOffset. cbn [py_float].
    destruct (float_of_str str); vm_compute; reflexivity.
  - unfold ShiftTime. cbn [py_float].
    destruct (float_of_str str); vm_compute; reflexivity.
Qed.

(** ** The timestamp of an inserted point *)

(** C9 (the code departs from it).  On a run with times [0, 1] and
    timestamps [1000, 87400], [InsertPoint(0.25, 5.0)] finds index 0 as
    nearest and inserts there, but the timestamp it stores is 1000, not
    1000 + 0.25 * 86400 = 22600: line 714 reads [self.time[0]] after line
    711 has put the new time in front.  Inserted next to index 1, the point
    gets the extrapolated timestamp: [InsertPoint(0.75, 5.0)] stores
    65800. *)
Theorem InsertPoint_timestamp_at_front : forall py : PyBuiltins,
  let s0 := loaded [0; 1] [1; 2] in
  let quarter := div (of_int 1) (of_int 4) in
  let three_quarters := div (of_int 3) (of_int 4) in
  let c1 := InsertPoint (PyFloat quarter) (PyFloat (of_int 5)) (PyStr EmptyString) true in
  let c2 := InsertPoint (PyFloat three_quarters) (PyFloat (of_int 5)) (PyStr EmptyString) true in
  is_ok (fst (c1 s0)) = true /\
  (s_time <$> samples (mem (after c1 s0)) (self (after c1 s0)))
    = Some [quarter; of_int 0; of_int 1] /\
  (s_unix_time <$> samples (mem (after c1 s0)) (self (after c1 s0)))
    = Some [1000; 1000; 87400] /\
  float64_to_int64 (add (of_int 1000) (mul (sub quarter (of_int 0)) (of_int 86400)))
    = 22600 /\
  (s_time <$> samples (mem (after c2 s0)) (self (after c2 s0)))
    = Some [of_int 0; three_quarters; of_int 1] /\
  (s_unix_time <$> samples (mem (after c2 s0)) (self (after c2 s0)))
    = Some [1000; 65800; 87400].
Proof.
  intros py. vm_compute. repeat split; reflexivity.
Qed.

(** ** Alignment of the six sequences *)

(** C2 (the code departs from it).  [linspaceTime] on a run of two samples
    with [n = 2] succeeds and returns a run whose [time] and [offset] have
    four entries while [comment], [unix_time] and the two error sequences
    keep two: the new comments are bound to an attribute [_comments], and
    the arrays built for the other three are never assigned. *)
Theorem linspaceTime_breaks_alignment : forall py : PyBuiltins,
  let s0 := loaded [0; 1] [0; 1] in
  exists r v,
    fst (linspaceTime (ObjTimingRun (self s0)) (PyInt 2) s0) = Ok (ObjTimingRun r) /\
    samples (mem (after (linspaceTime (ObjTimingRun (self s0)) (PyInt 2)) s0)) r = Some v /\
    length (s_time v) = 4%nat /\ length (s_offset v) = 4%nat /\
    length (s_comment v) = 2%nat /\ length (s_unix_time v) = 2%nat /\
    length (s_atomic_clock_error v) = 2%nat /\
    length (s_ios_clock_offset v) = 2%nat /\
    (length <$> _comments r) = Some 4%nat.
Proof.
  intros py. eexists. eexists. vm_compute. repeat split; reflexivity.
Qed.

(** ** Stepping through a method *)

Arguments add : simpl never.
Arguments sub : simpl never.
Arguments mul : simpl never.
Arguments div : simpl never.
Arguments of_int : simpl never.
Arguments Float64.abs : simpl never.
Arguments wrap64 : simpl never.

Ltac munfold :=
  unfold bind, ret, lift, raise, attr, set_attr, print, store, new_array, alloc,
    load_float64, load_int64, load_str, of_option.

Lemma bind_ok {A B} (c : M A) (k : A -> M B) (s s' : state) (a : A) :
  c s = (Ok a, s') -> bind c k s = k a s'.
Proof. intros H. unfold bind. rewrite H. reflexivity. Qed.

(** ** The store under writes and allocations *)

Section Store.

Implicit Types (h : list ndarray) (l : nat).

Lemma heap_float64_lt h l xs : heap_float64 h l = Some xs -> (l < length h)%nat.
Proof.
  unfold heap_float64. destruct (h !! l) eqn:E; [|discriminate].
  intros _. eapply lookup_lt_Some; eauto.
Qed.

Lemma heap_int64_lt h l xs : heap_int64 h l = Some xs -> (l < length h)%nat.
Proof.
  unfold heap_int64. destruct (h !! l) eqn:E; [|discriminate].
  intros _. eapply lookup_lt_Some; eauto.
Qed.

Lemma heap_str_lt h l c : heap_str h l = Some c -> (l < length h)%nat.
Proof.
  unfold heap_str. destruct (h !! l) eqn:E; [|discriminate].
  intros _. eapply lookup_lt_Some; eauto.
Qed.

Lemma heap_float64_store h l xs ys :
  heap_float64 h l = Some xs ->
  heap_float64 (<[l := Float64Arr ys]> h) l = Some ys.
Proof.
  intros H. apply heap_float64_lt in H. unfold heap_float64.
  rewrite list_lookup_insert_eq by assumption. reflexivity.
Qed.

(** Allocation leaves every array already there as it is. *)
Lemma heap_float64_app h h' l xs :
  heap_float64 h l = Some xs -> heap_float64 (h ++ h') l = Some xs.
Proof.
  intros H. pose proof (heap_float64_lt _ _ _ H) as Hl.
  unfold heap_float64 in *. rewrite lookup_app_l by assumption. exact H.
Qed.

Lemma heap_int64_app h h' l xs :
  heap_int64 h l = Some xs -> heap_int64 (h ++ h') l = Some xs.
Proof.
  intros H. pose proof (heap_int64_lt _ _ _ H) as Hl.
  unfold heap_int64 in *. rewrite lookup_app_l by assumption. exact H.
Qed.

Lemma heap_str_app h h' l c :
  heap_str h l = Some c -> heap_str (h ++ h') l = Some c.
Proof.
  intros H. pose proof (heap_str_lt _ _ _ H) as Hl.
  unfold heap_str in *. rewrite lookup_app_l by assumption. exact H.
Qed.

Lemma lookup_alloc h (a : ndarray) : (h ++ [a]) !! length h = Some a.
Proof. rewrite lookup_app_r by lia. rewrite Nat.sub_diag. reflexivity. Qed.

Lemma heap_float64_alloc h xs :
  heap_float64 (h ++ [Float64Arr xs]) (length h) = Some xs.
Proof. unfold heap_float64. rewrite lookup_alloc. reflexivity. Qed.

Lemma heap_int64_alloc h xs :
  heap_int64 (h ++ [Int64Arr xs]) (length h) = Some xs.
Proof. unfold heap_int64. rewrite lookup_alloc. reflexivity. Qed.

Lemma heap_str_alloc h w xs :
  heap_str (h ++ [StrArr w xs]) (length h) = Some (w, xs).
Proof. unfold heap_str. rewrite lookup_alloc. reflexivity. Qed.

End Store.

(** ** Shifting the offset and taking the shift back *)

Section Shifts.

Context {py : PyBuiltins}.

Lemma ShiftOffset_float (s : state) (o : list float64) (d : float64) (a : pyval) :
  heap_float64 (mem s) (_offset (self s)) = Some o ->
  py_add (_offset_shifted (self s)) (PyFloat d) = Ok a ->
  ShiftOffset (PyFloat d) s =
    (Ok tt, {| self := set_offset_shifted a (self s);
               mem := <[_offset (self s) := Float64Arr (map (fun x => add x d) o)]> (mem s);
               out := out s |}).
Proof.
  intros Ho Ha. unfold ShiftOffset. munfold. cbn.
  rewrite Ho. cbn. rewrite Ha. reflexivity.
Qed.

Lemma ShiftOffsetReset_float (s : state) (o : list float64) (a : float64) :
  heap_float64 (mem s) (_offset (self s)) = Some o ->
  _offset_shifted (self s) = PyFloat a ->
  ShiftOffsetReset s =
    (Ok tt, {| self := set_offset_shifted (PyInt 0) (self s);
               mem := <[_offset (self s) := Float64Arr (map (fun x => sub x a) o)]> (mem s);
               out := out s |}).
Proof.
  intros Ho Ha. unfold ShiftOffsetReset. munfold. cbn.
  rewrite Ho. cbn. rewrite Ha. reflexivity.
Qed.

(** C3 (as amended).  On a run whose accumulator is 0, as after loading,
    [ShiftOffset(d1); ShiftOffset(d2); ShiftOffsetReset()] for floats [d1],
    [d2] ends without fault, puts the accumulator back to 0, touches no
    other array or attribute, and leaves every offset [x] as
    [((x + d1) + d2) - ((0 + d1) + d2)] in binary64 arithmetic: the sum
    the accumulator has collected is subtracted, each operation rounding. *)
Theorem ShiftOffsetReset_subtracts_accumulated_sum
    (s : state) (o : list float64) (d1 d2 : float64) :
  heap_float64 (mem s) (_offset (self s)) = Some o ->
  _offset_shifted (self s) = PyInt 0 ->
  let c := (ShiftOffset (PyFloat d1) ;; ShiftOffset (PyFloat d2) ;; ShiftOffsetReset)%py in
  fst (c s) = Ok tt /\
  self (after c s) = self s /\
  heap_float64 (mem (after c s)) (_offset (self s))
    = Some (map (fun x => sub (add (add x d1) d2) (add (add (of_int 0) d1) d2)) o) /\
  (forall l, l <> _offset (self s) -> mem (after c s) !! l = mem s !! l) /\
  length (mem (after c s)) = length (mem s).
Proof.
  intros Ho Hacc c. subst c. unfold after.
  assert (H1 : py_add (_offset_shifted (self s)) (PyFloat d1)
               = Ok (PyFloat (add (of_int 0) d1))) by (rewrite Hacc; reflexivity).
  rewrite (bind_ok _ _ _ _ _ (ShiftOffset_float s o d1 _ Ho H1)).
  set (s1 := {| self := _; mem := _; out := _ |}).
  assert (Ho1 : heap_float64 (mem s1) (_offset (self s1))
                = Some (map (fun x => add x d1) o)).
  { subst s1. cbn. eapply heap_float64_store; eauto. }
  assert (H2 : py_add (_offset_shifted (self s1)) (PyFloat d2)
               = Ok (PyFloat (add (add (of_int 0) d1) d2))) by reflexivity.
  rewrite (bind_ok _ _ _ _ _ (ShiftOffset_float s1 _ d2 _ Ho1 H2)).
  set (s2 := {| self := _; mem := _; out := _ |}).
  assert (Ho2 : heap_float64 (mem s2) (_offset (self s2))
                = Some (map (fun x => add x d2) (map (fun x => add x d1) o))).
  { subst s2. cbn. eapply heap_float64_store; eauto. }
  rewrite (ShiftOffsetReset_float s2 _ (add (add (of_int 0) d1) d2) Ho2 eq_refl).
  subst s2 s1. cbn.
  repeat split.
  - destruct (self s); cbn in *; subst; reflexivity.
  - rewrite !list_insert_insert_eq. rewrite !map_map.
    eapply heap_float64_store; eauto.
  - intros l Hl. rewrite !list_lookup_insert_ne by congruence. reflexivity.
  - rewrite !length_insert. reflexivity.
Qed.

End Shifts.

(** The theorem at a loaded run with offsets [1, 2] and deltas 1 and 2. *)
Lemma ShiftOffsetReset_subtracts_accumulated_sum_witness :
  let s := loaded [0; 1] [1; 2] in
  let c := (@ShiftOffset sample_builtins (PyFloat (of_int 1)) ;;
            @ShiftOffset sample_builtins (PyFloat (of_int 2)) ;; ShiftOffsetReset)%py in
  fst (c s) = Ok tt /\
  self (after c s) = self s /\
  heap_float64 (mem (after c s)) (_offset (self s))
    = Some (map (fun x => sub (add (add x (of_int 1)) (of_int 2))
                              (add (add (of_int 0) (of_int 1)) (of_int 2)))
                [of_int 1; of_int 2]) /\
  (forall l, l <> _offset (self s) -> mem (after c s) !! l = mem s !! l) /\
  length (mem (after c s)) = length (mem s).
Proof.
  apply (@ShiftOffsetReset_subtracts_accumulated_sum sample_builtins
           (loaded [0; 1] [1; 2]) [of_int 1; of_int 2] (of_int 1) (of_int 2));
    reflexivity.
Defined.

(** C3 (as stated) fails: with one offset [2^53] and both deltas 1.0, each
    addition rounds back to [2^53], the accumulator holds 2.0, and the
    reset leaves [2^53 - 2]. *)
Lemma ShiftOffsetReset_not_exact :
  ~ @restores_offsets_exactly sample_builtins (loaded [0] [2 ^ 53]) (of_int 1) (of_int 1).
Proof.
  intros H. specialize (H [of_int (2 ^ 53)] eq_refl).
  vm_compute in H. discriminate H.
Qed.

(** ** Rate derivation *)

Lemma add_comm (x y : float64) : add x y = add y x.
Proof.
  unfold add, SFadd.
  destruct x as [sx|sx| |sx mx ex], y as [sy|sy| |sy my ey];
    try reflexivity; try (destruct sx, sy; reflexivity).
  rewrite (Z.min_comm ex ey), Z.add_comm. reflexivity.
Qed.

Lemma getitem_nat {A} (xs : list A) (n : nat) (x : A) :
  xs !! n = Some x -> Np.getitem xs (Z.of_nat n) = Ok x.
Proof.
  intros H. pose proof (lookup_lt_Some _ _ _ H) as Hl.
  unfold Np.getitem, Np.norm_index.
  replace (0 <=? Z.of_nat n) with true by (symmetry; apply Z.leb_le; lia).
  replace (Z.of_nat n <? Z.of_nat (length xs)) with true
    by (symmetry; apply Z.ltb_lt; lia).
  cbn. rewrite Nat2Z.id, H. reflexivity.
Qed.

Lemma getitem_succ {A} (xs : list A) (n : nat) (x : A) :
  xs !! S n = Some x -> Np.getitem xs (Z.of_nat n + 1) = Ok x.
Proof.
  intros H. replace (Z.of_nat n + 1) with (Z.of_nat (S n)) by lia.
  apply getitem_nat, H.
Qed.

Lemma getitem_head {A} (x : A) (xs : list A) : Np.getitem (x :: xs) 0 = Ok x.
Proof. exact (getitem_nat (x :: xs) 0 x eq_refl). Qed.

Section RateDerivation.

Context {py : PyBuiltins}.

Lemma _calcRate_loop_ok (s : state) (ts os : list float64) :
  heap_float64 (mem s) (_time (self s)) = Some ts ->
  heap_float64 (mem s) (_offset (self s)) = Some os ->
  forall (k a : nat) (xaxis yaxis : list float64),
    (a + k < length ts)%nat -> (a + k < length os)%nat ->
    _calcRate_loop (seq a k) xaxis yaxis s =
      (Ok (xaxis ++ map (fun i => fst (rate_at ts os i)) (seq a k),
           yaxis ++ map (fun i => snd (rate_at ts os i)) (seq a k)), s).
Proof.
  intros Ht Ho. induction k as [|k IH]; intros a xaxis yaxis Hts Hos.
  - cbn. rewrite !app_nil_r. reflexivity.
  - cbn [seq _calcRate_loop].
    destruct (lookup_lt_is_Some_2 ts a) as [t0 Ht0]; [lia|].
    destruct (lookup_lt_is_Some_2 ts (S a)) as [t1 Ht1]; [lia|].
    destruct (lookup_lt_is_Some_2 os a) as [o0 Ho0]; [lia|].
    destruct (lookup_lt_is_Some_2 os (S a)) as [o1 Ho1]; [lia|].
    pose proof (getitem_succ _ _ _ Ht1) as Ht1'.
    pose proof (getitem_succ _ _ _ Ho1) as Ho1'.
    pose proof (getitem_nat _ _ _ Ht0) as Ht0'.
    pose proof (getitem_nat _ _ _ Ho0) as Ho0'.
    unfold time, offset. unfold load_float64, of_option. munfold.
    repeat (cbn [self mem out fst snd];
            first [rewrite Ht | rewrite Ho | rewrite Ht1' | rewrite Ht0'
                  | rewrite Ho1' | rewrite Ho0']).
    rewrite IH by lia.
    assert (Hra : rate_at ts os a
                  = (div (add t1 t0) (of_int 2), div (sub o1 o0) (sub t1 t0))).
    { unfold rate_at. rewrite Ht0, Ht1, Ho0, Ho1. reflexivity. }
    cbn [map]. rewrite Hra. cbn [fst snd].
    rewrite <- !app_assoc. reflexivity.
Qed.

(** C4 (as amended).  On a store of [n >= 2] aligned samples, [rate]
    depends on the first timestamp, since the dictionary it builds also
    holds [self.start].  When [datetime.fromtimestamp] renders that
    timestamp, [rate] returns [n - 1] midpoints and [n - 1] rates, entry [i]
    being [(time[i] + time[i+1]) / 2] and
    [(offset[i+1] - offset[i]) / (time[i+1] - time[i])]; when it raises,
    [rate] raises the same exception and returns nothing.  In both cases the
    state it leaves is the state it found.  With [time = [0,1,2]] and
    [offset = [0,2,3]] the pairs are [(0.5, 2.0)] and [(1.5, 1.0)]. *)
Theorem rate_of_consecutive_samples
    (s : state) (ts os : list float64) (u0 : Z) (us : list Z) :
  heap_float64 (mem s) (_time (self s)) = Some ts ->
  heap_float64 (mem s) (_offset (self s)) = Some os ->
  heap_int64 (mem s) (_unix_time (self s)) = Some (u0 :: us) ->
  length os = length ts ->
  (2 <= length ts)%nat ->
  (forall iso, fromtimestamp_isoformat u0 = Ok iso ->
   exists r : Rate,
     _calcRate s = (Ok r, s) /\
     length (rate_time r) = (length ts - 1)%nat /\
     length (rate_rate r) = (length ts - 1)%nat /\
     (forall i t0 t1 o0 o1,
         ts !! i = Some t0 -> ts !! S i = Some t1 ->
         os !! i = Some o0 -> os !! S i = Some o1 ->
         rate_time r !! i = Some (div (add t0 t1) (of_int 2)) /\
         rate_rate r !! i = Some (div (sub o1 o0) (sub t1 t0))) /\
     (ts = [of_int 0; of_int 1; of_int 2] ->
      os = [of_int 0; of_int 2; of_int 3] ->
      rate_time r = [div (of_int 1) (of_int 2); div (of_int 3) (of_int 2)] /\
      rate_rate r = [of_int 2; of_int 1])) /\
  (forall e, fromtimestamp_isoformat u0 = Raise e -> _calcRate s = (Raise e, s)).
Proof.
  intros Ht Ho Hu Hlen Hn.
  assert (Hrun : _calcRate s
                 = match fromtimestamp_isoformat u0 with
                   | Ok iso =>
                       (Ok {| rate_time := map (fun i => fst (rate_at ts os i))
                                             (seq 0 (length os - 1));
                              rate_rate := map (fun i => snd (rate_at ts os i))
                                             (seq 0 (length os - 1));
                              rate_units := ["days"%string; "s/day"%string];
                              rate_start := str_replace_char "T"%char ","%char iso |}, s)
                   | Raise e => (Raise e, s)
                   end).
  { unfold _calcRate.
    unfold offset at 1. unfold load_float64, of_option. munfold.
    cbn [self mem out]. rewrite Ho.
    unfold bind.
    rewrite (_calcRate_loop_ok s ts os Ht Ho (length os - 1) 0 [] []) by lia.
    unfold start, unix_time, load_int64, of_option. munfold.
    cbn [self mem out]. rewrite Hu. cbn [self mem out].
    rewrite getitem_head. destruct (fromtimestamp_isoformat u0); reflexivity. }
  split.
  - intros iso Hiso. rewrite Hrun, Hiso.
    eexists. split; [reflexivity|]. split; [|split; [|split]].
    + cbn. rewrite length_map, length_seq. lia.
    + cbn. rewrite length_map, length_seq. lia.
    + intros i t0 t1 o0 o1 Ht0 Ht1 Ho0 Ho1.
      assert (Hi : (i < length os - 1)%nat).
      { apply lookup_lt_Some in Ho1. lia. }
      cbn. rewrite !list_lookup_fmap, !lookup_seq_lt by assumption.
      cbn. unfold rate_at. rewrite Ht0, Ht1, Ho0, Ho1. cbn.
      rewrite (add_comm t1 t0). split; reflexivity.
    + intros -> ->. split; vm_compute; reflexivity.
  - intros e He. rewrite Hrun, He. reflexivity.
Qed.

End RateDerivation.

(** The theorem at the run of the example. *)
Lemma rate_of_consecutive_samples_witness :
  let s := loaded [0; 1; 2] [0; 2; 3] in
  let ts := [of_int 0; of_int 1; of_int 2] in
  let os := [of_int 0; of_int 2; of_int 3] in
  (forall iso, @fromtimestamp_isoformat sample_builtins 1000 = Ok iso ->
   exists r : Rate,
     @_calcRate sample_builtins s = (Ok r, s) /\
     length (rate_time r) = (length ts - 1)%nat /\
     length (rate_rate r) = (length ts - 1)%nat /\
     (forall i t0 t1 o0 o1,
         ts !! i = Some t0 -> ts !! S i = Some t1 ->
         os !! i = Some o0 -> os !! S i = Some o1 ->
         rate_time r !! i = Some (div (add t0 t1) (of_int 2)) /\
         rate_rate r !! i = Some (div (sub o1 o0) (sub t1 t0))) /\
     (ts = [of_int 0; of_int 1; of_int 2] ->
      os = [of_int 0; of_int 2; of_int 3] ->
      rate_time r = [div (of_int 1) (of_int 2); div (of_int 3) (of_int 2)] /\
      rate_rate r = [of_int 2; of_int 1])) /\
  (forall e, @fromtimestamp_isoformat sample_builtins 1000 = Raise e ->
             @_calcRate sample_builtins s = (Raise e, s)).
Proof.
  intros s ts os.
  apply (@rate_of_consecutive_samples sample_builtins s ts os 1000 [87400; 173800]);
    first [reflexivity | cbn; lia].
Defined.

(** C4 (as stated) fails: a run whose first timestamp lies beyond the
    calendar - here 1000 + 86400 * 10^14 seconds, which still fits [int64] -
    has two samples, yet [rate] raises what [datetime.fromtimestamp] raises
    and returns no pairs. *)
Lemma rate_raises_beyond_calendar :
  ~ @rate_as_claimed calendar_builtins
      (loaded [100000000000000; 100000000000001] [0; 1]).
Proof.
  intros H.
  destruct (H [of_int 100000000000000; of_int 100000000000001] eq_refl ltac:(cbn; lia))
    as (r & Hr & _).
  vm_compute in Hr. discriminate Hr.
Qed.

(** ** Reading the six sequences back *)

Lemma samples_Some (h : list ndarray) (r : TimingRun) (v : Samples) :
  samples h r = Some v ->
  heap_float64 h (_time r) = Some (s_time v) /\
  heap_float64 h (_offset r) = Some (s_offset v) /\
  (exists w, heap_str h (_comment r) = Some (w, s_comment v)) /\
  heap_int64 h (_unix_time r) = Some (s_unix_time v) /\
  heap_float64 h (_atomic_clock_error r) = Some (s_atomic_clock_error v) /\
  heap_float64 h (_ios_clock_offset r) = Some (s_ios_clock_offset v).
Proof.
  unfold samples. intros H.
  destruct (heap_float64 h (_time r)) as [t|]; [|discriminate].
  destruct (heap_float64 h (_offset r)) as [o|]; [|discriminate].
  destruct (heap_str h (_comment r)) as [[w c]|]; [|discriminate].
  destruct (heap_int64 h (_unix_time r)) as [u|]; [|discriminate].
  destruct (heap_float64 h (_atomic_clock_error r)) as [a|]; [|discriminate].
  destruct (heap_float64 h (_ios_clock_offset r)) as [b|]; [|discriminate].
  cbn in H. injection H as <-. cbn. eauto 10.
Qed.

(** A dereference is settled by the allocation that made the array, by a
    fact at hand, or below the allocations that came after. *)
Ltac heap_lookup :=
  first [ apply heap_float64_alloc | apply heap_int64_alloc | apply heap_str_alloc
        | eassumption
        | (first [apply heap_float64_app | apply heap_int64_app | apply heap_str_app];
           heap_lookup) ].

Ltac heap_step :=
  match goal with
  | |- context [heap_float64 ?h ?l] =>
      let H := fresh in
      eassert (H : heap_float64 h l = Some _) by heap_lookup; rewrite H; clear H
  | |- context [heap_int64 ?h ?l] =>
      let H := fresh in
      eassert (H : heap_int64 h l = Some _) by heap_lookup; rewrite H; clear H
  | |- context [heap_str ?h ?l] =>
      let H := fresh in
      eassert (H : heap_str h l = Some _) by heap_lookup; rewrite H; clear H
  end.

Ltac mcbn :=
  cbn [self mem out fst snd _class_type _time _offset _comment _unix_time
       _atomic_clock_error _ios_clock_offset _point_index _header _other_files
       _offset_shifted _time_shifted _original_data _comments _watch _watch_index
       _file _path _ok
       set_time set_offset set_comment set_unix_time set_atomic_clock_error
       set_ios_clock_offset set_point_index set_header set_watch set_watch_index
       set_file set_path set_other_files set_offset_shifted set_time_shifted
       set_original_data set_comments].

(** ** Deleting a point *)

Lemma delete_nat {A} (xs : list A) (i : nat) :
  (i < length xs)%nat -> Np.delete xs (Z.of_nat i) = Ok (base.delete i xs).
Proof.
  intros Hl. unfold Np.delete, Np.norm_index.
  replace (0 <=? Z.of_nat i) with true by (symmetry; apply Z.leb_le; lia).
  replace (Z.of_nat i <? Z.of_nat (length xs)) with true
    by (symmetry; apply Z.ltb_lt; lia).
  cbn. rewrite Nat2Z.id. reflexivity.
Qed.

Lemma aligned_delete_sample (v : Samples) (n i : nat) :
  aligned v n -> (i < n)%nat -> aligned (delete_sample i v) (n - 1).
Proof.
  intros (Ht & Ho & Hc & Hu & Ha & Hb) Hi. unfold aligned, delete_sample. cbn.
  rewrite !length_delete by (apply lookup_lt_is_Some; lia).
  repeat split; lia.
Qed.

Section DeletePoint.

Context {py : PyBuiltins}.

Lemma _deletePoint_deletes (s : state) (v : Samples) (n i : nat) (index : pyval) :
  samples (mem s) (self s) = Some v -> aligned v n ->
  (2 <= n)%nat -> (i < n)%nat ->
  delete_index s index = Ok (Z.of_nat i) ->
  exists s',
    _deletePoint index s = (Ok true, s') /\
    samples (mem s') (self s') = Some (delete_sample i v) /\
    _point_index (self s') =
      (if Nat.eqb i (n - 1) then Z.of_nat n - 2 else _point_index (self s)) /\
    (forall l, (l < length (mem s))%nat -> mem s' !! l = mem s !! l) /\
    out s' = out s /\
    _original_data (self s') = _original_data (self s).
Proof.
  intros Hv (Ht & Ho & Hc & Hu & Ha & Hb) Hn Hi Hidx.
  apply samples_Some in Hv.
  destruct Hv as (Gt & Go & (w & Gc) & Gu & Ga & Gb).
  unfold delete_index in Hidx.
  unfold _deletePoint.
  unfold time, offset, timing_comments, unix_time, atomic_clock_error, ios_clock_offset.
  unfold load_float64, load_int64, load_str, of_option. munfold.
  mcbn. rewrite Gt. mcbn.
  replace (Z.of_nat (length (s_time v)) <=? 1) with false
    by (symmetry; apply Z.leb_gt; lia).
  rewrite Hidx.
  replace ((Z.of_nat i <? 0) || (Z.of_nat (length (s_time v)) <=? Z.of_nat i)) with false
    by (symmetry; apply orb_false_iff; split; [apply Z.ltb_ge|apply Z.leb_gt]; lia).
  rewrite !delete_nat by lia. mcbn.
  repeat (heap_step; mcbn; rewrite ?delete_nat by lia; mcbn).
  assert (Hlen : length (base.delete i (s_time v)) = (n - 1)%nat).
  { rewrite length_delete by (apply lookup_lt_is_Some; lia). lia. }
  rewrite Hlen.
  assert (Hcur : (Z.of_nat (n - 1) <=? Z.of_nat i) = Nat.eqb i (n - 1)).
  { destruct (Nat.eqb_spec i (n - 1)); [apply Z.leb_le|apply Z.leb_gt]; lia. }
  rewrite Hcur.
  destruct (Nat.eqb i (n - 1)); eexists; (split; [reflexivity|]); mcbn;
    (split; [|split; [|split; [|split]]]);
    try reflexivity; try lia.
  all: try (unfold samples; mcbn;
            repeat (heap_step; cbn [mbind option_bind]); reflexivity).
  all: intros l Hl;
    rewrite !lookup_app_l by (rewrite ?length_app; cbn [length]; lia); reflexivity.
Qed.

Lemma _deletePoint_refuses (s : state) (v : Samples) (n : nat) (index : pyval) :
  samples (mem s) (self s) = Some v -> aligned v n ->
  ((n <= 1)%nat \/
   forall i, delete_index s index = Ok i -> i < 0 \/ Z.of_nat n <= i) ->
  exists m,
    _deletePoint index s
      = (Ok false, {| self := self s; mem := mem s; out := out s ++ [m] |}).
Proof.
  intros Hv (Ht & _) Hcase.
  apply samples_Some in Hv. destruct Hv as (Gt & _).
  unfold delete_index in Hcase.
  unfold _deletePoint, time, load_float64, of_option. munfold.
  mcbn. rewrite Gt. mcbn. rewrite Ht.
  destruct (Z.leb_spec (Z.of_nat n) 1) as [Hn|Hn]; [eexists; reflexivity|].
  destruct Hcase as [Hcase|Hcase]; [lia|].
  destruct (py_int _) as [i|e]; [|eexists; reflexivity].
  destruct (Hcase i eq_refl) as [Hi|Hi].
  - replace (i <? 0) with true by (symmetry; apply Z.ltb_lt; lia).
    eexists; reflexivity.
  - replace (Z.of_nat n <=? i) with true by (symmetry; apply Z.leb_le; lia).
    rewrite orb_true_r. eexists; reflexivity.
Qed.

(** C5 (as amended).  On a store of [n] aligned samples, [_deletePoint]
    works with the cursor when the argument is [None] and otherwise with
    [int(index)], which truncates a float toward zero.  It returns [False]
    after a message, with arrays and attributes as they were, when
    [n <= 1], when [int] cannot convert the argument, or when the converted
    index is outside [0, n-1].  Otherwise it returns [True], the sample at
    that index is gone from all six sequences, which stay aligned, and the
    cursor is [n - 2] when the index was [n - 1] and unchanged when not. *)
Theorem _deletePoint_by_converted_index
    (s : state) (v : Samples) (n : nat) (index : pyval) :
  samples (mem s) (self s) = Some v ->
  aligned v n ->
  (forall x i, index = PyFloat x -> trunc x = Some i -> delete_index s index = Ok i) /\
  ((n <= 1)%nat \/
   (forall i, delete_index s index = Ok i -> i < 0 \/ Z.of_nat n <= i) ->
   exists m,
     _deletePoint index s
       = (Ok false, {| self := self s; mem := mem s; out := out s ++ [m] |})) /\
  (forall i : nat,
     (2 <= n)%nat -> (i < n)%nat ->
     delete_index s index = Ok (Z.of_nat i) ->
     exists s',
       _deletePoint index s = (Ok true, s') /\
       samples (mem s') (self s') = Some (delete_sample i v) /\
       aligned (delete_sample i v) (n - 1) /\
       _point_index (self s') =
         (if Nat.eqb i (n - 1) then Z.of_nat n - 2 else _point_index (self s)) /\
       (forall l, (l < length (mem s))%nat -> mem s' !! l = mem s !! l)).
Proof.
  intros Hv Hal. split; [|split].
  - intros x i -> Hx. unfold delete_index. cbn. rewrite Hx. reflexivity.
  - intros Hcase. eapply _deletePoint_refuses; eauto.
  - intros i Hn Hi Hidx.
    destruct (_deletePoint_deletes s v n i index Hv Hal Hn Hi Hidx)
      as (s' & Hrun & Hs & Hcur & Hframe & _).
    exists s'. repeat split; try assumption.
    all: eapply aligned_delete_sample; eauto.
Qed.

End DeletePoint.

(** The theorem at a loaded run of three samples and the index 1.5. *)
Lemma _deletePoint_by_converted_index_witness :
  let s := loaded [0; 1; 2] [5; 6; 7] in
  let v := samples_of_csv (csv_of [0; 1; 2] [5; 6; 7]) in
  let index := PyFloat (div (of_int 3) (of_int 2)) in
  let n := 3%nat in
  (forall x i, index = PyFloat x -> trunc x = Some i ->
               @delete_index sample_builtins s index = Ok i) /\
  ((n <= 1)%nat \/
   (forall i, @delete_index sample_builtins s index = Ok i -> i < 0 \/ Z.of_nat n <= i) ->
   exists m,
     @_deletePoint sample_builtins index s
       = (Ok false, {| self := self s; mem := mem s; out := out s ++ [m] |})) /\
  (forall i : nat,
     (2 <= n)%nat -> (i < n)%nat ->
     @delete_index sample_builtins s index = Ok (Z.of_nat i) ->
     exists s',
       @_deletePoint sample_builtins index s = (Ok true, s') /\
       samples (mem s') (self s') = Some (delete_sample i v) /\
       aligned (delete_sample i v) (n - 1) /\
       _point_index (self s') =
         (if Nat.eqb i (n - 1) then Z.of_nat n - 2 else _point_index (self s)) /\
       (forall l, (l < length (mem s))%nat -> mem s' !! l = mem s !! l)).
Proof.
  intros s v index n.
  apply (@_deletePoint_by_converted_index sample_builtins s v n index).
  - reflexivity.
  - repeat split.
Defined.

(** C5 (as stated) fails: the index 1.5 is not an integer, yet on a run of
    three samples [_deletePoint(1.5)] returns [True] and removes sample
    1. *)
Lemma _deletePoint_accepts_float_index :
  ~ @rejected sample_builtins (PyFloat (div (of_int 3) (of_int 2)))
      (loaded [0; 1; 2] [5; 6; 7]).
Proof.
  intros (H & _). vm_compute in H. discriminate H.
Qed.

(** ** Deep copies *)

Lemma memo_ok_nil (h : list ndarray) : memo_ok h [].
Proof. intros k v H. discriminate H. Qed.

Lemma copy_array_ok (m : memo) (l : nat) (s : state) (a : ndarray) :
  memo_ok (mem s) m ->
  mem s !! l = Some a ->
  exists l' m' s',
    copy_array m l s = (Ok (l', m'), s') /\
    mem s `prefix_of` mem s' /\
    mem s' !! l' = Some a /\
    memo_ok (mem s') m' /\
    self s' = self s /\ out s' = out s.
Proof.
  intros Hm Hl. unfold copy_array.
  destruct (memo_find m l) as [l'|] eqn:E.
  - destruct (Hm _ _ E) as (a' & Hk & Hv).
    exists l', m, s. repeat split; try reflexivity; try assumption. congruence.
  - rewrite Hl. munfold. cbn.
    eexists _, _, _. split; [reflexivity|]. cbn.
    split; [apply prefix_app_r; reflexivity|].
    split; [apply lookup_alloc|].
    split; [|split; reflexivity].
    intros k v. cbn. destruct (Nat.eqb_spec l k) as [->|Hne].
    + intros [= <-]. exists a. split; [|apply lookup_alloc].
      rewrite lookup_app_l; [assumption|]. eapply lookup_lt_Some; eauto.
    + intros Hf. destruct (Hm _ _ Hf) as (a' & Hk & Hv). exists a'.
      split; (rewrite lookup_app_l; [assumption|]; eapply lookup_lt_Some; eauto).
Qed.

Lemma heap_float64_lookup (h : list ndarray) (l : nat) (xs : list float64) :
  heap_float64 h l = Some xs <-> h !! l = Some (Float64Arr xs).
Proof.
  unfold heap_float64. split.
  - destruct (h !! l) as [[]|]; intros [= ->]; reflexivity.
  - intros ->. reflexivity.
Qed.

Lemma heap_int64_lookup (h : list ndarray) (l : nat) (xs : list Z) :
  heap_int64 h l = Some xs <-> h !! l = Some (Int64Arr xs).
Proof.
  unfold heap_int64. split.
  - destruct (h !! l) as [[]|]; intros [= ->]; reflexivity.
  - intros ->. reflexivity.
Qed.

Lemma heap_str_lookup (h : list ndarray) (l : nat) (w : nat) (xs : list string) :
  heap_str h l = Some (w, xs) <-> h !! l = Some (StrArr w xs).
Proof.
  unfold heap_str. split.
  - destruct (h !! l) as [[]|]; intros [= -> ->]; reflexivity.
  - intros ->. reflexivity.
Qed.

Ltac copy_step :=
  match goal with
  | Hm : memo_ok (mem ?s) ?m, Hpre : prefix (mem ?s0) (mem ?s),
    Hself : (self ?s = self ?s0), Hout : (out ?s = out ?s0)
    |- context [copy_array ?m ?l ?s] =>
      let l' := fresh "l" in let m' := fresh "m" in let s' := fresh "s" in
      let Heq := fresh "Heq" in let Hp := fresh "Hp" in let Hl := fresh "Hl" in
      let Hm' := fresh "Hm" in let Hs := fresh "Hs" in let Ho := fresh "Ho" in
      let Hpre' := fresh "Hpre" in
      let Hself' := fresh "Hself" in let Hout' := fresh "Hout" in
      destruct (copy_array_ok m l s _ Hm ltac:(eassumption))
        as (l' & m' & s' & Heq & Hp & Hl & Hm' & Hs & Ho);
      rewrite Heq; cbn beta iota; clear Heq;
      repeat match goal with
             | G : _ = Some _ |- _ =>
                 apply (fun G' => prefix_lookup_Some _ _ _ _ G' Hp) in G
             end;
      pose proof (transitivity Hpre Hp) as Hpre';
      pose proof (eq_trans Hs Hself) as Hself';
      pose proof (eq_trans Ho Hout) as Hout';
      clear Hpre Hp Hm Hself Hout Hs Ho
  end.

Lemma deepcopy_ok (r : TimingRun) (s : state) (v : Samples) :
  samples (mem s) r = Some v ->
  original_data_ok (mem s) (_original_data r) ->
  exists r' s',
    deepcopy r s = (Ok r', s') /\
    samples (mem s') r' = Some v /\
    comment_width (mem s') r' = comment_width (mem s) r /\
    same_attrs r r' /\
    mem s `prefix_of` mem s' /\ self s' = self s /\ out s' = out s.
Proof.
  intros Hv Hd.
  apply samples_Some in Hv. destruct Hv as (Gt & Go & (w & Gc) & Gu & Ga & Gb).
  assert (Hw : comment_width (mem s) r = Some w).
  { unfold comment_width. rewrite Gc. reflexivity. }
  rewrite Hw. clear Hw.
  apply heap_float64_lookup in Gt, Go, Ga, Gb.
  apply heap_int64_lookup in Gu. apply heap_str_lookup in Gc.
  pose proof (memo_ok_nil (mem s)) as Hm.
  assert (Hpre : mem s `prefix_of` mem s) by reflexivity.
  assert (Hself : self s = self s) by reflexivity.
  assert (Hout : out s = out s) by reflexivity.
  unfold deepcopy. unfold bind. cbn beta.
  destruct (_original_data r) as [d|] eqn:Ed.
  - destruct Hd as ([a1 H1] & [a2 H2] & [a3 H3] & [a4 H4] & [a5 H5] & [a6 H6]).
    do 6 copy_step.
    unfold deepcopy_original_data, bind.
    do 6 copy_step.
    unfold ret. eexists _, _. split; [reflexivity|].
    split; [|split; [|split; [|split; [|split]]]]; try assumption.
    + unfold samples. mcbn.
      repeat first
        [ erewrite (proj2 (heap_float64_lookup _ _ _)) by eassumption
        | erewrite (proj2 (heap_int64_lookup _ _ _)) by eassumption
        | erewrite (proj2 (heap_str_lookup _ _ _ _)) by eassumption ].
      cbn [mbind option_bind snd]. destruct v; reflexivity.
    + unfold comment_width. mcbn.
      erewrite (proj2 (heap_str_lookup _ _ _ _)) by eassumption. reflexivity.
    + repeat split.
  - do 6 copy_step.
    unfold deepcopy_original_data, ret. eexists _, _. split; [reflexivity|].
    split; [|split; [|split; [|split; [|split]]]]; try assumption.
    + unfold samples. mcbn.
      repeat first
        [ erewrite (proj2 (heap_float64_lookup _ _ _)) by eassumption
        | erewrite (proj2 (heap_int64_lookup _ _ _)) by eassumption
        | erewrite (proj2 (heap_str_lookup _ _ _ _)) by eassumption ].
      cbn [mbind option_bind snd]. destruct v; reflexivity.
    + unfold comment_width. mcbn.
      erewrite (proj2 (heap_str_lookup _ _ _ _)) by eassumption. reflexivity.
    + repeat split.
Qed.




(** ** Concatenation *)

Lemma getitem_last {A} (xs : list A) (x : A) :
  last xs = Some x -> Np.getitem xs (-1) = Ok x.
Proof.
  intros H. rewrite last_lookup in H.
  pose proof (lookup_lt_Some _ _ _ H) as Hl.
  unfold Np.getitem, Np.norm_index.
  replace (0 <=? -1) with false by reflexivity. cbn [andb].
  replace (- Z.of_nat (length xs) <=? -1) with true by (symmetry; apply Z.leb_le; lia).
  cbn [andb Z.ltb Z.compare].
  replace (Z.to_nat (-1 + Z.of_nat (length xs))) with (pred (length xs)) by lia.
  rewrite H. reflexivity.
Qed.

Lemma getitem_first {A} (xs : list A) (x : A) :
  head xs = Some x -> Np.getitem xs 0 = Ok x.
Proof. destruct xs; [discriminate|]. intros [= ->]. apply getitem_head. Qed.

Lemma concat_step_ok (connect_offset : bool) (N1 : nat) (obj : TimingRun)
    (s : state) (acc b res : Samples) :
  samples (mem s) (self s) = Some acc ->
  samples (mem s) obj = Some b ->
  seam_join connect_offset N1 acc b = Some res ->
  exists s',
    concat_step connect_offset N1 (ObjTimingRun obj) s = (Ok tt, s') /\
    samples (mem s') (self s') = Some res /\
    mem s `prefix_of` mem s' /\
    same_attrs (self s) (self s') /\
    _original_data (self s') = _original_data (self s) /\
    out s' = out s.
Proof.
  intros Ha Hb Hj.
  apply samples_Some in Ha. destruct Ha as (At & Ao & (wa & Ac) & Au & Aa & Ab).
  apply samples_Some in Hb. destruct Hb as (Bt & Bo & (wb & Bc) & Bu & Ba & Bb).
  unfold seam_join in Hj.
  destruct (last (s_time acc)) as [tl|] eqn:Etl; [|discriminate].
  destruct (last (s_unix_time acc)) as [ul|] eqn:Eul; [|discriminate].
  cbn [mbind option_bind] in Hj.
  unfold concat_step.
  unfold time, offset, timing_comments, unix_time, atomic_clock_error, ios_clock_offset.
  unfold load_float64, load_int64, load_str, of_option. munfold.
  mcbn.
  destruct connect_offset.
  - destruct (head (s_offset b)) as [o0|] eqn:Eo0; [|discriminate].
    destruct (last (s_offset acc)) as [ol|] eqn:Eol; [|discriminate].
    cbn [mbind option_bind] in Hj. injection Hj as <-.
    repeat (first [heap_step
                  | rewrite (getitem_last _ _ Etl) | rewrite (getitem_last _ _ Eul)
                  | rewrite (getitem_last _ _ Eol) | rewrite (getitem_first _ _ Eo0)];
            mcbn; cbn [negb]).
    eexists. split; [reflexivity|]. mcbn.
    split; [|split; [|split; [|split]]].
    + unfold samples, Np.hstack, Np.slice_from. mcbn.
      repeat (heap_step; cbn [mbind option_bind]). reflexivity.
    + repeat (etrans; [|apply prefix_app_r; reflexivity]). reflexivity.
    + repeat split.
    + reflexivity.
    + reflexivity.
  - cbn [mbind option_bind] in Hj. injection Hj as <-.
    repeat (first [heap_step
                  | rewrite (getitem_last _ _ Etl) | rewrite (getitem_last _ _ Eul)];
            mcbn; cbn [negb]).
    eexists. split; [reflexivity|]. mcbn.
    split; [|split; [|split; [|split]]].
    + unfold samples, Np.hstack, Np.slice_from. mcbn.
      repeat (heap_step; cbn [mbind option_bind]). reflexivity.
    + repeat (etrans; [|apply prefix_app_r; reflexivity]). reflexivity.
    + repeat split.
    + reflexivity.
    + reflexivity.
Qed.

Lemma samples_prefix (h h' : list ndarray) (r : TimingRun) (v : Samples) :
  samples h r = Some v -> h `prefix_of` h' -> samples h' r = Some v.
Proof.
  intros Hv [extra ->].
  apply samples_Some in Hv. destruct Hv as (Gt & Go & (w & Gc) & Gu & Ga & Gb).
  unfold samples.
  rewrite (heap_float64_app _ extra _ _ Gt), (heap_float64_app _ extra _ _ Go),
    (heap_str_app _ extra _ _ Gc), (heap_int64_app _ extra _ _ Gu),
    (heap_float64_app _ extra _ _ Ga), (heap_float64_app _ extra _ _ Gb).
  cbn. destruct v; reflexivity.
Qed.

Lemma last_is_Some {A} (l : list A) : (1 <= length l)%nat -> is_Some (last l).
Proof.
  intros H. rewrite last_lookup. apply lookup_lt_is_Some. lia.
Qed.

Lemma head_is_Some {A} (l : list A) : (1 <= length l)%nat -> is_Some (head l).
Proof. destruct l; cbn; [lia|eauto]. Qed.

Lemma seam_join_nonempty (connect_offset : bool) (N1 : nat) (acc b : Samples) :
  nonempty acc -> nonempty b ->
  exists res, seam_join connect_offset N1 acc b = Some res /\ nonempty res.
Proof.
  intros (n & (At & Ao & Ac & Au & Aa & Ab) & Hn) (k & (Bt & Bo & Bc & Bu & Ba & Bb) & Hk).
  unfold seam_join.
  destruct (last_is_Some (s_time acc)) as [tl ->]; [lia|].
  destruct (last_is_Some (s_unix_time acc)) as [ul ->]; [lia|].
  destruct (last_is_Some (s_offset acc)) as [ol ->]; [lia|].
  destruct (head_is_Some (s_offset b)) as [o0 ->]; [lia|].
  cbn [mbind option_bind].
  destruct connect_offset; cbn [mbind option_bind];
    (eexists; split; [reflexivity|]);
    exists (n + (k - N1))%nat; (split; [|lia]);
    unfold aligned; cbn;
    rewrite !length_app, ?length_map, !length_drop; repeat split; lia.
Qed.

Lemma join_all_nonempty (connect_offset : bool) (N1 : nat) (bs : list Samples) :
  forall acc, nonempty acc -> Forall nonempty bs ->
  exists res, join_all connect_offset N1 acc bs = Some res.
Proof.
  induction bs as [|b bs IH]; intros acc Ha Hbs.
  - eexists; reflexivity.
  - inversion Hbs as [|? ? Hb Hbs']; subst.
    destruct (seam_join_nonempty connect_offset N1 acc b Ha Hb) as (acc' & E & Ha').
    cbn. rewrite E. apply IH; assumption.
Qed.

Lemma concat_check_ok (rs : list TimingRun) (s : state) :
  Forall (fun r => _class_type r = "TimingRun"%string) rs ->
  concat_check (map ObjTimingRun rs) s = (Ok true, s).
Proof.
  induction 1 as [|r rs Hr _ IH]; [reflexivity|].
  cbn. rewrite Hr. cbn. exact IH.
Qed.

Lemma concat_loop_ok (connect_offset : bool) (N1 : nat) (rest : list TimingRun) :
  forall (bs : list Samples) (s : state) (acc res : Samples),
    Forall2 (fun r b => samples (mem s) r = Some b) rest bs ->
    samples (mem s) (self s) = Some acc ->
    join_all connect_offset N1 acc bs = Some res ->
    exists s',
      concat_loop connect_offset N1 (map ObjTimingRun rest) s = (Ok tt, s') /\
      samples (mem s') (self s') = Some res /\
      mem s `prefix_of` mem s' /\
      same_attrs (self s) (self s') /\
      _original_data (self s') = _original_data (self s) /\
      out s' = out s.
Proof.
  induction rest as [|r rest IH]; intros bs s acc res Hall Hacc Hjoin.
  - inversion Hall; subst. cbn in Hjoin. injection Hjoin as <-.
    exists s. repeat split; try reflexivity; assumption.
  - inversion Hall as [|? b ? bs' Hr Hrest]; subst.
    cbn in Hjoin.
    destruct (seam_join connect_offset N1 acc b) as [acc'|] eqn:E; [|discriminate].
    destruct (concat_step_ok connect_offset N1 r s acc b acc' Hacc Hr E)
      as (s1 & Hstep & Hs1 & Hpre1 & Hattr1 & Hod1 & Hout1).
    assert (Hrest1 : Forall2 (fun r b => samples (mem s1) r = Some b) rest bs').
    { eapply Forall2_impl; [exact Hrest|].
      intros r' b' Hb'. eapply samples_prefix; [exact Hb'|exact Hpre1]. }
    destruct (IH bs' s1 acc' res Hrest1 Hs1 Hjoin)
      as (s2 & Hloop & Hs2 & Hpre2 & Hattr2 & Hod2 & Hout2).
    exists s2. cbn [map concat_loop].
    rewrite (bind_ok _ _ _ _ _ Hstep).
    split; [exact Hloop|]. split; [exact Hs2|].
    split; [etrans; eassumption|].
    split; [|split; congruence].
    unfold same_attrs in *. intuition congruence.
Qed.

Lemma sub_zero_r (x : float64) : sub x (of_int 0) = x.
Proof. destruct x as [[]|[]| |[] m e]; reflexivity. Qed.

Lemma add_zero_l (x : float64) : x <> S754_zero true -> add zero x = x.
Proof. destruct x as [[]|[]| |[] m e]; intros H; try reflexivity. congruence. Qed.

Lemma map_sub_zero (l : list float64) : map (fun x => sub x (of_int 0)) l = l.
Proof.
  induction l as [|x l IH]; [reflexivity|]. cbn [map]. rewrite sub_zero_r, IH. reflexivity.
Qed.

Lemma concatTimingRuns_runs (s : state) (first : TimingRun) (rest : list TimingRun)
    (a : Samples) (bs : list Samples) (connect_offset skip_first : bool)
    (h4 : string) (res : Samples) :
  rest <> [] ->
  Forall (fun r => _class_type r = "TimingRun"%string) (first :: rest) ->
  samples (mem s) first = Some a ->
  original_data_ok (mem s) (_original_data first) ->
  Forall2 (fun r b => samples (mem s) r = Some b) rest bs ->
  _header first !! 4%nat = Some h4 ->
  join_all connect_offset (if skip_first then 1 else 0)%nat a bs = Some res ->
  exists r s',
    concatTimingRuns (map ObjTimingRun (first :: rest)) connect_offset skip_first s
      = (Ok (Some r), s') /\
    samples (mem s') r = Some res /\
    mem s `prefix_of` mem s' /\
    out s' = out s /\
    _header r = ["|watch|"; "|watch comment|"; "|file comment|"; "|?|"; h4]%string /\
    _point_index r = 0 /\ _offset_shifted r = PyInt 0 /\ _time_shifted r = PyInt 0 /\
    _file r = "|file|"%string /\ _watch_index r = -1 /\ _path r = _path first /\
    snapshot_is_current r.
Proof.
  intros Hne Hcls Ha Hod Hbs Hh4 Hjoin.
  unfold concatTimingRuns.
  assert (Hlen : (1 <? Z.of_nat (length (map ObjTimingRun (first :: rest)))) = true).
  { apply Z.ltb_lt. rewrite length_map. destruct rest; cbn [length]; [congruence|lia]. }
  rewrite Hlen. cbn [negb].
  rewrite (bind_ok _ _ _ _ _ (concat_check_ok _ s Hcls)). cbn [negb map].
  destruct (deepcopy_ok first s a Ha Hod)
    as (r' & s1 & Hcopy & Hs1 & _ & Hattr & Hpre1 & Hself1 & Hout1).
  rewrite (bind_ok _ _ _ _ _ Hcopy).
  munfold.
  set (s2 := {| self := set_original_data None
                          (set_time_shifted (PyInt 0)
                             (set_offset_shifted (PyInt 0)
                                (set_point_index 0 (set_other_files [] r'))));
                mem := mem s1; out := out s1 |}).
  assert (Hs2 : samples (mem s2) (self s2) = Some a) by exact Hs1.
  assert (Hbs2 : Forall2 (fun r b => samples (mem s2) r = Some b) rest bs).
  { eapply Forall2_impl; [exact Hbs|].
    intros r0 b0 Hb0. eapply samples_prefix; [exact Hb0|exact Hpre1]. }
  destruct (concat_loop_ok connect_offset (if skip_first then 1 else 0)%nat
              rest bs s2 a res Hbs2 Hs2 Hjoin)
    as (s3 & Hloop & Hs3 & Hpre3 & Hattr3 & Hod3 & Hout3).
  cbn beta iota. cbn [self mem out].
  replace (if negb skip_first then 0%nat else 1%nat)
    with (if skip_first then 1%nat else 0%nat) by (destruct skip_first; reflexivity).
  subst s2. cbn [self mem out] in *.
  rewrite Hloop. mcbn.
  assert (Hhdr : _header (self s3) = _header first).
  { destruct Hattr3 as (_ & _ & _ & _ & _ & _ & H3 & _).
    destruct Hattr as (_ & _ & _ & _ & _ & _ & H1 & _).
    rewrite H3. mcbn. exact H1. }
  rewrite Hhdr.
  assert (Hget : Np.getitem (_header first) 4 = Ok h4)
    by exact (getitem_nat _ 4%nat _ Hh4).
  rewrite Hget. mcbn.
  unfold snapshot, watch. munfold. mcbn.
  rewrite getitem_head. mcbn.
  eexists _, _. split; [reflexivity|]. mcbn.
  split; [exact Hs3|].
  split; [etrans; [exact Hpre1|exact Hpre3]|].
  split; [congruence|].
  split; [reflexivity|].
  assert (Hpath : _path (self s3) = _path first).
  { destruct Hattr3 as (_ & _ & H3 & _). destruct Hattr as (_ & _ & H1 & _).
    rewrite H3. mcbn. exact H1. }
  destruct Hattr3 as (_ & _ & _ & _ & _ & _ & _ & _ & Hpi & Hos & Hts & _).
  rewrite Hpi, Hos, Hts.
  do 5 (split; [reflexivity|]). split; [exact Hpath|].
  eexists. split; [reflexivity|]. repeat split.
Qed.

Lemma seam_join_two_runs (connect_offset : bool) (a b res : Samples) :
  seam_join connect_offset 0 a b = Some res ->
  (connect_offset = true ->
   forall first_offset last_offset first_time end_time,
     head (s_offset b) = Some first_offset -> last (s_offset a) = Some last_offset ->
     head (s_time b) = Some first_time -> last (s_time a) = Some end_time ->
     s_offset res !! length (s_offset a)
       = Some (sub first_offset (sub first_offset last_offset)) /\
     s_time res !! length (s_time a) = Some (add first_time end_time)) /\
  (connect_offset = false -> s_offset res = s_offset a ++ s_offset b).
Proof.
  unfold seam_join. intros H.
  destruct (last (s_time a)) as [tl|]; [|discriminate].
  destruct (last (s_unix_time a)) as [ul|]; [|discriminate].
  cbn [mbind option_bind] in H.
  split.
  - intros -> o0 ol t0 tl' Ho0 Hol Ht0 [= <-].
    rewrite Ho0, Hol in H. cbn [mbind option_bind] in H. injection H as <-.
    cbn [s_offset s_time]. rewrite !drop_0.
    destruct (s_offset b) as [|o0' ob]; [discriminate|]. injection Ho0 as ->.
    destruct (s_time b) as [|t0' tb]; [discriminate|]. injection Ht0 as ->.
    cbn [map]. split; apply list_lookup_middle; reflexivity.
  - intros ->. cbn [mbind option_bind] in H. injection H as <-.
    cbn [s_offset]. rewrite drop_0, map_sub_zero. reflexivity.
Qed.

Section Concatenation.

(** C6 (as amended).  For a list of two or more loaded runs, each with at
    least one sample, [concatTimingRuns] returns a run whose six sequences
    are those of the first run with every further run appended by
    [seam_join]: its times plus the end time the result has so far, its
    offsets minus [delta], where [delta] is 0 without [connect_offset] and
    (first offset of the run) - (last offset of the result) with it; with
    [skip_first] the first sample of every further run is left out.  The
    runs given are not changed.  For two runs and no skipping, the first
    appended sample has time (first time of B) + (end time of A) and, with
    [connect_offset], offset [first - (first - last)] in binary64
    arithmetic, which is 5 for [first = 1], [last = 5]; without it the
    offsets of B are appended as they are. *)
Theorem concatTimingRuns_appends_by_seam_join
    (s : state) (first : TimingRun) (rest : list TimingRun)
    (a : Samples) (bs : list Samples) (connect_offset skip_first : bool) (h4 : string) :
  rest <> [] ->
  Forall (fun r => _class_type r = "TimingRun"%string) (first :: rest) ->
  samples (mem s) first = Some a ->
  original_data_ok (mem s) (_original_data first) ->
  Forall2 (fun r b => samples (mem s) r = Some b) rest bs ->
  Forall nonempty (a :: bs) ->
  _header first !! 4%nat = Some h4 ->
  exists res r s',
    join_all connect_offset (if skip_first then 1 else 0)%nat a bs = Some res /\
    concatTimingRuns (map ObjTimingRun (first :: rest)) connect_offset skip_first s
      = (Ok (Some r), s') /\
    samples (mem s') r = Some res /\
    (forall l, (l < length (mem s))%nat -> mem s' !! l = mem s !! l) /\
    (forall b, bs = [b] -> skip_first = false ->
       (connect_offset = true ->
        forall first_offset last_offset first_time end_time,
          head (s_offset b) = Some first_offset -> last (s_offset a) = Some last_offset ->
          head (s_time b) = Some first_time -> last (s_time a) = Some end_time ->
          s_offset res !! length (s_offset a)
            = Some (sub first_offset (sub first_offset last_offset)) /\
          s_time res !! length (s_time a) = Some (add first_time end_time)) /\
       (connect_offset = false -> s_offset res = s_offset a ++ s_offset b)) /\
    sub (of_int 1) (sub (of_int 1) (of_int 5)) = of_int 5 /\
    (forall end_time, end_time <> S754_zero true -> add (of_int 0) end_time = end_time).
Proof.
  intros Hne Hcls Ha Hod Hbs Hnon Hh4.
  inversion Hnon as [|? ? Hna Hnbs]; subst.
  destruct (join_all_nonempty connect_offset (if skip_first then 1 else 0)%nat
              bs a Hna Hnbs) as (res & Hjoin).
  destruct (concatTimingRuns_runs s first rest a bs connect_offset skip_first h4 res
              Hne Hcls Ha Hod Hbs Hh4 Hjoin)
    as (r & s' & Hrun & Hres & Hpre & _).
  exists res, r, s'.
  split; [exact Hjoin|]. split; [exact Hrun|]. split; [exact Hres|].
  split; [|split; [|split]].
  - intros l Hl. symmetry. apply prefix_lookup_lt; assumption.
  - intros b -> ->. cbn in Hjoin.
    destruct (seam_join connect_offset 0 a b) as [res'|] eqn:E; [|discriminate].
    injection Hjoin as <-. exact (seam_join_two_runs _ _ _ _ E).
  - vm_compute. reflexivity.
  - intros end_time H. apply add_zero_l. exact H.
Qed.

End Concatenation.

(** The theorem at two loaded runs of three samples, the first ending at
    offset 5 and the second starting at offset 1. *)
Lemma concatTimingRuns_appends_by_seam_join_witness :
  let s := loaded_two [0; 1; 2] [3; 4; 5] [0; 1; 2] [1; 2; 3] in
  let first := self (loaded [0; 1; 2] [3; 4; 5]) in
  let rest := [self s] in
  let a := samples_of_csv (csv_of [0; 1; 2] [3; 4; 5]) in
  let bs := [samples_of_csv (csv_of [0; 1; 2] [1; 2; 3])] in
  exists res r s',
    join_all true 0 a bs = Some res /\
    concatTimingRuns (map ObjTimingRun (first :: rest)) true false s
      = (Ok (Some r), s') /\
    samples (mem s') r = Some res /\
    (forall l, (l < length (mem s))%nat -> mem s' !! l = mem s !! l) /\
    (forall b, bs = [b] -> false = false ->
       (true = true ->
        forall first_offset last_offset first_time end_time,
          head (s_offset b) = Some first_offset -> last (s_offset a) = Some last_offset ->
          head (s_time b) = Some first_time -> last (s_time a) = Some end_time ->
          s_offset res !! length (s_offset a)
            = Some (sub first_offset (sub first_offset last_offset)) /\
          s_time res !! length (s_time a) = Some (add first_time end_time)) /\
       (true = false -> s_offset res = s_offset a ++ s_offset b)) /\
    sub (of_int 1) (sub (of_int 1) (of_int 5)) = of_int 5 /\
    (forall end_time, end_time <> S754_zero true -> add (of_int 0) end_time = end_time).
Proof.
  intros s first rest a bs.
  apply (concatTimingRuns_appends_by_seam_join s first rest a bs true false "first"%string).
  - discriminate.
  - repeat constructor.
  - vm_compute. reflexivity.
  - vm_compute. repeat split; eexists; reflexivity.
  - constructor; [vm_compute; reflexivity|constructor].
  - repeat constructor; exists 3%nat; (split; [repeat split|lia]).
  - reflexivity.
Defined.

(** C6 (as stated) fails: when run A ends at offset 1 and run B starts at
    offset [2^54], [delta = 2^54 - 1] rounds to [2^54] and the first sample
    taken from B gets offset 0, not 1. *)
Lemma concatTimingRuns_seam_rounds :
  ~ seam_is_continuous (loaded_two [0] [1] [0] [2 ^ 54])
      (self (loaded [0] [1])) (self (loaded_two [0] [1] [0] [2 ^ 54])).
Proof.
  unfold seam_is_continuous. intros H. vm_compute in H. discriminate H.
Qed.

(** ** Resampling *)

Lemma argmin_scan_lt (xs : list float64) :
  forall mp best i, (best < i)%nat -> (Np.argmin_scan mp best i xs < i + length xs)%nat.
Proof.
  induction xs as [|x xs IH]; intros mp best i Hb; cbn [Np.argmin_scan length].
  - lia.
  - destruct (geb x mp).
    + pose proof (IH mp best (S i) ltac:(lia)). lia.
    + destruct (is_nan x); [lia|].
      pose proof (IH x i (S i) ltac:(lia)). lia.
Qed.

Lemma argmin_Ok (xs : list float64) :
  xs <> [] ->
  exists i : nat, Np.argmin xs = Ok (Z.of_nat i) /\ (i < length xs)%nat.
Proof.
  destruct xs as [|x xs]; [congruence|]. intros _. unfold Np.argmin.
  destruct (is_nan x).
  - exists O. split; [reflexivity|cbn; lia].
  - eexists. split; [reflexivity|].
    pose proof (argmin_scan_lt xs x 0%nat 1%nat ltac:(lia)). cbn [length]. lia.
Qed.










Section Resampling.

Context {py : PyBuiltins}.






End Resampling.



(** ** Running a method step by step *)

Lemma bind_assoc {A B C} (c : M A) (k1 : A -> M B) (k2 : B -> M C) (s : state) :
  bind (bind c k1) k2 s = bind c (fun a => bind (k1 a) k2) s.
Proof. unfold bind. destruct (c s) as [[a|e] s']; reflexivity. Qed.

Lemma bind_ret {A B} (a : A) (k : A -> M B) (s : state) : bind (ret a) k s = k a s.
Proof. reflexivity. Qed.

Lemma bind_attr {A B} (f : TimingRun -> A) (k : A -> M B) (s : state) :
  bind (attr f) k s = k (f (self s)) s.
Proof. reflexivity. Qed.

Lemma bind_set_attr {B} (f : TimingRun -> TimingRun) (k : unit -> M B) (s : state) :
  bind (set_attr f) k s = k tt {| self := f (self s); mem := mem s; out := out s |}.
Proof. reflexivity. Qed.

Lemma bind_new_array {B} (a : ndarray) (k : nat -> M B) (s : state) :
  bind (new_array a) k s
  = k (length (mem s)) {| self := self s; mem := mem s ++ [a]; out := out s |}.
Proof. reflexivity. Qed.

Lemma bind_store {B} (l : nat) (a : ndarray) (k : unit -> M B) (s : state) :
  bind (store l a) k s
  = k tt {| self := self s; mem := <[l := a]> (mem s); out := out s |}.
Proof. reflexivity. Qed.

Lemma bind_print {B} (m : msg) (k : unit -> M B) (s : state) :
  bind (print m) k s = k tt {| self := self s; mem := mem s; out := out s ++ [m] |}.
Proof. reflexivity. Qed.

Lemma bind_lift {A B} (r : Res A) (k : A -> M B) (s : state) :
  bind (lift r) k s = match r with Ok a => k a s | Raise e => (Raise e, s) end.
Proof. unfold bind, lift. destruct r; reflexivity. Qed.

Lemma bind_load_float64 {B} (l : nat) (xs : list float64) (k : list float64 -> M B)
    (s : state) :
  heap_float64 (mem s) l = Some xs -> bind (load_float64 l) k s = k xs s.
Proof. intros H. unfold bind, load_float64. rewrite H. reflexivity. Qed.

Lemma bind_load_int64 {B} (l : nat) (xs : list Z) (k : list Z -> M B) (s : state) :
  heap_int64 (mem s) l = Some xs -> bind (load_int64 l) k s = k xs s.
Proof. intros H. unfold bind, load_int64. rewrite H. reflexivity. Qed.

Lemma bind_load_str {B} (l : nat) (c : nat * list string) (k : nat * list string -> M B)
    (s : state) :
  heap_str (mem s) l = Some c -> bind (load_str l) k s = k c s.
Proof. intros H. unfold bind, load_str. rewrite H. reflexivity. Qed.

(** One step of the computation at the head of the goal. *)
Ltac mstep :=
  first [ rewrite bind_assoc | rewrite bind_ret | rewrite bind_attr
        | rewrite bind_set_attr | rewrite bind_new_array | rewrite bind_store
        | rewrite bind_print | rewrite bind_lift
        | erewrite bind_load_float64 by (mcbn; heap_lookup)
        | erewrite bind_load_int64 by (mcbn; heap_lookup)
        | erewrite bind_load_str by (mcbn; heap_lookup) ];
  mcbn.

(** ** Construction *)

Lemma array_of_strs_nonempty (xs : list string) :
  xs <> [] -> array_of_strs xs = StrArr (Np.str_width xs) xs.
Proof. destruct xs; [congruence|reflexivity]. Qed.

Lemma array_of_ints_in_range (xs : list Z) :
  xs <> [] -> forallb in_int64 xs = true -> array_of_ints xs = Int64Arr xs.
Proof. destruct xs; [congruence|]. intros _ H. unfold array_of_ints. rewrite H. reflexivity. Qed.

Section Constructor.

Context {py : PyBuiltins}.

Section Information.

Variables (r : TimingRun) (h : list ndarray).
Variables (ts : list float64) (us : list Z) (w : string) (u0 ul : Z) (iso0 iso1 : string).

Hypothesis Gt : heap_float64 h (_time r) = Some ts.
Hypothesis Gu : heap_int64 h (_unix_time r) = Some us.
Hypothesis Hw : _header r !! 0%nat = Some w.
Hypothesis Hu0 : head us = Some u0.
Hypothesis Hul : last us = Some ul.
Hypothesis Hiso0 : fromtimestamp_isoformat u0 = Ok iso0.
Hypothesis Hiso1 : fromtimestamp_isoformat ul = Ok iso1.

Let St (o : list msg) : state := {| self := r; mem := h; out := o |}.

Let D : list (string * pyval) :=
  info_of w (_file r) (_path r)
    (str_replace_char "T"%char ","%char iso0) (str_replace_char "T"%char ","%char iso1)
    (round_ndigits (div (of_int (wrap64 (ul - u0))) (of_int (60 * 60 * 24))) 2)
    (length ts).

Lemma info_runs (o : list msg) : info (St o) = (Ok D, St o).
Proof.
  pose proof (getitem_nat _ 0%nat _ Hw) as Hw0. change (Z.of_nat 0) with 0 in Hw0.
  pose proof (getitem_first _ _ Hu0) as Gu0. pose proof (getitem_last _ _ Hul) as Gul.
  unfold info, watch, start, end_, duration, unix_time, time, St.
  repeat (first [ mstep | rewrite Hw0 | rewrite Gu0 | rewrite Gul
                | rewrite Hiso0 | rewrite Hiso1 ]; mcbn).
  reflexivity.
Qed.

Lemma Info_loop_runs (kvs : list (string * pyval)) :
  forall o,
    (forall kv, kv ∈ kvs -> dict_getitem D (fst kv) = Ok (snd kv)) ->
    Info_loop (map fst kvs) (St o) = (Ok tt, St (o ++ map info_line kvs)).
Proof.
  induction kvs as [|kv kvs IH]; intros o Hin.
  - cbn. rewrite app_nil_r. reflexivity.
  - cbn [map Info_loop].
    rewrite (bind_ok _ _ _ _ _ (info_runs o)).
    rewrite bind_lift, (Hin kv) by (left).
    rewrite bind_print. unfold St in *. mcbn.
    rewrite (IH (o ++ [Fmt "{key:<11}: {self.info[key]}" [PyStr (fst kv); snd kv]])).
    + rewrite <- app_assoc. reflexivity.
    + intros kv' Hkv'. apply Hin. right. exact Hkv'.
Qed.

Lemma Info_runs (o : list msg) : Info (St o) = (Ok tt, St (o ++ map info_line D)).
Proof.
  unfold Info. rewrite (bind_ok _ _ _ _ _ (info_runs o)).
  apply Info_loop_runs.
  intros kv Hin. unfold D, info_of in Hin.
  repeat (apply elem_of_cons in Hin; destruct Hin as [->|Hin]; [reflexivity|]).
  inversion Hin.
Qed.

End Information.

(** X1.  Let a file have the first cell of its header block and [n >= 1]
    data rows with timestamps that fit [int64], and let a file name be
    given.  The constructor then leaves the six sequences as the columns of
    the file, header and file name as given, the cursor at 0, both shift
    accumulators at 0, and a snapshot that refers to the very arrays the run
    has and holds the first header cell as watch; arrays that were in the
    store stay.  With [shup = True] nothing is printed.  Without it - the
    default - the constructor prints a banner, the seven lines of [Info()]
    and a hint, and for that the first and the last timestamp must be
    instants [datetime.fromtimestamp] renders. *)
Theorem init_establishes_store
    (s : state) (file_name path : string) (shup : bool) (csv : CsvData) (w : string)
    (n : nat) (u0 ul : Z) (iso0 iso1 : string) :
  file_name <> "_no_name_"%string ->
  csv_header csv !! 0%nat = Some w ->
  aligned (samples_of_csv csv) n -> (1 <= n)%nat ->
  forallb in_int64 (csv_unix_time csv) = true ->
  head (csv_unix_time csv) = Some u0 -> last (csv_unix_time csv) = Some ul ->
  (shup = false ->
   fromtimestamp_isoformat u0 = Ok iso0 /\ fromtimestamp_isoformat ul = Ok iso1) ->
  exists s',
    __init__ file_name path shup csv s = (Ok tt, s') /\
    samples (mem s') (self s') = Some (samples_of_csv csv) /\
    _header (self s') = csv_header csv /\
    _file (self s') = file_name /\
    _point_index (self s') = 0 /\
    _offset_shifted (self s') = PyInt 0 /\
    _time_shifted (self s') = PyInt 0 /\
    snapshot_is_current (self s') /\
    (exists d, _original_data (self s') = Some d /\ od_watch d = w) /\
    mem s `prefix_of` mem s' /\
    out s' = out s ++
      (if shup then []
       else banner_text ::
            map info_line
              (info_of w file_name (_path (self s'))
                 (str_replace_char "T"%char ","%char iso0)
                 (str_replace_char "T"%char ","%char iso1)
                 (round_ndigits (div (of_int (wrap64 (ul - u0))) (of_int (60 * 60 * 24))) 2)
                 n)
            ++ [help_hint_text]).
Proof.
  intros _ Hw (Ht & Ho & Hc & Hu & Ha & Hb) Hn Hfit Hu0 Hul Hiso.
  cbn [samples_of_csv s_time s_offset s_comment s_unix_time s_atomic_clock_error
       s_ios_clock_offset] in Ht, Ho, Hc, Hu, Ha, Hb.
  pose proof (getitem_nat _ 0%nat _ Hw) as Hw0.
  change (Z.of_nat 0) with 0 in Hw0.
  assert (Hcs : csv_comment csv <> []) by (intros E; rewrite E in Hc; cbn in Hc; lia).
  assert (Hus : csv_unix_time csv <> []) by (intros E; rewrite E in Hu; cbn in Hu; lia).
  unfold __init__, _loadFile, snapshot, watch.
  rewrite (array_of_strs_nonempty _ Hcs), (array_of_ints_in_range _ Hus Hfit).
  do 10 mstep.
  destruct (str_endswith_slash
              (if (path =? "_no_path_")%string then EmptyString else path)).
  all: repeat mstep.
  all: rewrite Hw0; repeat mstep.
  all: cbn [andb]; destruct shup; cbn [negb].
  all: try (destruct (Hiso eq_refl) as (Hiso0 & Hiso1);
            fold banner_text; fold help_hint_text; mstep;
            match goal with
            | |- context [bind Info _ {| self := ?r; mem := ?h; out := ?o |}] =>
                erewrite (bind_ok _ _ _ _ _
                            (Info_runs r h (csv_time csv) (csv_unix_time csv) w u0 ul
                               iso0 iso1 ltac:(mcbn; heap_lookup) ltac:(mcbn; heap_lookup)
                               Hw Hu0 Hul Hiso0 Hiso1 o))
            end;
            unfold print).
  all: unfold ret, set_attr; (eexists; split; [reflexivity|]); mcbn.
  all: split; [unfold samples; mcbn;
               repeat (heap_step; cbn [mbind option_bind]); reflexivity|].
  all: do 5 (split; [reflexivity|]).
  all: split; [eexists; repeat split|].
  all: split; [eexists; split; reflexivity|].
  all: split; [repeat (etrans; [|apply prefix_app_r; reflexivity]); reflexivity|].
  all: rewrite ?app_nil_r, ?Ht; try reflexivity.
  all: cbn [app]; rewrite <- ?app_assoc; reflexivity.
Qed.


End Constructor.

(** The theorem at the file of three samples, loaded with the default
    [shup = False]. *)
Lemma init_establishes_store_witness :
  let csv := csv_of [0; 1; 2] [5; 6; 7] in
  let iso := "2024-10-01T12:00:00"%string in
  exists s',
    @__init__ sample_builtins "run.csv" "_no_path_" false csv fresh_state = (Ok tt, s') /\
    samples (mem s') (self s') = Some (samples_of_csv csv) /\
    _header (self s') = csv_header csv /\
    _file (self s') = "run.csv"%string /\
    _point_index (self s') = 0 /\
    _offset_shifted (self s') = PyInt 0 /\
    _time_shifted (self s') = PyInt 0 /\
    snapshot_is_current (self s') /\
    (exists d, _original_data (self s') = Some d /\ od_watch d = "watch"%string) /\
    mem fresh_state `prefix_of` mem s' /\
    out s' = out fresh_state ++
      (if false then []
       else banner_text ::
            map info_line
              (info_of "watch" "run.csv" (_path (self s'))
                 (str_replace_char "T"%char ","%char iso)
                 (str_replace_char "T"%char ","%char iso)
                 (@round_ndigits sample_builtins
                    (div (of_int (wrap64 (173800 - 1000))) (of_int (60 * 60 * 24))) 2)
                 3)
            ++ [help_hint_text]).
Proof.
  intros csv iso.
  apply (@init_establishes_store sample_builtins fresh_state "run.csv" "_no_path_" false
           csv "watch" 3 1000 173800 iso iso).
  - discriminate.
  - reflexivity.
  - repeat split.
  - lia.
  - reflexivity.
  - reflexivity.
  - reflexivity.
  - intros _. split; reflexivity.
Defined.


(** ** Reset after points were deleted or inserted *)

Lemma samples_frame (h h' : list ndarray) (r : TimingRun) (v : Samples) :
  samples h r = Some v ->
  (forall l, (l < length h)%nat -> h' !! l = h !! l) ->
  samples h' r = Some v.
Proof.
  intros Hv Hframe. pose proof Hv as Hv'. apply samples_Some in Hv'.
  destruct Hv' as (Gt & Go & (w & Gc) & Gu & Ga & Gb).
  pose proof (heap_float64_lt _ _ _ Gt). pose proof (heap_float64_lt _ _ _ Go).
  pose proof (heap_str_lt _ _ _ Gc). pose proof (heap_int64_lt _ _ _ Gu).
  pose proof (heap_float64_lt _ _ _ Ga). pose proof (heap_float64_lt _ _ _ Gb).
  rewrite <- Hv. unfold samples, heap_float64, heap_int64, heap_str.
  rewrite !Hframe by assumption. reflexivity.
Qed.

Section ResetAfterEdits.

Context {py : PyBuiltins}.

(** [Reset] in a state whose snapshot is the one taken in an earlier state
    [s0], all arrays of [s0] still being as they were. *)
Lemma Reset_restores (s0 s : state) (v : Samples) :
  snapshot_is_current (self s0) ->
  samples (mem s0) (self s0) = Some v ->
  _original_data (self s) = _original_data (self s0) ->
  (forall l, (l < length (mem s0))%nat -> mem s !! l = mem s0 !! l) ->
  exists r',
    Reset s = (Ok tt, {| self := r'; mem := mem s; out := out s ++ [reset_text] |}) /\
    samples (mem s) r' = Some v /\
    _point_index r' = _point_index (self s).
Proof.
  intros (d & Hd & Et & Eo & Ec & Eu & Ea & Eb & _) Hv Hod Hframe.
  pose proof (samples_frame _ _ _ _ Hv Hframe) as Hv'.
  unfold Reset. mstep. rewrite Hod, Hd. repeat mstep.
  unfold print. eexists. split; [reflexivity|]. split; [|reflexivity].
  unfold samples in *. mcbn. rewrite Et, Eo, Ec, Eu, Ea, Eb. exact Hv'.
Qed.

(** X3.  [Reset] undoes a deletion: in a run whose snapshot refers to the
    arrays the run has, as after loading, a [_deletePoint] that removes a
    sample followed by
    [Reset()] ends without fault with the six sequences as they were before
    the deletion.  The cursor stays where the deletion left it. *)
Theorem Reset_undoes_deletePoint
    (s : state) (v : Samples) (n i : nat) (index : pyval) :
  snapshot_is_current (self s) ->
  samples (mem s) (self s) = Some v -> aligned v n ->
  (2 <= n)%nat -> (i < n)%nat ->
  delete_index s index = Ok (Z.of_nat i) ->
  let c := (_deletePoint index ;; Reset)%py in
  fst (c s) = Ok tt /\
  samples (mem (after c s)) (self (after c s)) = Some v /\
  _point_index (self (after c s)) =
    (if Nat.eqb i (n - 1) then Z.of_nat n - 2 else _point_index (self s)) /\
  out (after c s) = out s ++ [reset_text].
Proof.
  intros Hsnap Hv Hal Hn Hi Hidx c.
  destruct (_deletePoint_deletes s v n i index Hv Hal Hn Hi Hidx)
    as (s' & Hrun & _ & Hcur & Hframe & Hout & Hod).
  destruct (Reset_restores s s' v Hsnap Hv Hod Hframe) as (r' & Hreset & Hv' & Hcur').
  unfold c, after. rewrite (bind_ok _ _ _ _ _ Hrun), Hreset. cbn [fst snd self mem out].
  rewrite Hcur', Hcur, Hout. repeat split. exact Hv'.
Qed.

End ResetAfterEdits.

(** The theorem at a loaded run of three samples and the index 1. *)
Lemma Reset_undoes_deletePoint_witness :
  let s := loaded [0; 1; 2] [5; 6; 7] in
  let c := (@_deletePoint sample_builtins (PyInt 1) ;; Reset)%py in
  fst (c s) = Ok tt /\
  samples (mem (after c s)) (self (after c s))
    = Some (samples_of_csv (csv_of [0; 1; 2] [5; 6; 7])) /\
  _point_index (self (after c s)) =
    (if Nat.eqb 1 (3 - 1) then Z.of_nat 3 - 2 else _point_index (self s)) /\
  out (after c s) = out s ++ [reset_text].
Proof.
  intros s.
  apply (@Reset_undoes_deletePoint sample_builtins s
           (samples_of_csv (csv_of [0; 1; 2] [5; 6; 7])) 3 1 (PyInt 1)).
  - vm_compute. eexists. repeat split.
  - vm_compute. reflexivity.
  - vm_compute. repeat split.
  - lia.
  - lia.
  - reflexivity.
Defined.

(** ** Inserting a point *)

Lemma insert_nat {A} (xs : list A) (k : nat) (x : A) :
  (k <= length xs)%nat -> Np.insert xs (Z.of_nat k) x = Ok (insert_at k x xs).
Proof.
  intros Hk. unfold Np.insert, insert_at.
  replace (Z.of_nat k <? - Z.of_nat (length xs)) with false
    by (symmetry; apply Z.ltb_ge; lia).
  replace (Z.of_nat (length xs) <? Z.of_nat k) with false
    by (symmetry; apply Z.ltb_ge; lia).
  cbn [orb].
  replace (Z.of_nat k <? 0) with false by (symmetry; apply Z.ltb_ge; lia).
  rewrite Nat2Z.id. reflexivity.
Qed.

Lemma length_insert_at {A} (xs : list A) (k : nat) (x : A) :
  (k <= length xs)%nat -> length (insert_at k x xs) = S (length xs).
Proof.
  intros Hk. unfold insert_at.
  rewrite length_app, length_take. cbn [length]. rewrite length_drop. lia.
Qed.

Lemma getitem_in_range {A} (xs : list A) (i : Z) :
  0 <= i < Z.of_nat (length xs) ->
  exists x, Np.getitem xs i = Ok x /\ xs !! Z.to_nat i = Some x.
Proof.
  intros Hi. destruct (lookup_lt_is_Some_2 xs (Z.to_nat i)) as [x Hx]; [lia|].
  exists x. split; [|exact Hx].
  rewrite <- (Z2Nat.id i) by lia. apply getitem_nat, Hx.
Qed.

Lemma nearest_index_Ok (tm : float64) (ts : list float64) :
  ts <> [] ->
  Np.argmin (map (fun x => abs (sub tm x)) ts) = Ok (Z.of_nat (nearest_index tm ts)) /\
  (nearest_index tm ts < length ts)%nat.
Proof.
  intros Hne. unfold nearest_index.
  destruct (argmin_Ok (map (fun x => abs (sub tm x)) ts)) as (i & Hi & Hlt).
  { destruct ts; [congruence|discriminate]. }
  rewrite Hi, Nat2Z.id. rewrite length_map in Hlt. split; [reflexivity|exact Hlt].
Qed.

Lemma aligned_insert_sample (v : Samples) (n k : nat) tm off cm ux a b :
  aligned v n -> (k <= n)%nat -> aligned (insert_sample k tm off cm ux a b v) (S n).
Proof.
  intros (Ht & Ho & Hc & Hu & Ha & Hb) Hk. unfold aligned, insert_sample. cbn.
  rewrite !length_insert_at by lia. repeat split; lia.
Qed.

Lemma inserted_comment_nonempty (comment : pyval) :
  String.eqb (inserted_comment comment) EmptyString = false.
Proof.
  destruct comment as [| | |str]; try reflexivity.
  cbn. destruct (String.eqb str EmptyString) eqn:E; [reflexivity|exact E].
Qed.

(** The element under the cursor, once the cursor is known to be in
    range. *)
Ltac getitem_at_cursor :=
  match goal with
  | |- context [Np.getitem ?xs (_point_index ?r)] =>
      destruct (getitem_in_range xs (_point_index r)) as (? & -> & ?);
      [rewrite ?length_insert_at by lia; lia|]
  end.

(** The point read at the cursor is the one [point_at] describes. *)
Ltac point_at_cursor :=
  unfold point_at;
  cbn [insert_sample delete_sample s_time s_offset s_comment s_unix_time
       s_atomic_clock_error s_ios_clock_offset];
  repeat match goal with
         | H : ?l !! ?i = Some _ |- context [?l !! ?i] => rewrite H
         end;
  reflexivity.

Section Insertion.

Context {py : PyBuiltins}.

Lemma InsertPoint_inserts (s : state) (v : Samples) (n : nat) (w : nat)
    (time_arg offset_arg comment : pyval) (shup : bool) (tm off : float64) :
  samples (mem s) (self s) = Some v -> aligned v n -> (1 <= n)%nat ->
  comment_width (mem s) (self s) = Some w ->
  0 <= _point_index (self s) < Z.of_nat n ->
  py_float time_arg = Ok tm -> py_float offset_arg = Ok off ->
  exists s' p t0 u0,
    InsertPoint time_arg offset_arg comment shup s = (Ok (Some p), s') /\
    insert_at (nearest_index tm (s_time v)) tm (s_time v) !! 0%nat = Some t0 /\
    s_unix_time v !! 0%nat = Some u0 /\
    samples (mem s') (self s')
      = Some (insert_sample (nearest_index tm (s_time v)) tm off
                (Np.fit w (inserted_comment comment))
                (float64_to_int64 (add (of_int u0) (mul (sub tm t0) (of_int 86400))))
                (of_int 0) (of_int 0) v) /\
    _point_index (self s') = _point_index (self s) /\
    _original_data (self s') = _original_data (self s) /\
    (forall l, (l < length (mem s))%nat -> mem s' !! l = mem s !! l) /\
    (shup = true -> forall str, comment = PyStr str -> out s' = out s) /\
    point_at (_point_index (self s))
      (insert_sample (nearest_index tm (s_time v)) tm off
         (Np.fit w (inserted_comment comment))
         (float64_to_int64 (add (of_int u0) (mul (sub tm t0) (of_int 86400))))
         (of_int 0) (of_int 0) v) = Some p.
Proof.
  intros Hv Hal Hn Hw Hcur Htm Hoff.
  pose proof Hal as (Ht & Ho & Hc & Hu & Ha & Hb).
  apply samples_Some in Hv.
  destruct Hv as (Gt & Go & (w' & Gc) & Gu & Ga & Gb).
  unfold comment_width in Hw. rewrite Gc in Hw. cbn in Hw. injection Hw as ->.
  destruct (nearest_index_Ok tm (s_time v)) as (Hidx & Hlt).
  { intros E. rewrite E in Ht. cbn in Ht. lia. }
  set (k := nearest_index tm (s_time v)) in *.
  destruct (lookup_lt_is_Some_2 (s_unix_time v) 0%nat) as [u0 Hu0]; [lia|].
  destruct (lookup_lt_is_Some_2 (insert_at k tm (s_time v)) 0%nat) as [t0 Ht0].
  { rewrite length_insert_at by lia. lia. }
  pose proof (getitem_nat _ 0%nat _ Hu0) as Gu0.
  pose proof (getitem_nat _ 0%nat _ Ht0) as Gt0.
  change (Z.of_nat 0) with 0 in Gu0, Gt0.
  assert (Hcm : forall str : string,
            (if String.eqb str EmptyString then "(inserted)"%string else str)
            = inserted_comment (PyStr str)) by reflexivity.
  unfold InsertPoint. rewrite Htm, Hoff.
  unfold point, point_index, point_time, point_unix_time, point_offset,
    point_timing_comment, point_atomic_clock_error, point_ios_clock_offset.
  unfold time, offset, timing_comments, unix_time, atomic_clock_error, ios_clock_offset.
  unfold load_float64, load_int64, load_str, of_option. munfold.
  change (24 * 60 * 60) with 86400.
  destruct comment as [|z|x|str]; mcbn; rewrite ?Hcm.
  all: repeat (first [ heap_step | rewrite Hidx | rewrite insert_nat by lia
                     | rewrite Gu0 | rewrite Gt0 ]; mcbn).
  all: destruct shup; mcbn; rewrite ?inserted_comment_nonempty; mcbn.
  all: repeat (first [ heap_step | getitem_at_cursor ]; mcbn).
  all: eexists _, _, t0, u0; (split; [reflexivity|]); mcbn.
  all: split; [exact Ht0|]; split; [exact Hu0|].
  all: split; [unfold samples; mcbn;
               repeat (heap_step; cbn [mbind option_bind]); reflexivity|].
  all: split; [reflexivity|]; split; [reflexivity|].
  all: split; [intros l Hl;
               rewrite !lookup_app_l by (rewrite ?length_app; cbn [length]; lia);
               reflexivity|].
  all: split; [intros Hs str' Hstr; first [discriminate | reflexivity]|].
  all: fold k.
  1-6: change (inserted_comment _) with (inserted_comment (PyStr "(inserted)")).
  all: point_at_cursor.
Qed.

(** X4.  On a store of [n >= 1] aligned samples with the cursor on one of
    them, [InsertPoint(time, offset, comment)] with two values [float]
    converts puts one sample in front of position [k], the position of the
    time nearest to the new one: the time and offset given, the comment
    (["(inserted)"] for anything but a non-empty string) cut to the width of
    the comment array, both error values 0, and as timestamp
    [unix_time[0] + (time - t0) * 86400] cast to [int64], where [t0] is the
    first time after the insertion.  The six sequences stay aligned with
    [n + 1] entries, the cursor keeps its value, the method returns the
    point now under the cursor, and the arrays that were in the store are
    as they were. *)
Theorem InsertPoint_inserts_at_nearest (s : state) (v : Samples) (n : nat) (w : nat)
    (time_arg offset_arg comment : pyval) (shup : bool) (tm off : float64) :
  samples (mem s) (self s) = Some v -> aligned v n -> (1 <= n)%nat ->
  comment_width (mem s) (self s) = Some w ->
  0 <= _point_index (self s) < Z.of_nat n ->
  py_float time_arg = Ok tm -> py_float offset_arg = Ok off ->
  let k := nearest_index tm (s_time v) in
  exists s' p t0 u0 v',
    InsertPoint time_arg offset_arg comment shup s = (Ok (Some p), s') /\
    (k < n)%nat /\
    insert_at k tm (s_time v) !! 0%nat = Some t0 /\
    s_unix_time v !! 0%nat = Some u0 /\
    v' = insert_sample k tm off (Np.fit w (inserted_comment comment))
           (float64_to_int64 (add (of_int u0) (mul (sub tm t0) (of_int 86400))))
           (of_int 0) (of_int 0) v /\
    samples (mem s') (self s') = Some v' /\
    aligned v' (S n) /\
    point_at (_point_index (self s)) v' = Some p /\
    _point_index (self s') = _point_index (self s) /\
    (forall l, (l < length (mem s))%nat -> mem s' !! l = mem s !! l).
Proof.
  intros Hv Hal Hn Hw Hcur Htm Hoff k.
  destruct (InsertPoint_inserts s v n w time_arg offset_arg comment shup tm off
              Hv Hal Hn Hw Hcur Htm Hoff)
    as (s' & p & t0 & u0 & Hrun & Ht0 & Hu0 & Hv' & Hcur' & _ & Hframe & _ & Hp).
  assert (Hk : (k < n)%nat).
  { destruct Hal as (Ht & _). rewrite <- Ht. apply nearest_index_Ok.
    intros E. rewrite E in Ht. cbn in Ht. lia. }
  exists s', p, t0, u0. eexists. split; [exact Hrun|].
  split; [exact Hk|]. split; [exact Ht0|]. split; [exact Hu0|].
  split; [reflexivity|]. split; [exact Hv'|].
  split; [apply aligned_insert_sample; [exact Hal|lia]|].
  split; [exact Hp|]. split; [exact Hcur'|exact Hframe].
Qed.

(** X5.  When [float] refuses the time or the offset - as with the
    defaults, which are [None] - [InsertPoint] prints its complaint and
    returns [None]; no array and no attribute has changed. *)
Theorem InsertPoint_needs_two_numbers (s : state)
    (time_arg offset_arg comment : pyval) (shup : bool) :
  (exists e, py_float time_arg = Raise e) \/ (exists e, py_float offset_arg = Raise e) ->
  InsertPoint time_arg offset_arg comment shup s
    = (Ok None, {| self := self s; mem := mem s; out := out s ++ [insert_refused_text] |}).
Proof.
  intros [[e He]|[e He]]; unfold InsertPoint.
  - rewrite He. reflexivity.
  - rewrite He. destruct (py_float time_arg); reflexivity.
Qed.

End Insertion.

(** The theorem at a loaded run of three samples: a point at day 0.75 goes
    in front of sample 1. *)
Lemma InsertPoint_inserts_at_nearest_witness :
  let s := loaded [0; 1; 2] [5; 6; 7] in
  let v := samples_of_csv (csv_of [0; 1; 2] [5; 6; 7]) in
  let tm := div (of_int 3) (of_int 4) in
  let off := of_int 9 in
  let k := nearest_index tm (s_time v) in
  exists s' p t0 u0 v',
    @InsertPoint sample_builtins (PyFloat tm) (PyFloat off) (PyStr "new") true s
      = (Ok (Some p), s') /\
    (k < 3)%nat /\
    insert_at k tm (s_time v) !! 0%nat = Some t0 /\
    s_unix_time v !! 0%nat = Some u0 /\
    v' = insert_sample k tm off (Np.fit 1 (inserted_comment (PyStr "new")))
           (float64_to_int64 (add (of_int u0) (mul (sub tm t0) (of_int 86400))))
           (of_int 0) (of_int 0) v /\
    samples (mem s') (self s') = Some v' /\
    aligned v' 4 /\
    point_at (_point_index (self s)) v' = Some p /\
    _point_index (self s') = _point_index (self s) /\
    (forall l, (l < length (mem s))%nat -> mem s' !! l = mem s !! l).
Proof.
  intros s v tm off.
  apply (@InsertPoint_inserts_at_nearest sample_builtins s v 3 1
           (PyFloat tm) (PyFloat off) (PyStr "new") true tm off).
  - vm_compute. reflexivity.
  - vm_compute. repeat split.
  - lia.
  - vm_compute. reflexivity.
  - vm_compute. split; [discriminate|reflexivity].
  - reflexivity.
  - reflexivity.
Defined.

(** The theorem at the call without arguments. *)
Lemma InsertPoint_needs_two_numbers_witness :
  @InsertPoint sample_builtins PyNone PyNone (PyStr EmptyString) false (loaded [0; 1] [1; 2])
    = (Ok None, {| self := self (loaded [0; 1] [1; 2]);
                   mem := mem (loaded [0; 1] [1; 2]);
                   out := out (loaded [0; 1] [1; 2]) ++ [insert_refused_text] |}).
Proof.
  apply (@InsertPoint_needs_two_numbers sample_builtins).
  left. exists TypeError. reflexivity.
Defined.

Section ResetAfterInsertion.

Context {py : PyBuiltins}.

(** X6.  [Reset] undoes an insertion: in a run whose snapshot refers to
    the arrays the run has, as after loading, [InsertPoint] with two numbers
    followed by
    [Reset()] ends without fault with the six sequences as they were before
    the insertion. *)
Theorem Reset_undoes_InsertPoint (s : state) (v : Samples) (n : nat) (w : nat)
    (time_arg offset_arg comment : pyval) (shup : bool) (tm off : float64) :
  snapshot_is_current (self s) ->
  samples (mem s) (self s) = Some v -> aligned v n -> (1 <= n)%nat ->
  comment_width (mem s) (self s) = Some w ->
  0 <= _point_index (self s) < Z.of_nat n ->
  py_float time_arg = Ok tm -> py_float offset_arg = Ok off ->
  let c := (InsertPoint time_arg offset_arg comment shup ;; Reset)%py in
  fst (c s) = Ok tt /\
  samples (mem (after c s)) (self (after c s)) = Some v /\
  _point_index (self (after c s)) = _point_index (self s).
Proof.
  intros Hsnap Hv Hal Hn Hw Hcur Htm Hoff c.
  destruct (InsertPoint_inserts s v n w time_arg offset_arg comment shup tm off
              Hv Hal Hn Hw Hcur Htm Hoff)
    as (s' & p & t0 & u0 & Hrun & _ & _ & _ & Hcur' & Hod & Hframe & _).
  destruct (Reset_restores s s' v Hsnap Hv Hod Hframe) as (r' & Hreset & Hv' & Hcur'').
  unfold c, after. rewrite (bind_ok _ _ _ _ _ Hrun), Hreset. cbn [fst snd self mem out].
  rewrite Hcur'', Hcur'. repeat split. exact Hv'.
Qed.

End ResetAfterInsertion.

(** The theorem at a loaded run of three samples. *)
Lemma Reset_undoes_InsertPoint_witness :
  let s := loaded [0; 1; 2] [5; 6; 7] in
  let c := (@InsertPoint sample_builtins (PyFloat (div (of_int 3) (of_int 4)))
              (PyFloat (of_int 9)) (PyStr "new") true ;; Reset)%py in
  fst (c s) = Ok tt /\
  samples (mem (after c s)) (self (after c s))
    = Some (samples_of_csv (csv_of [0; 1; 2] [5; 6; 7])) /\
  _point_index (self (after c s)) = _point_index (self s).
Proof.
  intros s.
  apply (@Reset_undoes_InsertPoint sample_builtins s
           (samples_of_csv (csv_of [0; 1; 2] [5; 6; 7])) 3 1
           (PyFloat (div (of_int 3) (of_int 4))) (PyFloat (of_int 9)) (PyStr "new") true
           (div (of_int 3) (of_int 4)) (of_int 9)).
  - vm_compute. eexists. repeat split.
  - vm_compute. reflexivity.
  - vm_compute. repeat split.
  - lia.
  - vm_compute. reflexivity.
  - vm_compute. split; [discriminate|reflexivity].
  - reflexivity.
  - reflexivity.
Defined.

(** ** The cursor *)

Lemma getitem_beyond {A} (xs : list A) (i : Z) :
  Z.of_nat (length xs) <= i -> Np.getitem xs i = Raise IndexError.
Proof.
  intros Hi. unfold Np.getitem, Np.norm_index.
  replace (i <? Z.of_nat (length xs)) with false by (symmetry; apply Z.ltb_ge; lia).
  replace (i <? 0) with false by (symmetry; apply Z.ltb_ge; lia).
  rewrite !andb_false_r. reflexivity.
Qed.

Section Cursor.

Context {py : PyBuiltins}.

Lemma point_runs (s : state) (v : Samples) (n : nat) :
  samples (mem s) (self s) = Some v -> aligned v n ->
  0 <= _point_index (self s) < Z.of_nat n ->
  exists p, point s = (Ok p, s) /\ point_at (_point_index (self s)) v = Some p.
Proof.
  intros Hv (Ht & Ho & Hc & Hu & Ha & Hb) Hcur.
  apply samples_Some in Hv.
  destruct Hv as (Gt & Go & (w & Gc) & Gu & Ga & Gb).
  unfold point, point_index, point_time, point_unix_time, point_offset,
    point_timing_comment, point_atomic_clock_error, point_ios_clock_offset.
  unfold time, offset, timing_comments, unix_time, atomic_clock_error, ios_clock_offset.
  unfold load_float64, load_int64, load_str, of_option. munfold. mcbn.
  repeat (first [ heap_step | getitem_at_cursor ]; mcbn).
  eexists. split; [reflexivity|]. point_at_cursor.
Qed.

Lemma point_beyond (s : state) (v : Samples) (n : nat) :
  samples (mem s) (self s) = Some v -> aligned v n ->
  Z.of_nat n <= _point_index (self s) ->
  point s = (Raise IndexError, s).
Proof.
  intros Hv (Ht & _) Hcur.
  apply samples_Some in Hv. destruct Hv as (Gt & _).
  unfold point, point_index, point_time, time.
  unfold load_float64, of_option. munfold. mcbn.
  rewrite Gt. mcbn. rewrite getitem_beyond by lia. reflexivity.
Qed.

Lemma set_point_index_prop_ok (s : state) (ts : list float64) (k : Z) :
  heap_float64 (mem s) (_time (self s)) = Some ts ->
  0 <= k < Z.of_nat (length ts) ->
  set_point_index_prop (PyInt k) s
    = (Ok tt, {| self := set_point_index k (self s); mem := mem s; out := out s |}).
Proof.
  intros Gt Hk. unfold set_point_index_prop, time, load_float64, of_option. munfold.
  rewrite Gt. mcbn. cbn [py_int].
  replace (k <? 0) with false by (symmetry; apply Z.ltb_ge; lia).
  replace (Z.of_nat (length ts) <=? k) with false by (symmetry; apply Z.leb_gt; lia).
  reflexivity.
Qed.

(** X7.  The setter of [point_index] keeps the cursor on a sample: whatever
    it is given, it ends without fault, leaves the arrays alone, and the
    cursor is again in [0, n-1].  A value [int] converts to a position in
    range becomes the cursor and nothing is printed; any other value leaves
    all attributes as they are and prints one line. *)
Theorem point_index_setter_keeps_cursor_in_range
    (s : state) (ts : list float64) (index : pyval) :
  heap_float64 (mem s) (_time (self s)) = Some ts ->
  0 <= _point_index (self s) < Z.of_nat (length ts) ->
  let s' := after (set_point_index_prop index) s in
  fst (set_point_index_prop index s) = Ok tt /\
  0 <= _point_index (self s') < Z.of_nat (length ts) /\
  mem s' = mem s /\
  (forall k, py_int index = Ok k -> 0 <= k < Z.of_nat (length ts) ->
             _point_index (self s') = k /\ out s' = out s) /\
  ((forall k, py_int index = Ok k -> k < 0 \/ Z.of_nat (length ts) <= k) ->
   self s' = self s /\ exists m, out s' = out s ++ [m]).
Proof.
  intros Gt Hcur s'. subst s'. unfold after.
  unfold set_point_index_prop, time, load_float64, of_option. munfold.
  rewrite Gt. mcbn.
  destruct (py_int index) as [k|e];
    [destruct (Z.ltb_spec k 0);
       [|destruct (Z.leb_spec (Z.of_nat (length ts)) k)]|];
    cbn [orb fst snd]; mcbn;
    (split; [reflexivity|]); (split; [lia|]); (split; [reflexivity|]); split.
  all: try (intros k' [= <-] Hr; first [lia | split; reflexivity]).
  all: try (intros k' Hk'; discriminate).
  all: intros Hout; try (destruct (Hout k eq_refl); lia).
  all: split; [reflexivity | eexists; reflexivity].
Qed.

(** X8.  The setter of [point_delete] brings the index it is given into
    range before it deletes: on a store of [n >= 2] aligned samples, a
    value [int] converts to [k] removes the sample at [k] cut to
    [0, n-1] from all six sequences - so 99 deletes the last sample and -5
    the first -, nothing is printed, and the cursor ends on that position,
    or on [n - 2] when the last sample went. *)
Theorem point_delete_setter_clamps
    (s : state) (v : Samples) (n : nat) (index : pyval) (k : Z) :
  samples (mem s) (self s) = Some v -> aligned v n -> (2 <= n)%nat ->
  py_int index = Ok k ->
  let i := Z.to_nat (Z.max 0 (Z.min k (Z.of_nat n - 1))) in
  exists s',
    set_point_delete index s = (Ok tt, s') /\
    samples (mem s') (self s') = Some (delete_sample i v) /\
    aligned (delete_sample i v) (n - 1) /\
    _point_index (self s') = (if Nat.eqb i (n - 1) then Z.of_nat n - 2 else Z.of_nat i) /\
    out s' = out s /\
    (forall l, (l < length (mem s))%nat -> mem s' !! l = mem s !! l).
Proof.
  intros Hv Hal Hn Hk i.
  pose proof Hal as (Ht & _).
  pose proof (samples_Some _ _ _ Hv) as (Gt & _).
  assert (Hi : (i < n)%nat) by (unfold i; lia).
  unfold set_point_delete. rewrite Hk.
  unfold time at 1. rewrite bind_assoc, bind_attr.
  rewrite (bind_load_float64 _ _ _ _ Gt). rewrite Ht.
  assert (Hclamp : (if Z.of_nat n <=? (if k <? 0 then 0 else k)
                    then Z.of_nat n - 1 else if k <? 0 then 0 else k) = Z.of_nat i).
  { unfold i. destruct (Z.ltb_spec k 0);
      [destruct (Z.leb_spec (Z.of_nat n) 0)|destruct (Z.leb_spec (Z.of_nat n) k)]; lia. }
  rewrite Hclamp.
  rewrite (bind_ok _ _ _ _ _ (set_point_index_prop_ok s _ (Z.of_nat i) Gt ltac:(lia))).
  set (s1 := {| self := set_point_index (Z.of_nat i) (self s); mem := mem s; out := out s |}).
  assert (Hv1 : samples (mem s1) (self s1) = Some v) by exact Hv.
  destruct (point_runs s1 v n Hv1 Hal) as (p & Hp & _); [cbn; lia|].
  destruct (_deletePoint_deletes s1 v n i PyNone Hv1 Hal Hn Hi eq_refl)
    as (s' & Hrun & Hs' & Hcur & Hframe & Hout & _).
  unfold point_delete. rewrite bind_assoc.
  rewrite (bind_ok _ _ _ _ _ Hp). rewrite bind_assoc.
  rewrite (bind_ok _ _ _ _ _ Hrun). cbn beta iota. rewrite bind_ret.
  exists s'. split; [reflexivity|]. split; [exact Hs'|].
  split; [apply aligned_delete_sample; assumption|].
  split; [rewrite Hcur; destruct (Nat.eqb i (n - 1)); reflexivity|].
  split; [exact Hout|exact Hframe].
Qed.

(** X9.  [_deletePoint] with an index below the cursor does not move the
    cursor: when the cursor is on the last of [n >= 2] samples and an
    earlier sample is deleted, the cursor keeps the value [n - 1], which is
    no position of the [n - 1] samples left, and reading [.point] raises
    [IndexError]. *)
Theorem _deletePoint_strands_cursor
    (s : state) (v : Samples) (n i : nat) (index : pyval) :
  samples (mem s) (self s) = Some v -> aligned v n -> (2 <= n)%nat ->
  _point_index (self s) = Z.of_nat n - 1 ->
  (i < n - 1)%nat ->
  delete_index s index = Ok (Z.of_nat i) ->
  let c := (_deletePoint index ;; point)%py in
  fst (c s) = Raise IndexError /\
  samples (mem (after c s)) (self (after c s)) = Some (delete_sample i v) /\
  _point_index (self (after c s)) = Z.of_nat n - 1.
Proof.
  intros Hv Hal Hn Hcur Hi Hidx c.
  destruct (_deletePoint_deletes s v n i index Hv Hal Hn ltac:(lia) Hidx)
    as (s' & Hrun & Hs' & Hcur' & _).
  replace (Nat.eqb i (n - 1)) with false in Hcur'
    by (symmetry; apply Nat.eqb_neq; lia).
  pose proof (aligned_delete_sample v n i Hal ltac:(lia)) as Hal'.
  unfold c, after. rewrite (bind_ok _ _ _ _ _ Hrun).
  rewrite (point_beyond s' _ _ Hs' Hal') by lia.
  cbn [fst snd]. rewrite Hcur', Hcur. repeat split. exact Hs'.
Qed.

End Cursor.

(** The theorem at a loaded run of three samples and the value 7. *)
Lemma point_index_setter_keeps_cursor_in_range_witness :
  let s := loaded [0; 1; 2] [5; 6; 7] in
  let ts := [of_int 0; of_int 1; of_int 2] in
  let s' := after (@set_point_index_prop sample_builtins (PyInt 7)) s in
  fst (@set_point_index_prop sample_builtins (PyInt 7) s) = Ok tt /\
  0 <= _point_index (self s') < Z.of_nat (length ts) /\
  mem s' = mem s /\
  (forall k, @py_int sample_builtins (PyInt 7) = Ok k -> 0 <= k < Z.of_nat (length ts) ->
             _point_index (self s') = k /\ out s' = out s) /\
  ((forall k, @py_int sample_builtins (PyInt 7) = Ok k -> k < 0 \/ Z.of_nat (length ts) <= k) ->
   self s' = self s /\ exists m, out s' = out s ++ [m]).
Proof.
  intros s ts.
  apply (@point_index_setter_keeps_cursor_in_range sample_builtins s ts (PyInt 7)).
  - vm_compute. reflexivity.
  - vm_compute. split; [discriminate|reflexivity].
Defined.

(** The theorem at a loaded run of three samples and the index 99. *)
Lemma point_delete_setter_clamps_witness :
  let s := loaded [0; 1; 2] [5; 6; 7] in
  let v := samples_of_csv (csv_of [0; 1; 2] [5; 6; 7]) in
  let i := Z.to_nat (Z.max 0 (Z.min 99 (Z.of_nat 3 - 1))) in
  exists s',
    @set_point_delete sample_builtins (PyInt 99) s = (Ok tt, s') /\
    samples (mem s') (self s') = Some (delete_sample i v) /\
    aligned (delete_sample i v) (3 - 1) /\
    _point_index (self s') = (if Nat.eqb i (3 - 1) then Z.of_nat 3 - 2 else Z.of_nat i) /\
    out s' = out s /\
    (forall l, (l < length (mem s))%nat -> mem s' !! l = mem s !! l).
Proof.
  intros s v.
  apply (@point_delete_setter_clamps sample_builtins s v 3 (PyInt 99) 99).
  - vm_compute. reflexivity.
  - vm_compute. repeat split.
  - lia.
  - reflexivity.
Defined.

(** The theorem at a run of three samples with the cursor on the last one
    and the index 0. *)
Lemma _deletePoint_strands_cursor_witness :
  let s := after (@set_point_index_prop sample_builtins (PyInt 2)) (loaded [0; 1; 2] [5; 6; 7]) in
  let v := samples_of_csv (csv_of [0; 1; 2] [5; 6; 7]) in
  let c := (@_deletePoint sample_builtins (PyInt 0) ;; point)%py in
  fst (c s) = Raise IndexError /\
  samples (mem (after c s)) (self (after c s)) = Some (delete_sample 0 v) /\
  _point_index (self (after c s)) = Z.of_nat 3 - 1.
Proof.
  intros s v.
  apply (@_deletePoint_strands_cursor sample_builtins s v 3 0 (PyInt 0)).
  - vm_compute. reflexivity.
  - vm_compute. repeat split.
  - lia.
  - vm_compute. reflexivity.
  - lia.
  - reflexivity.
Defined.

(** ** Duplicating the current point *)

Lemma lookup_insert_at_succ {A} (l : list A) (c : nat) (x : A) :
  (c <= length l)%nat -> insert_at c x l !! S c = l !! c.
Proof.
  intros Hc. unfold insert_at.
  rewrite lookup_app_r by (rewrite length_take; lia).
  rewrite length_take. replace (S c - c `min` length l)%nat with 1%nat by lia.
  change ((x :: drop c l) !! 1%nat) with (drop c l !! 0%nat).
  rewrite lookup_drop. f_equal. lia.
Qed.

Lemma getitem_insert_at_succ {A} (l : list A) (c : nat) (x y : A) :
  l !! c = Some y -> Np.getitem (insert_at c x l) (Z.of_nat c + 1) = Ok y.
Proof.
  intros H. apply getitem_succ. rewrite lookup_insert_at_succ; [exact H|].
  apply lookup_lt_Some in H. lia.
Qed.

Lemma in_range_false (len : nat) (i : Z) :
  0 <= i < Z.of_nat len -> (i <? 0) || (Z.of_nat len <=? i) = false.
Proof.
  intros H. apply orb_false_iff. split; [apply Z.ltb_ge|apply Z.leb_gt]; lia.
Qed.

Lemma point_at_Some (i : Z) (v : Samples) (p : Point) :
  point_at i v = Some p ->
  p_point_index p = i /\
  s_time v !! Z.to_nat i = Some (p_time p) /\
  s_unix_time v !! Z.to_nat i = Some (p_unix_time p) /\
  s_offset v !! Z.to_nat i = Some (p_offset p) /\
  s_comment v !! Z.to_nat i = Some (p_timing_comment p) /\
  s_atomic_clock_error v !! Z.to_nat i = Some (p_atomic_clock_error p) /\
  s_ios_clock_offset v !! Z.to_nat i = Some (p_ios_clock_offset p).
Proof.
  unfold point_at. intros H.
  destruct (s_time v !! Z.to_nat i); [|discriminate].
  destruct (s_unix_time v !! Z.to_nat i); [|discriminate].
  destruct (s_offset v !! Z.to_nat i); [|discriminate].
  destruct (s_comment v !! Z.to_nat i); [|discriminate].
  destruct (s_atomic_clock_error v !! Z.to_nat i); [|discriminate].
  destruct (s_ios_clock_offset v !! Z.to_nat i); [|discriminate].
  cbn in H. injection H as <-. cbn. repeat split.
Qed.

Section Duplication.

Context {py : PyBuiltins}.

(** X10.  Reading [point_insert] duplicates the sample under the cursor: on
    a store of [n] aligned samples with the cursor on one of them, a copy of
    that sample - its comment cut to the width of the comment array - is put
    in front of it in all six sequences, which stay aligned with [n + 1]
    entries; the cursor moves on by one, so it is on the original again, and
    the point returned is the one read before with that new index.  Nothing
    is printed and the arrays that were in the store are as they were. *)
Theorem point_insert_duplicates (s : state) (v : Samples) (n w : nat) (p0 : Point) :
  samples (mem s) (self s) = Some v -> aligned v n ->
  comment_width (mem s) (self s) = Some w ->
  0 <= _point_index (self s) < Z.of_nat n ->
  point_at (_point_index (self s)) v = Some p0 ->
  let v' := insert_sample (Z.to_nat (_point_index (self s)))
              (p_time p0) (p_offset p0) (Np.fit w (p_timing_comment p0))
              (p_unix_time p0) (p_atomic_clock_error p0) (p_ios_clock_offset p0) v in
  exists s',
    point_insert s
      = (Ok {| p_point_index := _point_index (self s) + 1; p_time := p_time p0;
               p_unix_time := p_unix_time p0; p_offset := p_offset p0;
               p_timing_comment := p_timing_comment p0;
               p_atomic_clock_error := p_atomic_clock_error p0;
               p_ios_clock_offset := p_ios_clock_offset p0 |}, s') /\
    samples (mem s') (self s') = Some v' /\
    aligned v' (S n) /\
    _point_index (self s') = _point_index (self s) + 1 /\
    out s' = out s /\
    (forall l, (l < length (mem s))%nat -> mem s' !! l = mem s !! l).
Proof.
  intros Hv Hal Hw Hcur Hp0 v'. subst v'.
  pose proof Hal as (Ht & Ho & Hc & Hu & Ha & Hb).
  apply samples_Some in Hv.
  destruct Hv as (Gt & Go & (w' & Gc) & Gu & Ga & Gb).
  unfold comment_width in Hw. rewrite Gc in Hw. cbn in Hw. injection Hw as ->.
  apply point_at_Some in Hp0.
  destruct Hp0 as (_ & Lt & Lu & Lo & Lc & La & Lb).
  set (c := Z.to_nat (_point_index (self s))) in *.
  assert (Hcz : _point_index (self s) = Z.of_nat c) by (unfold c; lia).
  assert (Hcn : (c < n)%nat) by (unfold c; lia).
  pose proof (getitem_nat _ _ _ Lt) as Kt. pose proof (getitem_nat _ _ _ Lu) as Ku.
  pose proof (getitem_nat _ _ _ Lo) as Ko. pose proof (getitem_nat _ _ _ Lc) as Kc.
  pose proof (getitem_nat _ _ _ La) as Ka. pose proof (getitem_nat _ _ _ Lb) as Kb.
  unfold point_insert, set_point_index_prop, point, point_index, point_time,
    point_unix_time, point_offset, point_timing_comment, point_atomic_clock_error,
    point_ios_clock_offset.
  unfold time, offset, timing_comments, unix_time, atomic_clock_error, ios_clock_offset.
  unfold load_float64, load_int64, load_str, of_option. munfold. mcbn.
  rewrite Hcz. cbn [py_int].
  repeat (first [ heap_step
                | rewrite Kt | rewrite Ku | rewrite Ko | rewrite Kc | rewrite Ka
                | rewrite Kb
                | rewrite insert_nat by lia
                | rewrite in_range_false by (rewrite length_insert_at by lia; lia)
                | erewrite getitem_insert_at_succ by eassumption ];
          mcbn; rewrite ?Hcz).
  eexists. split; [reflexivity|]. mcbn.
  split; [unfold samples; mcbn;
          repeat (heap_step; cbn [mbind option_bind]); reflexivity|].
  split; [apply aligned_insert_sample; [exact Hal|lia]|].
  split; [reflexivity|]. split; [reflexivity|].
  intros l Hl. rewrite !lookup_app_l by (rewrite ?length_app; cbn [length]; lia).
  reflexivity.
Qed.

End Duplication.

(** The theorem at a loaded run of three samples, the cursor on the
    first. *)
Lemma point_insert_duplicates_witness :
  let s := loaded [0; 1; 2] [5; 6; 7] in
  let v := samples_of_csv (csv_of [0; 1; 2] [5; 6; 7]) in
  let p0 := {| p_point_index := 0; p_time := of_int 0; p_unix_time := 1000;
               p_offset := of_int 5; p_timing_comment := "-";
               p_atomic_clock_error := zero; p_ios_clock_offset := zero |} in
  let v' := insert_sample (Z.to_nat (_point_index (self s)))
              (p_time p0) (p_offset p0) (Np.fit 1 (p_timing_comment p0))
              (p_unix_time p0) (p_atomic_clock_error p0) (p_ios_clock_offset p0) v in
  exists s',
    @point_insert sample_builtins s
      = (Ok {| p_point_index := _point_index (self s) + 1; p_time := p_time p0;
               p_unix_time := p_unix_time p0; p_offset := p_offset p0;
               p_timing_comment := p_timing_comment p0;
               p_atomic_clock_error := p_atomic_clock_error p0;
               p_ios_clock_offset := p_ios_clock_offset p0 |}, s') /\
    samples (mem s') (self s') = Some v' /\
    aligned v' 4 /\
    _point_index (self s') = _point_index (self s) + 1 /\
    out s' = out s /\
    (forall l, (l < length (mem s))%nat -> mem s' !! l = mem s !! l).
Proof.
  intros s v p0.
  apply (@point_insert_duplicates sample_builtins s v 3 1 p0).
  - vm_compute. reflexivity.
  - vm_compute. repeat split.
  - vm_compute. reflexivity.
  - vm_compute. split; [discriminate|reflexivity].
  - vm_compute. reflexivity.
Defined.

(** ** Shifting the time axis *)

Lemma in_int64_bounds (z : Z) : in_int64 z = true <-> - 2 ^ 63 <= z <= 2 ^ 63 - 1.
Proof.
  unfold in_int64, int64_min, int64_max.
  rewrite andb_true_iff, !Z.leb_le. reflexivity.
Qed.

Lemma wrap64_in_range (u : Z) : in_int64 u = true -> wrap64 u = u.
Proof.
  rewrite in_int64_bounds. intros H. unfold wrap64.
  rewrite Z.mod_small by lia. lia.
Qed.

Lemma wrap64_cancel (u d : Z) : in_int64 u = true -> wrap64 (wrap64 (u + d) - d) = u.
Proof.
  intros H. rewrite <- (wrap64_in_range u H) at 2. unfold wrap64. f_equal.
  replace ((u + d + 2 ^ 63) mod 2 ^ 64 - 2 ^ 63 - d + 2 ^ 63)
    with ((u + d + 2 ^ 63) mod 2 ^ 64 - d) by lia.
  rewrite Zminus_mod_idemp_l. f_equal. lia.
Qed.

Lemma heap_kinds_differ (h : list ndarray) (l l' : nat) (xs : list float64) (us : list Z) :
  heap_float64 h l = Some xs -> heap_int64 h l' = Some us -> l <> l'.
Proof.
  unfold heap_float64, heap_int64. intros H1 H2 ->.
  destruct (h !! l') as [[]|]; discriminate.
Qed.

Lemma heap_int64_store (h : list ndarray) (l : nat) (xs ys : list Z) :
  heap_int64 h l = Some xs -> heap_int64 (<[l := Int64Arr ys]> h) l = Some ys.
Proof.
  intros H. apply heap_int64_lt in H. unfold heap_int64.
  rewrite list_lookup_insert_eq by assumption. reflexivity.
Qed.

Lemma heap_int64_store_ne (h : list ndarray) (l l' : nat) (a : ndarray) :
  l <> l' -> heap_int64 (<[l := a]> h) l' = heap_int64 h l'.
Proof. intros H. unfold heap_int64. rewrite list_lookup_insert_ne by exact H. reflexivity. Qed.

Lemma heap_float64_store_ne (h : list ndarray) (l l' : nat) (a : ndarray) :
  l <> l' -> heap_float64 (<[l := a]> h) l' = heap_float64 h l'.
Proof. intros H. unfold heap_float64. rewrite list_lookup_insert_ne by exact H. reflexivity. Qed.

Section TimeShifts.

Context {py : PyBuiltins}.

(** X11.  [ShiftTime] with a float raises [TypeError] half-way: the times
    have been shifted in place by then, while the timestamps - an [int64]
    array that [+=] with a float cannot be cast back to - and the
    accumulator [_time_shifted] are as before.  Nothing is printed. *)
Theorem ShiftTime_float_shifts_time_then_raises
    (s : state) (ts : list float64) (us : list Z) (d : float64) :
  heap_float64 (mem s) (_time (self s)) = Some ts ->
  heap_int64 (mem s) (_unix_time (self s)) = Some us ->
  ShiftTime (PyFloat d) s
    = (Raise TypeError,
       {| self := self s;
          mem := <[_time (self s) := Float64Arr (map (fun x => add x d) ts)]> (mem s);
          out := out s |}).
Proof.
  intros Gt Gu. pose proof (heap_kinds_differ _ _ _ _ _ Gt Gu) as Hne.
  unfold ShiftTime. cbn [py_float].
  repeat mstep.
  unfold Np.iadd_float64, Np.float64_operand. repeat mstep.
  erewrite bind_load_int64
    by (cbn [mem]; rewrite heap_int64_store_ne by exact Hne; exact Gu).
  reflexivity.
Qed.

Lemma ShiftTime_int (s : state) (ts : list float64) (us : list Z) (k : Z) (a : pyval) :
  heap_float64 (mem s) (_time (self s)) = Some ts ->
  heap_int64 (mem s) (_unix_time (self s)) = Some us ->
  in_int64 (k * 60 * 60 * 24) = true ->
  py_add (_time_shifted (self s)) (PyInt k) = Ok a ->
  exists o',
    ShiftTime (PyInt k) s
    = (Ok tt,
       {| self := set_time_shifted a (self s);
          mem := <[_unix_time (self s) :=
                     Int64Arr (map (fun x => wrap64 (x + k * 60 * 60 * 24)) us)]>
                   (<[_time (self s) := Float64Arr (map (fun x => add x (of_int k)) ts)]>
                      (mem s));
          out := o' |}).
Proof.
  intros Gt Gu Hk Ha. pose proof (heap_kinds_differ _ _ _ _ _ Gt Gu) as Hne.
  pose proof (proj1 (in_int64_bounds _) Hk) as Hb.
  assert (Hop : (int64_min <=? k) && (k <? 2 ^ 64) = true).
  { apply andb_true_iff. unfold int64_min. split; [apply Z.leb_le|apply Z.ltb_lt]; lia. }
  unfold ShiftTime.
  destruct (py_float (PyInt k)); repeat mstep.
  all: unfold Np.iadd_float64, Np.float64_operand; rewrite Hop; repeat mstep.
  all: erewrite bind_load_int64
         by (cbn [mem]; rewrite heap_int64_store_ne by exact Hne; exact Gu).
  all: cbn [times_86400 py_mul_int]; repeat mstep.
  all: unfold Np.iadd_int64, Np.int64_operand; rewrite Hk; repeat mstep.
  all: rewrite Ha; mcbn; unfold set_attr; mcbn; eexists; reflexivity.
Qed.

Lemma ShiftTimeReset_int (s : state) (ts : list float64) (us : list Z) (k : Z) :
  heap_float64 (mem s) (_time (self s)) = Some ts ->
  heap_int64 (mem s) (_unix_time (self s)) = Some us ->
  in_int64 (k * 60 * 60 * 24) = true ->
  _time_shifted (self s) = PyInt k ->
  ShiftTimeReset s
    = (Ok tt,
       {| self := set_time_shifted (PyInt 0) (self s);
          mem := <[_unix_time (self s) :=
                     Int64Arr (map (fun x => wrap64 (x - k * 60 * 60 * 24)) us)]>
                   (<[_time (self s) := Float64Arr (map (fun x => sub x (of_int k)) ts)]>
                      (mem s));
          out := out s |}).
Proof.
  intros Gt Gu Hk Ha. pose proof (heap_kinds_differ _ _ _ _ _ Gt Gu) as Hne.
  pose proof (proj1 (in_int64_bounds _) Hk) as Hb.
  assert (Hop : (int64_min <=? k) && (k <? 2 ^ 64) = true).
  { apply andb_true_iff. unfold int64_min. split; [apply Z.leb_le|apply Z.ltb_lt]; lia. }
  unfold ShiftTimeReset.
  repeat mstep.
  rewrite Ha. unfold Np.isub_float64, Np.float64_operand. rewrite Hop. repeat mstep.
  erewrite bind_load_int64
    by (cbn [mem]; rewrite heap_int64_store_ne by exact Hne; exact Gu).
  repeat mstep. rewrite Ha.
  cbn [times_86400 py_mul_int]. repeat mstep.
  unfold Np.isub_int64, Np.int64_operand. rewrite Hk. repeat mstep.
  reflexivity.
Qed.

(** X12.  On a run whose time accumulator is 0, [ShiftTime] with an integer
    number of days [k] followed by [ShiftTimeReset()] gives every timestamp
    back exactly - the [int64] arithmetic wraps but undoes itself - while a
    time [x] ends as [(x + k) - k] in binary64 arithmetic.  The attributes
    are as before, and no other array is touched.  [k * 86400] has to fit
    [int64]. *)
Theorem ShiftTimeReset_restores_timestamps
    (s : state) (ts : list float64) (us : list Z) (k : Z) :
  heap_float64 (mem s) (_time (self s)) = Some ts ->
  heap_int64 (mem s) (_unix_time (self s)) = Some us ->
  Forall (fun u => in_int64 u = true) us ->
  _time_shifted (self s) = PyInt 0 ->
  in_int64 (k * 60 * 60 * 24) = true ->
  let c := (ShiftTime (PyInt k) ;; ShiftTimeReset)%py in
  fst (c s) = Ok tt /\
  self (after c s) = self s /\
  heap_int64 (mem (after c s)) (_unix_time (self s)) = Some us /\
  heap_float64 (mem (after c s)) (_time (self s))
    = Some (map (fun x => sub (add x (of_int k)) (of_int k)) ts) /\
  (forall l, l <> _time (self s) -> l <> _unix_time (self s) ->
             mem (after c s) !! l = mem s !! l).
Proof.
  intros Gt Gu Hus Hacc Hk c. subst c. unfold after.
  pose proof (heap_kinds_differ _ _ _ _ _ Gt Gu) as Hne.
  assert (Ha : py_add (_time_shifted (self s)) (PyInt k) = Ok (PyInt k))
    by (rewrite Hacc; reflexivity).
  destruct (ShiftTime_int s ts us k _ Gt Gu Hk Ha) as (o' & Hrun).
  rewrite (bind_ok _ _ _ _ _ Hrun).
  set (s1 := {| self := _; mem := _; out := _ |}).
  assert (Gt1 : heap_float64 (mem s1) (_time (self s1))
                = Some (map (fun x => add x (of_int k)) ts)).
  { subst s1. mcbn. rewrite heap_float64_store_ne by congruence.
    eapply heap_float64_store; eauto. }
  assert (Gu1 : heap_int64 (mem s1) (_unix_time (self s1))
                = Some (map (fun x => wrap64 (x + k * 60 * 60 * 24)) us)).
  { subst s1. mcbn. eapply heap_int64_store.
    rewrite heap_int64_store_ne by exact Hne. exact Gu. }
  rewrite (ShiftTimeReset_int s1 _ _ k Gt1 Gu1 Hk eq_refl).
  subst s1. cbn [fst snd]. mcbn.
  split; [reflexivity|]. split; [|split; [|split]].
  - destruct (self s); cbn in *; subst; reflexivity.
  - erewrite heap_int64_store.
    + f_equal. rewrite map_map. rewrite <- (map_id us) at 2.
      apply map_ext_Forall. eapply Forall_impl; [exact Hus|].
      intros u Hu. cbn. apply wrap64_cancel, Hu.
    + rewrite heap_int64_store_ne by exact Hne. eapply heap_int64_store.
      rewrite heap_int64_store_ne by exact Hne. exact Gu.
  - rewrite heap_float64_store_ne by congruence.
    rewrite map_map. erewrite heap_float64_store; [reflexivity|].
    rewrite heap_float64_store_ne by congruence.
    eapply heap_float64_store; eauto.
  - intros l H1 H2. rewrite !list_lookup_insert_ne by congruence. reflexivity.
Qed.

End TimeShifts.

(** X13.  With both accumulators at 0, as after loading, [ShiftOffsetReset]
    and [ShiftTimeReset] change nothing: subtracting 0 leaves every offset,
    time and timestamp as it is, and the state after the two calls is the
    state before. *)
Theorem shift_resets_at_zero_change_nothing
    (s : state) (ts os : list float64) (us : list Z) :
  heap_float64 (mem s) (_time (self s)) = Some ts ->
  heap_float64 (mem s) (_offset (self s)) = Some os ->
  heap_int64 (mem s) (_unix_time (self s)) = Some us ->
  Forall (fun u => in_int64 u = true) us ->
  _offset_shifted (self s) = PyInt 0 ->
  _time_shifted (self s) = PyInt 0 ->
  (ShiftOffsetReset ;; ShiftTimeReset)%py s = (Ok tt, s).
Proof.
  intros Gt Go Gu Hus Ho Ht.
  assert (Hmem : forall l xs, heap_float64 (mem s) l = Some xs ->
                              <[l := Float64Arr xs]> (mem s) = mem s).
  { intros l xs H. apply list_insert_id. apply heap_float64_lookup, H. }
  assert (Hself1 : set_offset_shifted (PyInt 0) (self s) = self s).
  { destruct (self s); cbn in *; subst; reflexivity. }
  assert (Hself2 : set_time_shifted (PyInt 0) (self s) = self s).
  { destruct (self s); cbn in *; subst; reflexivity. }
  unfold ShiftOffsetReset. repeat mstep.
  rewrite Ho. unfold Np.isub_float64, Np.float64_operand.
  change ((int64_min <=? 0) && (0 <? 2 ^ 64)) with true. cbn iota.
  rewrite map_sub_zero. repeat mstep. rewrite (Hmem _ _ Go), Hself1.
  assert (Hk : in_int64 (0 * 60 * 60 * 24) = true) by reflexivity.
  assert (Gt' : heap_float64 (mem {| self := self s; mem := mem s; out := out s |})
                  (_time (self {| self := self s; mem := mem s; out := out s |}))
                = Some ts) by exact Gt.
  assert (Gu' : heap_int64 (mem {| self := self s; mem := mem s; out := out s |})
                  (_unix_time (self {| self := self s; mem := mem s; out := out s |}))
                = Some us) by exact Gu.
  rewrite (ShiftTimeReset_int _ ts us 0 Gt' Gu' Hk Ht). mcbn.
  rewrite map_sub_zero, (Hmem _ _ Gt), Hself2.
  replace (map (fun x => wrap64 (x - 0 * 60 * 60 * 24)) us) with us.
  - rewrite list_insert_id by (apply heap_int64_lookup, Gu). destruct s; reflexivity.
  - rewrite <- (map_id us) at 1. apply map_ext_Forall.
    eapply Forall_impl; [exact Hus|]. intros u Hu. cbn.
    rewrite Z.sub_0_r. symmetry. apply wrap64_in_range, Hu.
Qed.

(** The theorem at a loaded run of two samples and half a day. *)
Lemma ShiftTime_float_shifts_time_then_raises_witness :
  let s := loaded [0; 1] [1; 2] in
  let d := div (of_int 1) (of_int 2) in
  @ShiftTime sample_builtins (PyFloat d) s
    = (Raise TypeError,
       {| self := self s;
          mem := <[_time (self s) :=
                     Float64Arr (map (fun x => add x d) [of_int 0; of_int 1])]> (mem s);
          out := out s |}).
Proof.
  intros s d.
  apply (@ShiftTime_float_shifts_time_then_raises sample_builtins s
           [of_int 0; of_int 1] [1000; 87400] d).
  - vm_compute. reflexivity.
  - vm_compute. reflexivity.
Defined.

(** The theorem at a loaded run of two samples and one day. *)
Lemma ShiftTimeReset_restores_timestamps_witness :
  let s := loaded [0; 1] [1; 2] in
  let ts := [of_int 0; of_int 1] in
  let us := [1000; 87400] in
  let c := (@ShiftTime sample_builtins (PyInt 1) ;; ShiftTimeReset)%py in
  fst (c s) = Ok tt /\
  self (after c s) = self s /\
  heap_int64 (mem (after c s)) (_unix_time (self s)) = Some us /\
  heap_float64 (mem (after c s)) (_time (self s))
    = Some (map (fun x => sub (add x (of_int 1)) (of_int 1)) ts) /\
  (forall l, l <> _time (self s) -> l <> _unix_time (self s) ->
             mem (after c s) !! l = mem s !! l).
Proof.
  intros s ts us.
  apply (@ShiftTimeReset_restores_timestamps sample_builtins s ts us 1).
  - vm_compute. reflexivity.
  - vm_compute. reflexivity.
  - repeat constructor.
  - vm_compute. reflexivity.
  - reflexivity.
Defined.

(** The theorem at a loaded run of two samples. *)
Lemma shift_resets_at_zero_change_nothing_witness :
  (ShiftOffsetReset ;; ShiftTimeReset)%py (loaded [0; 1] [1; 2])
    = (Ok tt, loaded [0; 1] [1; 2]).
Proof.
  apply (shift_resets_at_zero_change_nothing (loaded [0; 1] [1; 2])
           [of_int 0; of_int 1] [of_int 1; of_int 2] [1000; 87400]).
  - vm_compute. reflexivity.
  - vm_compute. reflexivity.
  - vm_compute. reflexivity.
  - repeat constructor.
  - vm_compute. reflexivity.
  - vm_compute. reflexivity.
Defined.

(** ** Arguments the module functions turn down *)

Lemma concat_check_refuses (timing_runs : list pyobj) (s : state) :
  Exists not_a_run timing_runs ->
  concat_check timing_runs s
    = (Ok false, {| self := self s; mem := mem s; out := out s ++ [not_a_run_text] |}).
Proof.
  induction timing_runs as [|obj rest IH]; intros Hex.
  - inversion Hex.
  - cbn [concat_check]. unfold not_a_run in *.
    destruct (class_type_of obj) as [t|] eqn:Et; [|reflexivity].
    destruct (String.eqb t "TimingRun") eqn:E; cbn [negb]; [|reflexivity].
    apply String.eqb_eq in E. subst t.
    inversion Hex as [? ? Hhd|? ? Htl]; subst; [congruence|].
    apply IH, Htl.
Qed.

(** X14.  [concatTimingRuns] turns down a list of fewer than two objects,
    and a list in which some object is not a TimingRun: it prints one line
    and returns [None]; nothing has been copied and no run has changed. *)
Theorem concatTimingRuns_refuses
    (timing_runs : list pyobj) (connect_offset skip_first : bool) (s : state) :
  (length timing_runs < 2)%nat \/ Exists not_a_run timing_runs ->
  exists m,
    (m = too_few_runs_text \/ m = not_a_run_text) /\
    concatTimingRuns timing_runs connect_offset skip_first s
      = (Ok None, {| self := self s; mem := mem s; out := out s ++ [m] |}).
Proof.
  intros Hcase. unfold concatTimingRuns.
  destruct (Z.ltb_spec 1 (Z.of_nat (length timing_runs))) as [Hlen|Hlen]; cbn [negb].
  - destruct Hcase as [Hshort|Hbad]; [lia|].
    exists not_a_run_text. split; [right; reflexivity|].
    rewrite (bind_ok _ _ _ _ _ (concat_check_refuses _ s Hbad)). reflexivity.
  - exists too_few_runs_text. split; [left; reflexivity|]. reflexivity.
Qed.

(** The theorem at a run followed by a number. *)
Lemma concatTimingRuns_refuses_witness :
  let s := loaded [0; 1] [1; 2] in
  exists m,
    (m = too_few_runs_text \/ m = not_a_run_text) /\
    concatTimingRuns [ObjTimingRun (self s); ObjOther (PyInt 3)] true false s
      = (Ok None, {| self := self s; mem := mem s; out := out s ++ [m] |}).
Proof.
  intros s.
  apply (concatTimingRuns_refuses [ObjTimingRun (self s); ObjOther (PyInt 3)] true false s).
  right. apply Exists_cons_tl, Exists_cons_hd. discriminate.
Defined.

Section Multiplier.

Context {py : PyBuiltins}.


End Multiplier.


(** ** The run concatenation returns *)

Lemma seam_join_aligned (connect_offset : bool) (N1 : nat) (acc b res : Samples)
    (n m : nat) :
  seam_join connect_offset N1 acc b = Some res ->
  aligned acc n -> aligned b m -> aligned res (n + (m - N1)).
Proof.
  unfold seam_join. intros H (At & Ao & Ac & Au & Aa & Ab) (Bt & Bo & Bc & Bu & Ba & Bb).
  destruct (last (s_time acc)); [|discriminate].
  destruct (last (s_unix_time acc)); [|discriminate].
  cbn [mbind option_bind] in H.
  destruct (if connect_offset then _ else _); [|discriminate].
  cbn [mbind option_bind] in H. injection H as <-.
  unfold aligned. cbn.
  rewrite !length_app, !length_map, !length_drop. repeat split; lia.
Qed.

Lemma join_all_aligned (connect_offset : bool) (N1 : nat) (bs : list Samples) :
  forall (acc res : Samples),
    nonempty acc -> Forall nonempty bs ->
    join_all connect_offset N1 acc bs = Some res ->
    aligned res (length (s_time acc)
                 + sum_list (map (fun b => length (s_time b) - N1)%nat bs)).
Proof.
  induction bs as [|b bs IH]; intros acc res Hacc Hbs Hjoin.
  - cbn in Hjoin. injection Hjoin as <-. cbn. rewrite Nat.add_0_r.
    destruct Hacc as (n & Hal & _). pose proof Hal as (Ht & _). rewrite Ht. exact Hal.
  - inversion Hbs as [|? ? Hb Hbs']; subst.
    cbn [join_all] in Hjoin.
    destruct (seam_join connect_offset N1 acc b) as [acc'|] eqn:E; [|discriminate].
    destruct Hacc as (n & Hal & Hn). destruct Hb as (m & Hbl & Hm).
    pose proof (seam_join_aligned _ _ _ _ _ _ _ E Hal Hbl) as Hal'.
    assert (Hne : nonempty acc') by (exists (n + (m - N1))%nat; split; [exact Hal'|lia]).
    pose proof (IH acc' res Hne Hbs' Hjoin) as Hres.
    pose proof Hal as (Ht & _). pose proof Hbl as (Bt & _). pose proof Hal' as (Ht' & _).
    cbn [map sum_list]. rewrite Ht' in Hres. rewrite Ht, Bt.
    change (id (m - N1)%nat) with (m - N1)%nat.
    rewrite Nat.add_assoc. exact Hres.
Qed.

(** X15.  The run [concatTimingRuns] returns for two or more loaded runs,
    each with at least one sample, is a run of its own: its six sequences
    are aligned and as long as the first run plus, for every further run,
    its length less the skipped sample; the cursor and both shift
    accumulators are 0 whatever they were in the runs given; header and file
    name are placeholders, with the fifth header cell and the path of the
    first run kept; and its snapshot refers to the arrays of the result, so
    that [Reset] on it leads back to the concatenation.  Nothing is
    printed. *)
Theorem concatTimingRuns_returns_a_fresh_run
    (s : state) (first : TimingRun) (rest : list TimingRun)
    (a : Samples) (bs : list Samples) (connect_offset skip_first : bool) (h4 : string) :
  rest <> [] ->
  Forall (fun r => _class_type r = "TimingRun"%string) (first :: rest) ->
  samples (mem s) first = Some a ->
  original_data_ok (mem s) (_original_data first) ->
  Forall2 (fun r b => samples (mem s) r = Some b) rest bs ->
  Forall nonempty (a :: bs) ->
  _header first !! 4%nat = Some h4 ->
  let N1 := (if skip_first then 1 else 0)%nat in
  exists r s' res,
    concatTimingRuns (map ObjTimingRun (first :: rest)) connect_offset skip_first s
      = (Ok (Some r), s') /\
    samples (mem s') r = Some res /\
    aligned res (length (s_time a)
                 + sum_list (map (fun b => length (s_time b) - N1)%nat bs)) /\
    _point_index r = 0 /\ _offset_shifted r = PyInt 0 /\ _time_shifted r = PyInt 0 /\
    _header r = ["|watch|"; "|watch comment|"; "|file comment|"; "|?|"; h4]%string /\
    _file r = "|file|"%string /\ _watch_index r = -1 /\ _path r = _path first /\
    snapshot_is_current r /\
    out s' = out s.
Proof.
  intros Hne Hcls Ha Hod Hbs Hnon Hh4 N1.
  inversion Hnon as [|? ? Hna Hnbs]; subst.
  destruct (join_all_nonempty connect_offset N1 bs a Hna Hnbs) as (res & Hjoin).
  destruct (concatTimingRuns_runs s first rest a bs connect_offset skip_first h4 res
              Hne Hcls Ha Hod Hbs Hh4 Hjoin)
    as (r & s' & Hrun & Hres & _ & Hout & Hhdr & Hpi & Hos & Hts & Hfile & Hwi & Hpath
        & Hsnap).
  exists r, s', res.
  split; [exact Hrun|]. split; [exact Hres|].
  split; [exact (join_all_aligned _ _ _ _ _ Hna Hnbs Hjoin)|].
  repeat split; assumption.
Qed.

(** The theorem at two loaded runs of three samples each. *)
Lemma concatTimingRuns_returns_a_fresh_run_witness :
  let s := loaded_two [0; 1; 2] [3; 4; 5] [0; 1; 2] [1; 2; 3] in
  let first := self (loaded [0; 1; 2] [3; 4; 5]) in
  let rest := [self s] in
  let a := samples_of_csv (csv_of [0; 1; 2] [3; 4; 5]) in
  let bs := [samples_of_csv (csv_of [0; 1; 2] [1; 2; 3])] in
  let N1 := (if true then 1 else 0)%nat in
  exists r s' res,
    concatTimingRuns (map ObjTimingRun (first :: rest)) true true s
      = (Ok (Some r), s') /\
    samples (mem s') r = Some res /\
    aligned res (length (s_time a)
                 + sum_list (map (fun b => length (s_time b) - N1)%nat bs)) /\
    _point_index r = 0 /\ _offset_shifted r = PyInt 0 /\ _time_shifted r = PyInt 0 /\
    _header r = ["|watch|"; "|watch comment|"; "|file comment|"; "|?|"; "first"]%string /\
    _file r = "|file|"%string /\ _watch_index r = -1 /\ _path r = _path first /\
    snapshot_is_current r /\
    out s' = out s.
Proof.
  intros s first rest a bs.
  apply (concatTimingRuns_returns_a_fresh_run s first rest a bs true true "first").
  - discriminate.
  - repeat constructor.
  - vm_compute. reflexivity.
  - vm_compute. repeat split; eexists; reflexivity.
  - constructor; [vm_compute; reflexivity|constructor].
  - repeat constructor; exists 3%nat; (split; [repeat split|lia]).
  - reflexivity.
Defined.
